(** * FlashFAT: a FAT-like table of append-only files over NOR flash

    A shallow embedding of [src/FlashFAT.hpp] and [src/FlashFAT.cpp].

    - Integers are [Z]; every C++ conversion to a fixed-width unsigned
      type is written out with [u8], [u16] or [u32].
    - The engine object is the record [FlashFAT]; every member function
      takes the object and returns the new object together with its
      return value.
    - An access outside a fixed-size array is undefined behaviour in C++.
      The member functions therefore live in the [option] monad, and
      [None] stands for "the call indexed an array outside its bounds";
      the buffer that the caller passes to [read] counts as an array of
      the [length] bytes asked for.
    - The flash chip driver ([W25Q64FV.hpp]) is not part of the sources;
      [Module W25Q64FV] models it from the transport interface of the
      specification, write-enable latch included. *)

From Stdlib Require Import ZArith Lia.
From stdpp Require Import base option list.

Local Open Scope Z_scope.

(** ** Fixed-width unsigned integers *)

Definition u8 (z : Z) : Z := z mod 2 ^ 8.
Definition u16 (z : Z) : Z := z mod 2 ^ 16.
Definition u32 (z : Z) : Z := z mod 2 ^ 32.

(** ** Fixed-size arrays indexed by machine integers *)

Definition arr_get {A} (a : list A) (i : Z) : option A :=
  if decide (0 <= i) then a !! Z.to_nat i else None.

Definition arr_set {A} (a : list A) (i : Z) (x : A) : option (list A) :=
  if decide (0 <= i < Z.of_nat (length a))
  then Some (<[Z.to_nat i := x]> a) else None.

(** [arr_slice a i n] is the block of [n] cells read through the pointer
    [&a[i]]. *)
Definition arr_slice {A} (a : list A) (i n : Z) : option (list A) :=
  if decide (0 <= i /\ 0 <= n /\ i + n <= Z.of_nat (length a))
  then Some (take (Z.to_nat n) (drop (Z.to_nat i) a)) else None.

(** [arr_fill a i v n] is [memset(&a[i], v, n)]. *)
Definition arr_fill {A} (a : list A) (i : Z) (v : A) (n : Z) : option (list A) :=
  if decide (0 <= i /\ 0 <= n /\ i + n <= Z.of_nat (length a))
  then Some (take (Z.to_nat i) a ++ replicate (Z.to_nat n) v
               ++ drop (Z.to_nat (i + n)) a)
  else None.

(** ** FlashFAT.hpp: constants and types *)

Definition FLASH_FAT_MAX_FILE_COUNT : Z := 254.
Definition FLASH_FAT_FILE_BUFFER : Z := 512.
Definition FLASH_FAT_NO_ERROR_FILE : Z := 255.

Record FlashFAT_file_entry := {
  _start_page : Z;    (* uint16_t *)
  _page_length : Z;   (* uint16_t *)
  _end_offset : Z     (* uint8_t *)
}.

Record FlashFAT_file_allocation_table := {
  _num_files : Z;                        (* uint8_t *)
  _file_close_err : Z;                   (* uint8_t *)
  _files : list FlashFAT_file_entry      (* FLASH_FAT_MAX_FILE_COUNT slots *)
}.

Inductive FlashFAT_status_t :=
| FLASHFAT_OK
| FLASHFAT_FLASH_FAILURE
| FLASHFAT_MAX_FILE_COUNT_REACHED
| FLASHFAT_FILE_ALLOCATION_TABLE_NOT_FOUND
| FLASHFAT_WRONG_MODE
| FLASHFAT_INVALID_FILE.

(** The enumerators' integer values; [read] returns one of them as a
    byte count. *)
Definition status_code (st : FlashFAT_status_t) : Z :=
  match st with
  | FLASHFAT_OK => 0
  | FLASHFAT_FLASH_FAILURE => 1
  | FLASHFAT_MAX_FILE_COUNT_REACHED => 2
  | FLASHFAT_FILE_ALLOCATION_TABLE_NOT_FOUND => 3
  | FLASHFAT_WRONG_MODE => 4
  | FLASHFAT_INVALID_FILE => 5
  end.

Inductive FLASHFAT_MODE :=
| FLASHFAT_WRITE_MODE
| FLASHFAT_READ_MODE
| FLASHFAT_NO_MODE.

Inductive W25Q64FV_status_t :=
| W25Q64FV_OK
| W25Q64FV_FAILURE.

(** ** The flash chip driver *)

Module W25Q64FV.

(** Modelled from the spec: the state of the W25Q64FV driver object,
    whose header and implementation are missing.  [cells] is the byte
    stored at each address of the medium; [script] lists the statuses
    the next driver calls will return, one per call, and every call
    after the script is used up succeeds; [write_enabled] is the
    write-enable latch: set by [enable_writing], needed by every program
    and erase to take effect, and used up by it.  A call that fails
    leaves the medium and the latch as they were. *)
Record t := { cells : Z -> Z; script : list W25Q64FV_status_t;
              write_enabled : bool }.

(** Modelled from the spec: the status of the next driver call, missing
    with the driver; it takes the head of the script. *)
Definition answer (d : t) : W25Q64FV_status_t * t :=
  match script d with
  | [] => (W25Q64FV_OK, d)
  | st :: rest => (st, {| cells := cells d; script := rest;
                          write_enabled := write_enabled d |})
  end.

(** Modelled from the spec: [open(selector) -> Ok | Error], the missing
    [W25Q64FV::begin]. *)
Definition begin (_cs : Z) (d : t) : W25Q64FV_status_t * t := answer d.

(** Modelled from the spec: [wait_until_free() -> Ok | Error], the
    missing [W25Q64FV::wait_until_free]; it blocks until the device is
    free. *)
Definition wait_until_free (d : t) : W25Q64FV_status_t * t := answer d.

(** Modelled from the spec: [enable_writing() -> Ok | Error] (must
    precede every program or erase), the missing
    [W25Q64FV::enable_writing]; it sets the write-enable latch. *)
Definition enable_writing (d : t) : W25Q64FV_status_t * t :=
  let '(st, d') := answer d in
  match st with
  | W25Q64FV_OK =>
      (st, {| cells := cells d'; script := script d'; write_enabled := true |})
  | W25Q64FV_FAILURE => (st, d')
  end.

(** Modelled from the spec: [read_page(byte_address, out_buffer)], the
    missing [W25Q64FV::read_page]; it delivers the 256 bytes that start
    at [address], and leaves [buffer] alone when it fails. *)
Definition read_page (address : Z) (buffer : list Z) (d : t)
  : W25Q64FV_status_t * list Z * t :=
  let '(st, d') := answer d in
  match st with
  | W25Q64FV_OK => (st, (fun i => cells d (address + i)) <$> seqZ 0 256, d')
  | W25Q64FV_FAILURE => (st, buffer, d')
  end.

(** Modelled from the spec: [write_page(byte_address, in_buffer)], the
    missing [W25Q64FV::write_page]; with the write-enable latch set it
    programs 256 bytes within the page that holds [address] (the byte
    offset wraps inside the page), and programming can only clear bits;
    without the latch the medium stays as it is.  The latch is used up
    either way. *)
Definition write_page (address : Z) (buffer : list Z) (d : t)
  : W25Q64FV_status_t * t :=
  let '(st, d') := answer d in
  match st with
  | W25Q64FV_OK =>
      (st, {| cells :=
                if write_enabled d then
                  fun a =>
                    if decide (a / 256 = address / 256)
                    then Z.land (cells d a)
                           (default 255 (arr_get buffer ((a - address) mod 256)))
                    else cells d a
                else cells d;
              script := script d'; write_enabled := false |})
  | W25Q64FV_FAILURE => (st, d')
  end.

(** Modelled from the spec: [erase_sector(byte_address)], the missing
    [W25Q64FV::erase_sector]; with the write-enable latch set it resets
    every byte of the 4096-byte sector that holds [address] to the fill
    value 255; without the latch the medium stays as it is.  The latch
    is used up either way. *)
Definition erase_sector (address : Z) (d : t) : W25Q64FV_status_t * t :=
  let '(st, d') := answer d in
  match st with
  | W25Q64FV_OK =>
      (st, {| cells :=
                if write_enabled d then
                  fun a =>
                    if decide (a / 4096 = address / 4096) then 255
                    else cells d a
                else cells d;
              script := script d'; write_enabled := false |})
  | W25Q64FV_FAILURE => (st, d')
  end.

End W25Q64FV.

(** ** The engine object *)

Record FlashFAT := {
  _flash : W25Q64FV.t;
  _table : FlashFAT_file_allocation_table;
  _mode : FLASHFAT_MODE;
  _write_buffer : list Z;       (* byte[FLASH_FAT_FILE_BUFFER] *)
  _write_buffer_index : Z;      (* uint *)
  _erase_index : Z;             (* uint *)
  _current_index : Z;           (* uint *)
  _end_index : Z;               (* uint *)
  _file_index : Z               (* uint *)
}.

Definition set_flash (d : W25Q64FV.t) (s : FlashFAT) : FlashFAT :=
  {| _flash := d; _table := _table s; _mode := _mode s;
     _write_buffer := _write_buffer s;
     _write_buffer_index := _write_buffer_index s;
     _erase_index := _erase_index s; _current_index := _current_index s;
     _end_index := _end_index s; _file_index := _file_index s |}.

Definition set_table (t : FlashFAT_file_allocation_table) (s : FlashFAT)
  : FlashFAT :=
  {| _flash := _flash s; _table := t; _mode := _mode s;
     _write_buffer := _write_buffer s;
     _write_buffer_index := _write_buffer_index s;
     _erase_index := _erase_index s; _current_index := _current_index s;
     _end_index := _end_index s; _file_index := _file_index s |}.

Definition set_mode (m : FLASHFAT_MODE) (s : FlashFAT) : FlashFAT :=
  {| _flash := _flash s; _table := _table s; _mode := m;
     _write_buffer := _write_buffer s;
     _write_buffer_index := _write_buffer_index s;
     _erase_index := _erase_index s; _current_index := _current_index s;
     _end_index := _end_index s; _file_index := _file_index s |}.

Definition set_write_buffer (b : list Z) (s : FlashFAT) : FlashFAT :=
  {| _flash := _flash s; _table := _table s; _mode := _mode s;
     _write_buffer := b;
     _write_buffer_index := _write_buffer_index s;
     _erase_index := _erase_index s; _current_index := _current_index s;
     _end_index := _end_index s; _file_index := _file_index s |}.

Definition set_write_buffer_index (i : Z) (s : FlashFAT) : FlashFAT :=
  {| _flash := _flash s; _table := _table s; _mode := _mode s;
     _write_buffer := _write_buffer s;
     _write_buffer_index := i;
     _erase_index := _erase_index s; _current_index := _current_index s;
     _end_index := _end_index s; _file_index := _file_index s |}.

Definition set_erase_index (i : Z) (s : FlashFAT) : FlashFAT :=
  {| _flash := _flash s; _table := _table s; _mode := _mode s;
     _write_buffer := _write_buffer s;
     _write_buffer_index := _write_buffer_index s;
     _erase_index := i; _current_index := _current_index s;
     _end_index := _end_index s; _file_index := _file_index s |}.

Definition set_current_index (i : Z) (s : FlashFAT) : FlashFAT :=
  {| _flash := _flash s; _table := _table s; _mode := _mode s;
     _write_buffer := _write_buffer s;
     _write_buffer_index := _write_buffer_index s;
     _erase_index := _erase_index s; _current_index := i;
     _end_index := _end_index s; _file_index := _file_index s |}.

Definition set_end_index (i : Z) (s : FlashFAT) : FlashFAT :=
  {| _flash := _flash s; _table := _table s; _mode := _mode s;
     _write_buffer := _write_buffer s;
     _write_buffer_index := _write_buffer_index s;
     _erase_index := _erase_index s; _current_index := _current_index s;
     _end_index := i; _file_index := _file_index s |}.

Definition set_file_index (i : Z) (s : FlashFAT) : FlashFAT :=
  {| _flash := _flash s; _table := _table s; _mode := _mode s;
     _write_buffer := _write_buffer s;
     _write_buffer_index := _write_buffer_index s;
     _erase_index := _erase_index s; _current_index := _current_index s;
     _end_index := _end_index s; _file_index := i |}.

(** Driver calls made through the member [_flash]. *)

Definition flash_wait_until_free (s : FlashFAT) : W25Q64FV_status_t * FlashFAT :=
  let '(st, d) := W25Q64FV.wait_until_free (_flash s) in (st, set_flash d s).

Definition flash_enable_writing (s : FlashFAT) : W25Q64FV_status_t * FlashFAT :=
  let '(st, d) := W25Q64FV.enable_writing (_flash s) in (st, set_flash d s).

Definition flash_erase_sector (address : Z) (s : FlashFAT)
  : W25Q64FV_status_t * FlashFAT :=
  let '(st, d) := W25Q64FV.erase_sector address (_flash s) in (st, set_flash d s).

Definition flash_write_page (address : Z) (buffer : list Z) (s : FlashFAT)
  : W25Q64FV_status_t * FlashFAT :=
  let '(st, d) := W25Q64FV.write_page address buffer (_flash s) in
  (st, set_flash d s).

Definition flash_read_page (address : Z) (buffer : list Z) (s : FlashFAT)
  : W25Q64FV_status_t * list Z * FlashFAT :=
  let '(st, b, d) := W25Q64FV.read_page address buffer (_flash s) in
  (st, b, set_flash d s).

(** ** The allocation table codec *)

(** The marker ["FLASHFAT"] as bytes. *)
Definition prefix : list Z := [70; 76; 65; 83; 72; 70; 65; 84].

(** The [for] loop of [get_file_allocation_table]: [n] entries are still
    to be decoded, the next one is entry [i] and starts at [buffer[index]]. *)
Fixpoint get_entries (n : nat) (i index : Z) (buffer : list Z)
    (files : list FlashFAT_file_entry) : option (list FlashFAT_file_entry) :=
  match n with
  | O => Some files
  | S n' =>
      b0 ← arr_get buffer index;
      b1 ← arr_get buffer (index + 1);
      b2 ← arr_get buffer (index + 2);
      b3 ← arr_get buffer (index + 3);
      b4 ← arr_get buffer (index + 4);
      files' ← arr_set files i
        {| _start_page := u16 (Z.lor (Z.shiftl b0 8) b1);
           _page_length := u16 (Z.lor (Z.shiftl b2 8) b3);
           _end_offset := b4 |};
      get_entries n' (i + 1) (index + 5) buffer files'
  end.

Definition get_file_allocation_table (table : FlashFAT_file_allocation_table)
    (d : W25Q64FV.t)
  : option (FlashFAT_status_t * FlashFAT_file_allocation_table * W25Q64FV.t) :=
  let buffer := replicate 256 0 in
  let '(_, d) := W25Q64FV.wait_until_free d in
  let '(status, buffer, d) := W25Q64FV.read_page 0 buffer d in
  match status with
  | W25Q64FV_FAILURE => Some (FLASHFAT_FLASH_FAILURE, table, d)
  | W25Q64FV_OK =>
      if decide (take 8 buffer = prefix) then
        num ← arr_get buffer 8;
        err ← arr_get buffer 9;
        files ← get_entries (Z.to_nat num) 0 10 buffer (_files table);
        Some (FLASHFAT_OK,
              {| _num_files := num; _file_close_err := err; _files := files |},
              d)
      else Some (FLASHFAT_FILE_ALLOCATION_TABLE_NOT_FOUND, table, d)
  end.

(** The [for] loop of [write_file_allocation_table]. *)
Fixpoint put_entries (n : nat) (i index : Z)
    (files : list FlashFAT_file_entry) (buffer : list Z) : option (list Z) :=
  match n with
  | O => Some buffer
  | S n' =>
      f ← arr_get files i;
      buffer ← arr_set buffer index (u8 (Z.shiftr (_start_page f) 8));
      buffer ← arr_set buffer (index + 1) (u8 (_start_page f));
      buffer ← arr_set buffer (index + 2) (u8 (Z.shiftr (_page_length f) 8));
      buffer ← arr_set buffer (index + 3) (u8 (_page_length f));
      buffer ← arr_set buffer (index + 4) (u8 (_end_offset f));
      put_entries n' (i + 1) (index + 5) files buffer
  end.

(** The first half of [write_file_allocation_table]: the 256-byte record
    built on the stack. *)
Definition table_record (table : FlashFAT_file_allocation_table)
  : option (list Z) :=
  let buffer := replicate 256 0 in
  let buffer := prefix ++ drop 8 buffer in
  buffer ← arr_set buffer 8 (u8 (_num_files table));
  buffer ← arr_set buffer 9 (u8 (_file_close_err table));
  put_entries (Z.to_nat (_num_files table)) 0 10 (_files table) buffer.

Definition write_file_allocation_table (table : FlashFAT_file_allocation_table)
    (d : W25Q64FV.t) : option (FlashFAT_status_t * W25Q64FV.t) :=
  buffer ← table_record table;
  let '(_, d) := W25Q64FV.wait_until_free d in
  let '(_, d) := W25Q64FV.enable_writing d in
  let '(_, d) := W25Q64FV.wait_until_free d in
  let '(_, d) := W25Q64FV.erase_sector 0 d in
  let '(_, d) := W25Q64FV.wait_until_free d in
  let '(_, d) := W25Q64FV.enable_writing d in
  let '(_, d) := W25Q64FV.wait_until_free d in
  let '(_, d) := W25Q64FV.write_page 0 buffer d in
  Some (FLASHFAT_OK, d).

(** [write_file_allocation_table(&_table)] as the member functions call it. *)
Definition write_own_table (s : FlashFAT) : option (FlashFAT_status_t * FlashFAT) :=
  '(st, d) ← write_file_allocation_table (_table s) (_flash s);
  Some (st, set_flash d s).

(** ** Writing *)

(** The address right after the last file, and the start of the next
    4 kB sector after it ([new_file], lines 130-136). *)
Definition last_used_address (table : FlashFAT_file_allocation_table)
  : option Z :=
  if decide (_num_files table = 0) then Some 0
  else
    f ← arr_get (_files table) (_num_files table - 1);
    Some (u32 ((_start_page f + _page_length f) * 256 + _end_offset f)).

Definition next_start_address (last : Z) : Z :=
  u32 (Z.shiftl (u32 (Z.shiftr last 12 + 1)) 12).

Definition new_file (s : FlashFAT) : option (FlashFAT_status_t * FlashFAT) :=
  match _mode s with
  | FLASHFAT_NO_MODE =>
      if decide (_num_files (_table s) >= FLASH_FAT_MAX_FILE_COUNT)
      then Some (FLASHFAT_MAX_FILE_COUNT_REACHED, s)
      else
        last ← last_used_address (_table s);
        let next := next_start_address last in
        let num := u8 (_num_files (_table s) + 1) in
        let fi := u32 (num - 1) in
        f ← arr_get (_files (_table s)) fi;
        files ← arr_set (_files (_table s)) fi
          {| _start_page := u16 (Z.shiftr next 8);
             _page_length := _page_length f;
             _end_offset := _end_offset f |};
        let s := set_file_index fi s in
        let '(_, s) := flash_wait_until_free s in
        let '(_, s) := flash_erase_sector next s in
        let s := set_erase_index (u32 (next + 4095)) s in
        let s := set_current_index next s in
        let s := set_table {| _num_files := num;
                              _file_close_err := u8 fi;
                              _files := files |} s in
        let s := set_mode FLASHFAT_WRITE_MODE s in
        write_own_table s
  | _ => Some (FLASHFAT_WRONG_MODE, s)
  end.

(** The erase-ahead check, written twice in the source ([close_file],
    lines 163-168, and [write], lines 235-240). *)
Definition erase_ahead (s : FlashFAT) : FlashFAT :=
  if decide (u32 (_current_index s + FLASH_FAT_FILE_BUFFER) > _erase_index s)
  then
    let '(_, s) := flash_erase_sector (u32 (_erase_index s + 1)) s in
    set_erase_index (u32 (_erase_index s + 4096)) s
  else s.

(** The page loop of [close_file]: [n] pages are still to be written and
    the next one is page [p].  A failed [write_page] ends the loop and
    the call. *)
Fixpoint close_pages (n : nat) (p pages_to_write : Z) (s : FlashFAT)
  : option (W25Q64FV_status_t * FlashFAT) :=
  match n with
  | O => Some (W25Q64FV_OK, s)
  | S n' =>
      let bytes_to_write :=
        if decide (p = u32 (pages_to_write - 1)) then
          let b := _write_buffer_index s mod 256 in
          if decide (b = 0 /\ _write_buffer_index s <> 0) then 256 else b
        else 256 in
      let '(_, s) := flash_wait_until_free s in
      let '(_, s) := flash_enable_writing s in
      let '(_, s) := flash_wait_until_free s in
      page ← arr_slice (_write_buffer s) (p * 256) 256;
      let '(status, s) := flash_write_page (_current_index s) page s in
      match status with
      | W25Q64FV_FAILURE => Some (W25Q64FV_FAILURE, s)
      | W25Q64FV_OK =>
          close_pages n' (p + 1) pages_to_write
            (set_current_index (u32 (_current_index s + bytes_to_write)) s)
      end
  end.

(** [close_file], lines 158-196: the rest of the buffer goes to the
    medium. *)
Definition close_flush (s : FlashFAT) : option (W25Q64FV_status_t * FlashFAT) :=
  if decide (_write_buffer_index s <> 0) then
    buffer ← arr_fill (_write_buffer s) (_write_buffer_index s) 255
               (u32 (FLASH_FAT_FILE_BUFFER - _write_buffer_index s));
    let s := set_write_buffer buffer s in
    let s := erase_ahead s in
    let pages_to_write := u32 (_write_buffer_index s + 255) / 256 in
    close_pages (Z.to_nat pages_to_write) 0 pages_to_write s
  else Some (W25Q64FV_OK, s).

(** [close_file], lines 203-205: the entry of the file gets its length. *)
Definition close_entry (s : FlashFAT) : option FlashFAT_file_allocation_table :=
  f ← arr_get (_files (_table s)) (_file_index s);
  files ← arr_set (_files (_table s)) (_file_index s)
    {| _start_page := _start_page f;
       _page_length := u16 (u32 (_current_index s / 256 - _start_page f));
       _end_offset := u8 (_write_buffer_index s mod 256) |};
  Some {| _num_files := _num_files (_table s);
          _file_close_err := FLASH_FAT_NO_ERROR_FILE;
          _files := files |}.

(** [close_file], lines 211-215. *)
Definition close_reset (s : FlashFAT) : FlashFAT :=
  set_current_index 0
    (set_erase_index 0
       (set_file_index 0
          (set_write_buffer_index 0 (set_mode FLASHFAT_NO_MODE s)))).

Definition close_file (s : FlashFAT) : option (FlashFAT_status_t * FlashFAT) :=
  match _mode s with
  | FLASHFAT_WRITE_MODE =>
      '(status, s) ← close_flush s;
      match status with
      | W25Q64FV_FAILURE => Some (FLASHFAT_FLASH_FAILURE, s)
      | W25Q64FV_OK =>
          table ← close_entry s;
          '(_, s) ← write_own_table (set_table table s);
          Some (FLASHFAT_OK, close_reset s)
      end
  | _ => Some (FLASHFAT_OK, close_reset s)
  end.

(** The page loop of [write], lines 244-251. *)
Fixpoint write_pages (n : nat) (p : Z) (s : FlashFAT) : option FlashFAT :=
  match n with
  | O => Some s
  | S n' =>
      let '(_, s) := flash_wait_until_free s in
      let '(_, s) := flash_enable_writing s in
      let '(_, s) := flash_wait_until_free s in
      page ← arr_slice (_write_buffer s) (p * 256) 256;
      let '(_, s) := flash_write_page (_current_index s) page s in
      write_pages n' (p + 1) (set_current_index (u32 (_current_index s + 256)) s)
  end.

(** The byte loop of [write]; [buffer] holds the [length] bytes the
    caller passes. *)
Fixpoint write_bytes (buffer : list Z) (s : FlashFAT) : option FlashFAT :=
  match buffer with
  | [] => Some s
  | b :: buffer' =>
      wb ← arr_set (_write_buffer s) (_write_buffer_index s) b;
      let s := set_write_buffer wb s in
      let s := set_write_buffer_index (u32 (_write_buffer_index s + 1)) s in
      s ← (if decide (_write_buffer_index s >= FLASH_FAT_FILE_BUFFER) then
             let s := erase_ahead s in
             let pages_to_write := FLASH_FAT_FILE_BUFFER / 256 in
             s ← write_pages (Z.to_nat pages_to_write) 0 s;
             Some (set_write_buffer_index 0 s)
           else Some s);
      write_bytes buffer' s
  end.

Definition write (buffer : list Z) (s : FlashFAT)
  : option (FlashFAT_status_t * FlashFAT) :=
  match _mode s with
  | FLASHFAT_WRITE_MODE =>
      s ← write_bytes buffer s;
      Some (FLASHFAT_OK, s)
  | _ => Some (FLASHFAT_WRONG_MODE, s)
  end.

(** ** Reading *)

Definition open_file (fi : Z) (s : FlashFAT) : option (FlashFAT_status_t * FlashFAT) :=
  match _mode s with
  | FLASHFAT_NO_MODE =>
      '(fat_status, table, d) ← get_file_allocation_table (_table s) (_flash s);
      let s := set_table table (set_flash d s) in
      match fat_status with
      | FLASHFAT_OK =>
          if decide (_num_files (_table s) <= fi)
          then Some (FLASHFAT_INVALID_FILE, s)
          else
            let s := set_mode FLASHFAT_READ_MODE s in
            let s := set_file_index fi s in
            f ← arr_get (_files (_table s)) (_file_index s);
            let s := set_current_index (u32 (_start_page f * 256)) s in
            let s := set_end_index
                       (u32 (_current_index s + _page_length f * 256
                             + _end_offset f)) s in
            Some (FLASHFAT_OK, s)
      | _ => Some (fat_status, s)
      end
  | _ => Some (FLASHFAT_WRONG_MODE, s)
  end.

Definition peek (s : FlashFAT) : Z :=
  match _mode s with
  | FLASHFAT_READ_MODE => u32 (_end_index s - _current_index s)
  | _ => 0
  end.

(** The [while] loop of [read]: [len] bytes are still wanted, [out] holds
    the bytes copied to the caller so far, and the caller's buffer has
    room for [size] bytes: a [memcpy] that goes past them has no defined
    result.  The result is the value the loop leaves in a local flag
    (did a [read_page] fail), the caller's bytes and the object.  [fuel]
    bounds the number of rounds; [read] passes enough of it (lemma
    [read_loop_fuel]). *)
Fixpoint read_loop (fuel : nat) (size len : Z) (read_buffer out : list Z)
    (s : FlashFAT) : option (W25Q64FV_status_t * list Z * FlashFAT) :=
  if decide (len > 0) then
    match fuel with
    | O => None
    | S fuel' =>
        let '(status, read_buffer, s) :=
          flash_read_page (_current_index s) read_buffer s in
        let s := set_current_index (u32 (_current_index s + len)) s in
        match status with
        | W25Q64FV_FAILURE => Some (W25Q64FV_FAILURE, out, s)
        | W25Q64FV_OK =>
            if decide (len > 255)
            then
              if decide (Z.of_nat (length out) + 256 <= size)
              then read_loop fuel' size (u32 (len - 256)) read_buffer
                     (out ++ take 256 read_buffer) s
              else None
            else
              if decide (Z.of_nat (length out) + len <= size)
              then read_loop fuel' size 0 read_buffer
                     (out ++ take (Z.to_nat len) read_buffer) s
              else None
        end
    end
  else Some (W25Q64FV_OK, out, s).

(** [read(buffer, length)]: the caller's [buffer] has room for the
    [length] bytes asked for.  The result is the returned count, the
    bytes copied into [buffer] and the object; there is none when a copy
    goes past the end of [buffer]. *)
Definition read (length : Z) (s : FlashFAT) : option (Z * list Z * FlashFAT) :=
  match _mode s with
  | FLASHFAT_READ_MODE =>
      if decide (peek s = 0) then Some (0, [], s)
      else
        let size := length in
        let length :=
          if decide (u32 (_current_index s + length) > _end_index s)
          then u32 (_end_index s - _current_index s) else length in
        let length_to_read := length in
        let read_buffer := replicate 256 0 in
        '(status, out, s) ←
          read_loop (Z.to_nat (length / 256 + 1)) size length read_buffer [] s;
        match status with
        | W25Q64FV_FAILURE => Some (0, out, s)
        | W25Q64FV_OK => Some (length_to_read, out, s)
        end
  | _ => Some (status_code FLASHFAT_WRONG_MODE, [], s)
  end.

(** ** Directory operations *)

Definition delete_last_file (s : FlashFAT) : option (FlashFAT_status_t * FlashFAT) :=
  match _mode s with
  | FLASHFAT_NO_MODE =>
      let table :=
        if decide (_num_files (_table s) > 0)
        then {| _num_files := u8 (_num_files (_table s) - 1);
                _file_close_err := _file_close_err (_table s);
                _files := _files (_table s) |}
        else _table s in
      write_own_table (set_table table s)
  | _ => Some (FLASHFAT_INVALID_FILE, s)
  end.

Definition delete_all_files (s : FlashFAT) : option (FlashFAT_status_t * FlashFAT) :=
  match _mode s with
  | FLASHFAT_NO_MODE =>
      write_own_table
        (set_table {| _num_files := 0;
                      _file_close_err := _file_close_err (_table s);
                      _files := _files (_table s) |} s)
  | _ => Some (FLASHFAT_INVALID_FILE, s)
  end.

Definition create_file_allocation_table (s : FlashFAT)
  : option (FlashFAT_status_t * FlashFAT) :=
  write_own_table
    (set_table {| _num_files := 0;
                  _file_close_err := _file_close_err (_table s);
                  _files := _files (_table s) |} s).

Definition begin (_cs : Z) (s : FlashFAT) : option (FlashFAT_status_t * FlashFAT) :=
  let '(flash_status, d) := W25Q64FV.begin _cs (_flash s) in
  let s := set_flash d s in
  match flash_status with
  | W25Q64FV_FAILURE => Some (FLASHFAT_FLASH_FAILURE, s)
  | W25Q64FV_OK =>
      '(status, table, d) ← get_file_allocation_table (_table s) (_flash s);
      let s := set_table table (set_flash d s) in
      s ← match status with
          | FLASHFAT_FILE_ALLOCATION_TABLE_NOT_FOUND =>
              '(_, s) ← create_file_allocation_table s; Some s
          | _ => Some s
          end;
      Some (FLASHFAT_OK, s)
  end.

(** ** Sample media and objects *)

(** A medium fresh from the factory: every byte erased, no failure
    scripted. *)
Definition blank_flash : W25Q64FV.t :=
  {| W25Q64FV.cells := fun _ => 255; W25Q64FV.script := [];
     W25Q64FV.write_enabled := false |}.

Definition zero_entry : FlashFAT_file_entry :=
  {| _start_page := 0; _page_length := 0; _end_offset := 0 |}.

(** An object as the class declares it, on the medium [d]; the members
    the class does not initialise are taken as zero. *)
Definition fresh (d : W25Q64FV.t) : FlashFAT :=
  {| _flash := d;
     _table := {| _num_files := 0; _file_close_err := 0;
                  _files := replicate 254 zero_entry |};
     _mode := FLASHFAT_NO_MODE;
     _write_buffer := replicate 512 0;
     _write_buffer_index := 0;
     _erase_index := 0; _current_index := 0; _end_index := 0;
     _file_index := 0 |}.

(** Runs one member function after another, dropping the statuses. *)
Definition then_ (r : option (FlashFAT_status_t * FlashFAT))
    (op : FlashFAT -> option (FlashFAT_status_t * FlashFAT))
  : option (FlashFAT_status_t * FlashFAT) :=
  '(_, s) ← r; op s.

(** The object after [begin] on a blank medium. *)
Definition begun : option FlashFAT :=
  '(_, s) ← begin 10 (fresh blank_flash); Some s.

(** The object after [begin], [new_file] and [write data] on a blank
    medium: a session in write mode. *)
Definition writing (data : list Z) : option FlashFAT :=
  '(_, s) ← then_ (then_ (begin 10 (fresh blank_flash)) new_file) (write data);
  Some s.

(** The object after the file [data] was written, closed and opened
    again: a session in read mode. *)
Definition reading (data : list Z) : option FlashFAT :=
  '(_, s) ← then_ (then_ (then_ (then_ (begin 10 (fresh blank_flash))
                     new_file) (write data)) close_file) (open_file 0);
  Some s.

(** Writes [data] as a new file on a blank medium and reads all of it
    back as file 0. *)
Definition round_trip (data : list Z) : option (Z * list Z * FlashFAT) :=
  s ← reading data; read (Z.of_nat (length data)) s.

(** What the caller gets from [round_trip]: the count and the bytes. *)
Definition rt_out (data : list Z) : option (Z * list Z) :=
  '(n, out, _) ← round_trip data; Some (n, out).

(** ** Values within their machine types *)

Definition is_u8 (z : Z) : Prop := 0 <= z < 2 ^ 8.

Definition is_u16 (z : Z) : Prop := 0 <= z < 2 ^ 16.

(** The fields of an entry are within their C++ types. *)
Definition entry_typed (f : FlashFAT_file_entry) : Prop :=
  is_u16 (_start_page f) /\ is_u16 (_page_length f) /\ is_u8 (_end_offset f).

#[global] Instance is_u8_dec z : Decision (is_u8 z).
Proof. unfold is_u8. apply _. Defined.

#[global] Instance is_u16_dec z : Decision (is_u16 z).
Proof. unfold is_u16. apply _. Defined.

#[global] Instance entry_typed_dec f : Decision (entry_typed f).
Proof. unfold entry_typed. apply _. Defined.

(** ** The layout of the files *)

(** The first byte address of a file and the address right after its
    last byte. *)
Definition file_start (f : FlashFAT_file_entry) : Z := _start_page f * 256.

Definition file_end (f : FlashFAT_file_entry) : Z :=
  (_start_page f + _page_length f) * 256 + _end_offset f.

(** [entries_ok low prev fs]: every file of [fs] starts on a sector
    boundary, at or after [low] and after [prev], and ends at or before
    the start of the next one. *)
Fixpoint entries_ok (low prev : Z) (fs : list FlashFAT_file_entry) : bool :=
  match fs with
  | [] => true
  | f :: fs' =>
      bool_decide (file_start f mod 4096 = 0)
      && bool_decide (low <= file_start f)
      && bool_decide (prev < file_start f)
      && entries_ok (file_end f) (file_start f) fs'
  end.

(** The invariant of the table: its [_num_files] registered files are in
    increasing address order, do not overlap, start on sector boundaries
    and stay out of the first sector, which holds the table. *)
Definition table_ok (table : FlashFAT_file_allocation_table) : bool :=
  entries_ok 4096 0 (take (Z.to_nat (_num_files table)) (_files table)).

(** The address right after the last registered file; 0 for a table
    without files. *)
Definition files_end (table : FlashFAT_file_allocation_table) : Z :=
  if decide (_num_files table = 0) then 0
  else default 0 (file_end <$> arr_get (_files table) (_num_files table - 1)).

(** ** Objects and tables named in the statements *)

(** The byte of the medium at [address]. *)
Definition cell (s : FlashFAT) (address : Z) : Z :=
  W25Q64FV.cells (_flash s) address.

(** The first page of the medium, where the table is kept. *)
Definition page_0 (d : W25Q64FV.t) : list Z :=
  W25Q64FV.cells d <$> seqZ 0 256.

(** The object [new_file] has built when it stores the table: [f0] is
    the old content of the slot it takes and [d] the medium after the
    erase of the first sector of the file. *)
Definition allocated (s : FlashFAT) (f0 : FlashFAT_file_entry)
    (d : W25Q64FV.t) : FlashFAT :=
  let next := next_start_address (files_end (_table s)) in
  {| _flash := d;
     _table :=
       {| _num_files := _num_files (_table s) + 1;
          _file_close_err := u8 (_num_files (_table s));
          _files :=
            <[Z.to_nat (_num_files (_table s)) :=
                {| _start_page := u16 (Z.shiftr next 8);
                   _page_length := _page_length f0;
                   _end_offset := _end_offset f0 |}]> (_files (_table s)) |};
     _mode := FLASHFAT_WRITE_MODE;
     _write_buffer := _write_buffer s;
     _write_buffer_index := _write_buffer_index s;
     _erase_index := u32 (next + 4095);
     _current_index := next;
     _end_index := _end_index s;
     _file_index := _num_files (_table s) |}.

(** The table [close_file] stores: the entry [f] of the file gets its
    length from the cursor [_current_index s1] the flush has left. *)
Definition finalized (s s1 : FlashFAT) (f : FlashFAT_file_entry)
  : FlashFAT_file_allocation_table :=
  {| _num_files := _num_files (_table s);
     _file_close_err := FLASH_FAT_NO_ERROR_FILE;
     _files :=
       <[Z.to_nat (_file_index s) :=
           {| _start_page := _start_page f;
              _page_length := u16 ((_current_index s1 - file_start f) / 256);
              _end_offset := _write_buffer_index s mod 256 |}]>
         (_files (_table s)) |}.

(** The members the flush of [close_file] does not touch. *)
Definition same_session (s s' : FlashFAT) : Prop :=
  _table s' = _table s /\ _mode s' = _mode s
  /\ _write_buffer_index s' = _write_buffer_index s
  /\ _file_index s' = _file_index s /\ _end_index s' = _end_index s.

(** The five bytes of the entry [f] are at [buffer[index]] and after. *)
Definition holds_entry (buffer : list Z) (index : Z) (f : FlashFAT_file_entry)
  : Prop :=
  arr_get buffer index = Some (u8 (Z.shiftr (_start_page f) 8))
  /\ arr_get buffer (index + 1) = Some (u8 (_start_page f))
  /\ arr_get buffer (index + 2) = Some (u8 (Z.shiftr (_page_length f) 8))
  /\ arr_get buffer (index + 3) = Some (u8 (_page_length f))
  /\ arr_get buffer (index + 4) = Some (u8 (_end_offset f)).

(** Writes [data] as a new file of the object [s] and reads all of it
    back. *)
Definition store_and_load (s : FlashFAT) (data : list Z)
  : option (Z * list Z * FlashFAT) :=
  '(_, s') ← then_ (then_ (then_ (new_file s) (write data)) close_file)
                   (open_file (_num_files (_table s)));
  read (Z.of_nat (length data)) s'.

(** ** More sample media, tables and sessions *)

(** A medium whose third driver call, the [read_page] of [begin], fails. *)
Definition read_fails : W25Q64FV.t :=
  {| W25Q64FV.cells := fun _ => 255;
     W25Q64FV.script := [W25Q64FV_OK; W25Q64FV_OK; W25Q64FV_FAILURE];
     W25Q64FV.write_enabled := false |}.

(** The statuses the next driver calls of [s] will return. *)
Definition set_script (sc : list W25Q64FV_status_t) (s : FlashFAT) : FlashFAT :=
  set_flash {| W25Q64FV.cells := W25Q64FV.cells (_flash s);
               W25Q64FV.script := sc;
               W25Q64FV.write_enabled := W25Q64FV.write_enabled (_flash s) |} s.

(** The bytes 0, 1, ..., n-1 (modulo 251), as file content. *)
Definition ramp (n : Z) : list Z := (fun i => i mod 251) <$> seqZ 0 n.

(** A table of [n] empty files in consecutive sectors. *)
Definition table_of (n : Z) : FlashFAT_file_allocation_table :=
  {| _num_files := n; _file_close_err := FLASH_FAT_NO_ERROR_FILE;
     _files := (fun i => {| _start_page := 16 * (i + 1); _page_length := 0;
                            _end_offset := 0 |}) <$> seqZ 0 254 |}.

(** A medium whose page 0 holds the marker, the file count [n], and
    zeros. *)
Definition medium_with_count (n : Z) : W25Q64FV.t :=
  {| W25Q64FV.cells := fun a => default 0 (arr_get (prefix ++ [n]) a);
     W25Q64FV.script := []; W25Q64FV.write_enabled := false |}.

(** A table whose only file starts in the second sector and ends one
    sector before address 2^24. *)
Definition table_near_top : FlashFAT_file_allocation_table :=
  {| _num_files := 1; _file_close_err := FLASH_FAT_NO_ERROR_FILE;
     _files := {| _start_page := 16; _page_length := 65504; _end_offset := 0 |}
               :: replicate 253 zero_entry |}.

(** A table that holds one file of 1000 bytes. *)
Definition table_1000 : FlashFAT_file_allocation_table :=
  {| _num_files := 1; _file_close_err := FLASH_FAT_NO_ERROR_FILE;
     _files := {| _start_page := 16; _page_length := 3; _end_offset := 232 |}
               :: replicate 253 zero_entry |}.

(** A write session with three bytes in the buffer. *)
Definition writer_sample : FlashFAT :=
  default (fresh blank_flash) (writing [1; 2; 3]).

(** ** Further samples *)

(** The medium after the table [table_1000] was stored on a blank one. *)
Definition stored_1000 : W25Q64FV.t :=
  default blank_flash (snd <$> write_file_allocation_table table_1000 blank_flash).

(** A table that holds a file of 1000 bytes and a file of 5 bytes. *)
Definition table_two : FlashFAT_file_allocation_table :=
  {| _num_files := 2; _file_close_err := FLASH_FAT_NO_ERROR_FILE;
     _files := {| _start_page := 16; _page_length := 3; _end_offset := 232 |}
               :: {| _start_page := 32; _page_length := 0; _end_offset := 5 |}
               :: replicate 252 zero_entry |}.

(** An object in no mode that holds [table_two], on a blank medium. *)
Definition two_files : FlashFAT := set_table table_two (fresh blank_flash).


(** A read session at the start of a file of 600 bytes. *)
Definition reader_sample : FlashFAT :=
  default (fresh blank_flash) (reading (ramp 600)).


(** ** The state of a write session *)

(** What holds between two calls of a write session on a medium whose
    driver calls succeed, for the file that starts at [start], once the
    bytes [written] were passed to [write]: the cursor is a whole number
    of 512-byte blocks after [start], the rest of [written] waits in the
    write buffer, and the erase mark is the last byte of a sector. *)
Definition write_session (start : Z) (written : list Z) (s : FlashFAT) : Prop :=
  _mode s = FLASHFAT_WRITE_MODE
  /\ W25Q64FV.script (_flash s) = []
  /\ length (_write_buffer s) = 512%nat
  /\ 0 <= _write_buffer_index s < 512
  /\ 0 <= start /\ start mod 4096 = 0
  /\ start <= _current_index s /\ (_current_index s - start) mod 512 = 0
  /\ (_erase_index s + 1) mod 4096 = 0
  /\ _current_index s < _erase_index s + 1 <= _current_index s + 4096
  /\ Z.of_nat (length written)
     = _current_index s - start + _write_buffer_index s
  /\ (forall i, 0 <= i < _write_buffer_index s ->
                written !! Z.to_nat (_current_index s - start + i)
                = arr_get (_write_buffer s) i)
  /\ Forall is_u8 written.

(** The medium of a write session whose file goes to erased bytes: the
    bytes of [written] below the cursor are on the medium from [start]
    on, and from the cursor up to [top] the medium is still erased. *)
Definition on_erased_medium (start top : Z) (written : list Z) (s : FlashFAT)
  : Prop :=
  (forall i, 0 <= i < _current_index s - start ->
             written !! Z.to_nat i = Some (cell s (start + i)))
  /\ (forall a, _current_index s <= a < top -> cell s a = 255).

(** ** Proof automation *)

Ltac zlia := Z.div_mod_to_equations; lia.

Ltac destruct_calls :=
  repeat match goal with
         | |- context [let '(_, _) := ?c in _] => destruct c
         end.

(** Goals about sample objects, settled by evaluation. *)
Ltac by_computation :=
  vm_compute; first [reflexivity | congruence | split; congruence].

Ltac typed_by_computation := apply (bool_decide_unpack _); vm_compute; exact I.

(** * Properties *)

(** ** Arithmetic and array facts *)

Lemma u8_is_u8 z : is_u8 (u8 z).
Proof. unfold is_u8, u8. zlia. Qed.

Lemma u16_is_u16 z : is_u16 (u16 z).
Proof. unfold is_u16, u16. zlia. Qed.

Lemma u16_u32 (z : Z) : u16 (u32 z) = u16 z.
Proof. unfold u16, u32. zlia. Qed.

Lemma land_255 (x : Z) : is_u8 x -> Z.land 255 x = x.
Proof.
  unfold is_u8. intros Hx. rewrite Z.land_comm.
  change 255 with (Z.ones 8). rewrite Z.land_ones by lia. zlia.
Qed.

Lemma lor_shiftl_8 (hi lo : Z) :
  0 <= lo < 256 -> Z.lor (Z.shiftl hi 8) lo = hi * 256 + lo.
Proof.
  intros Hlo.
  assert (Z.land (Z.shiftl hi 8) lo = 0) as Hland.
  { apply Z.bits_inj'. intros n Hn. rewrite Z.land_spec, Z.bits_0.
    destruct (decide (n < 8)).
    - rewrite Z.shiftl_spec_low by lia. reflexivity.
    - replace lo with (lo mod 2 ^ 8) by zlia.
      rewrite Z.mod_pow2_bits_high by lia. apply andb_false_r. }
  rewrite <- Z.lxor_lor, <- Z.add_nocarry_lxor by exact Hland.
  rewrite Z.shiftl_mul_pow2 by lia. reflexivity.
Qed.

Lemma decode_u16 (z : Z) :
  is_u16 z -> u16 (Z.lor (Z.shiftl (u8 (Z.shiftr z 8)) 8) (u8 z)) = z.
Proof.
  unfold is_u16. intros Hz. rewrite lor_shiftl_8 by (unfold u8; zlia).
  rewrite Z.shiftr_div_pow2 by lia. unfold u8, u16. zlia.
Qed.

Lemma arr_get_Some {A} (a : list A) (i : Z) :
  0 <= i < Z.of_nat (length a) -> exists x, arr_get a i = Some x.
Proof.
  intros Hi. unfold arr_get. rewrite decide_True by lia.
  apply lookup_lt_is_Some_2. lia.
Qed.

Lemma arr_get_lookup {A} (a : list A) (i : Z) (x : A) :
  arr_get a i = Some x -> 0 <= i < Z.of_nat (length a) /\ a !! Z.to_nat i = Some x.
Proof.
  unfold arr_get. case_decide; [|discriminate]. intros Hx. split; [|exact Hx].
  apply lookup_lt_Some in Hx. lia.
Qed.

Lemma arr_set_Some {A} (a : list A) (i : Z) (x : A) :
  0 <= i < Z.of_nat (length a) -> arr_set a i x = Some (<[Z.to_nat i := x]> a).
Proof. intros Hi. unfold arr_set. rewrite decide_True by lia. reflexivity. Qed.

Lemma arr_set_spec {A} (a a' : list A) (i : Z) (x : A) :
  arr_set a i x = Some a' ->
  length a' = length a /\ 0 <= i < Z.of_nat (length a)
  /\ arr_get a' i = Some x
  /\ (forall j, j <> i -> arr_get a' j = arr_get a j).
Proof.
  unfold arr_set, arr_get. case_decide as Hi; [|discriminate].
  intros [= <-]. rewrite length_insert. split; [reflexivity|].
  split; [exact Hi|]. split.
  - rewrite decide_True by lia. apply list_lookup_insert_eq. lia.
  - intros j Hj. case_decide; [|reflexivity].
    apply list_lookup_insert_ne. lia.
Qed.

Lemma take_page (g : Z -> Z) (n : Z) :
  0 <= n <= 256 ->
  take (Z.to_nat n) (g <$> seqZ 0 256) = g <$> seqZ 0 n.
Proof.
  intros Hn. apply list_eq. intros k.
  rewrite lookup_take, !list_lookup_fmap. case_decide.
  - rewrite !lookup_seqZ_lt by lia. reflexivity.
  - rewrite (lookup_seqZ_ge 0 n) by lia. reflexivity.
Qed.

(** ** The driver model *)

Lemma answer_cells (d : W25Q64FV.t) :
  W25Q64FV.cells (W25Q64FV.answer d).2 = W25Q64FV.cells d.
Proof. unfold W25Q64FV.answer. destruct (W25Q64FV.script d); reflexivity. Qed.

Lemma answer_script_nil (d : W25Q64FV.t) :
  W25Q64FV.script d = [] -> W25Q64FV.answer d = (W25Q64FV_OK, d).
Proof. unfold W25Q64FV.answer. intros ->. reflexivity. Qed.

Lemma read_page_nil (address : Z) (buffer : list Z) (d : W25Q64FV.t) :
  W25Q64FV.script d = [] ->
  W25Q64FV.read_page address buffer d
  = (W25Q64FV_OK, (fun i => W25Q64FV.cells d (address + i)) <$> seqZ 0 256, d).
Proof.
  intros Hs. unfold W25Q64FV.read_page. rewrite (answer_script_nil d Hs).
  reflexivity.
Qed.

Lemma set_flash_same (s : FlashFAT) : set_flash (_flash s) s = s.
Proof. destruct s. reflexivity. Qed.

(** An erase that succeeds leaves every byte outside its sector as it
    was; inside the sector a byte is 255 afterwards or, without the
    write-enable latch, what it was. *)
Lemma erase_sector_nil (address : Z) (d : W25Q64FV.t) :
  W25Q64FV.script d = [] ->
  exists d',
    W25Q64FV.erase_sector address d = (W25Q64FV_OK, d')
    /\ W25Q64FV.script d' = []
    /\ W25Q64FV.write_enabled d' = false
    /\ (forall a, a / 4096 <> address / 4096 ->
                  W25Q64FV.cells d' a = W25Q64FV.cells d a)
    /\ (forall a, W25Q64FV.cells d' a = W25Q64FV.cells d a
                  \/ W25Q64FV.cells d' a = 255)
    /\ (W25Q64FV.write_enabled d = true ->
        forall a, a / 4096 = address / 4096 -> W25Q64FV.cells d' a = 255)
    /\ (W25Q64FV.write_enabled d = false ->
        W25Q64FV.cells d' = W25Q64FV.cells d).
Proof.
  intros Hs. unfold W25Q64FV.erase_sector. rewrite (answer_script_nil d Hs).
  eexists. split; [reflexivity|]. cbn [W25Q64FV.script W25Q64FV.cells
                                       W25Q64FV.write_enabled].
  split; [exact Hs|]. split; [reflexivity|].
  destruct (W25Q64FV.write_enabled d).
  - split; [|split; [|split]].
    + intros a Ha. rewrite decide_False by exact Ha. reflexivity.
    + intros a. case_decide; [right | left]; reflexivity.
    + intros _ a Ha. rewrite decide_True by exact Ha. reflexivity.
    + discriminate.
  - split; [reflexivity|]. split; [left; reflexivity|].
    split; [discriminate | reflexivity].
Qed.

(** [enable_writing] and the page program it makes possible. *)
Lemma enable_writing_nil (d : W25Q64FV.t) :
  W25Q64FV.script d = [] ->
  exists d',
    W25Q64FV.enable_writing d = (W25Q64FV_OK, d')
    /\ W25Q64FV.script d' = []
    /\ W25Q64FV.write_enabled d' = true
    /\ W25Q64FV.cells d' = W25Q64FV.cells d.
Proof.
  intros Hs. unfold W25Q64FV.enable_writing. rewrite (answer_script_nil d Hs).
  eexists. split; [reflexivity|]. simpl. split; [exact Hs|].
  split; reflexivity.
Qed.

Lemma write_page_nil (address : Z) (buffer : list Z) (d : W25Q64FV.t) :
  W25Q64FV.script d = [] -> W25Q64FV.write_enabled d = true ->
  exists d',
    W25Q64FV.write_page address buffer d = (W25Q64FV_OK, d')
    /\ W25Q64FV.script d' = []
    /\ W25Q64FV.write_enabled d' = false
    /\ (forall a, a / 256 = address / 256 ->
                  W25Q64FV.cells d' a
                  = Z.land (W25Q64FV.cells d a)
                      (default 255 (arr_get buffer ((a - address) mod 256))))
    /\ (forall a, a / 256 <> address / 256 ->
                  W25Q64FV.cells d' a = W25Q64FV.cells d a).
Proof.
  intros Hs He. unfold W25Q64FV.write_page. rewrite (answer_script_nil d Hs).
  eexists. split; [reflexivity|]. cbn [W25Q64FV.script W25Q64FV.cells
                                       W25Q64FV.write_enabled].
  rewrite He. split; [exact Hs|]. split; [reflexivity|]. split.
  - intros a Ha. rewrite decide_True by exact Ha. reflexivity.
  - intros a Ha. rewrite decide_False by exact Ha. reflexivity.
Qed.

(** The three calls that the source makes before every program, and
    before the erase of the table store: busy-wait, write-enable,
    busy-wait. *)
Lemma enabled_nil (d : W25Q64FV.t) :
  W25Q64FV.script d = [] ->
  exists d',
    (W25Q64FV.wait_until_free
       (W25Q64FV.enable_writing (W25Q64FV.wait_until_free d).2).2).2 = d'
    /\ W25Q64FV.script d' = []
    /\ W25Q64FV.write_enabled d' = true
    /\ W25Q64FV.cells d' = W25Q64FV.cells d.
Proof.
  intros Hs. unfold W25Q64FV.wait_until_free.
  rewrite (answer_script_nil d Hs). cbn [snd].
  destruct (enable_writing_nil d Hs) as (d1 & -> & Hs1 & He1 & Hc1). cbn [snd].
  rewrite (answer_script_nil d1 Hs1). cbn [snd].
  exists d1. split; [reflexivity|]. split; [exact Hs1|]. split; assumption.
Qed.

(** ** The table record *)

(** Encoding [n] entries stays inside the buffer when they fit it. *)
Lemma put_entries_fits (n : nat) :
  forall (i index : Z) (files : list FlashFAT_file_entry) (buffer : list Z),
    0 <= i -> 0 <= index ->
    index + 5 * Z.of_nat n <= Z.of_nat (length buffer) ->
    i + Z.of_nat n <= Z.of_nat (length files) ->
    Forall is_u8 buffer ->
    exists buffer', put_entries n i index files buffer = Some buffer'
                    /\ length buffer' = length buffer
                    /\ Forall is_u8 buffer'.
Proof.
  induction n as [|n IH]; intros i index files buffer Hi Hx Hb Hf Hu; simpl.
  - eauto.
  - destruct (arr_get_Some files i) as [f ->]; [lia|]. simpl.
    rewrite arr_set_Some by lia. simpl.
    rewrite arr_set_Some by (rewrite length_insert; lia). simpl.
    rewrite arr_set_Some by (rewrite !length_insert; lia). simpl.
    rewrite arr_set_Some by (rewrite !length_insert; lia). simpl.
    rewrite arr_set_Some by (rewrite !length_insert; lia). simpl.
    edestruct IH as (buffer' & -> & Hl & Hu'); cycle -1.
    + exists buffer'. rewrite Hl, !length_insert. auto.
    + lia.
    + lia.
    + rewrite !length_insert. lia.
    + lia.
    + repeat apply Forall_insert; auto using u8_is_u8.
Qed.

Lemma table_record_fits (table : FlashFAT_file_allocation_table) :
  0 <= _num_files table <= 49 ->
  _num_files table <= Z.of_nat (length (_files table)) ->
  exists buffer, table_record table = Some buffer
                 /\ length buffer = 256%nat /\ Forall is_u8 buffer.
Proof.
  intros Hn Hf. unfold table_record.
  assert (length (prefix ++ drop 8 (replicate 256 0)) = 256%nat
          /\ Forall is_u8 (prefix ++ drop 8 (replicate 256 0))) as [Hl0 Hu0].
  { split; [reflexivity|]. apply (bool_decide_unpack _). vm_compute. exact I. }
  remember (prefix ++ drop 8 (replicate 256 0)) as b0 eqn:Eb0. clear Eb0.
  rewrite arr_set_Some by lia. simpl.
  rewrite arr_set_Some by (rewrite length_insert; lia). simpl.
  edestruct (put_entries_fits (Z.to_nat (_num_files table)) 0 10 (_files table))
    as (buffer' & -> & Hl & Hu); cycle -1.
  - exists buffer'. split; [reflexivity|]. split; [|exact Hu].
    rewrite Hl, !length_insert. exact Hl0.
  - lia.
  - lia.
  - rewrite !length_insert. lia.
  - lia.
  - repeat apply Forall_insert; auto using u8_is_u8.
Qed.

(** C3. With 49 files the record fits its 256 bytes; with 50 files,
    which is below [FLASH_FAT_MAX_FILE_COUNT], building the record
    stores outside the 256-byte buffer (the fiftieth entry goes to
    [buffer[255]] .. [buffer[259]]), and decoding a record that
    announces 50 files reads outside it. *)
Theorem table_record_50_files_out_of_bounds :
  50 < FLASH_FAT_MAX_FILE_COUNT
  /\ (length <$> table_record (table_of 49)) = Some 256%nat
  /\ table_record (table_of 50) = None
  /\ (put_entries 49 0 10 (_files (table_of 50)) (replicate 256 0)
        ≫= fun buffer => arr_set buffer (10 + 5 * 49 + 1) 0) = None
  /\ get_file_allocation_table (table_of 0) (medium_with_count 50) = None.
Proof. vm_compute. repeat split; reflexivity. Qed.

(** After the loop of [write_file_allocation_table] the buffer holds
    the entries, and the bytes before them are as they were. *)
Lemma put_entries_holds (n : nat) :
  forall (i index : Z) files buffer buffer',
    0 <= i -> 0 <= index ->
    put_entries n i index files buffer = Some buffer' ->
    (forall a, a < index -> arr_get buffer' a = arr_get buffer a)
    /\ (forall j f, 0 <= j < Z.of_nat n -> arr_get files (i + j) = Some f ->
                    holds_entry buffer' (index + 5 * j) f).
Proof.
  induction n as [|n IH]; intros i index files buffer buffer' Hi Hx; simpl.
  - intros [= <-]. split; [reflexivity | intros; lia].
  - intros Hp.
    apply bind_Some in Hp as (f & Hf & Hp).
    apply bind_Some in Hp as (b1 & H1 & Hp).
    apply bind_Some in Hp as (b2 & H2 & Hp).
    apply bind_Some in Hp as (b3 & H3 & Hp).
    apply bind_Some in Hp as (b4 & H4 & Hp).
    apply bind_Some in Hp as (b5 & H5 & Hp).
    apply IH in Hp as [Hlow Hent]; [|lia|lia].
    apply arr_set_spec in H1 as (_ & _ & G1 & N1).
    apply arr_set_spec in H2 as (_ & _ & G2 & N2).
    apply arr_set_spec in H3 as (_ & _ & G3 & N3).
    apply arr_set_spec in H4 as (_ & _ & G4 & N4).
    apply arr_set_spec in H5 as (_ & _ & G5 & N5).
    split.
    + intros a Ha. rewrite Hlow, N5, N4, N3, N2, N1 by lia. reflexivity.
    + intros j g Hj Hg. destruct (decide (j = 0)) as [->|Hj0].
      * replace (i + 0) with i in Hg by lia. rewrite Hf in Hg.
        injection Hg as <-. replace (index + 5 * 0) with index by lia.
        unfold holds_entry. rewrite !Hlow by lia. repeat split.
        -- rewrite N5, N4, N3, N2 by lia. exact G1.
        -- rewrite N5, N4, N3 by lia. exact G2.
        -- rewrite N5, N4 by lia. exact G3.
        -- rewrite N5 by lia. exact G4.
        -- exact G5.
      * replace (index + 5 * j) with (index + 5 + 5 * (j - 1)) by lia.
        apply Hent; [lia|]. replace (i + 1 + (j - 1)) with (i + j) by lia.
        exact Hg.
Qed.

(** The loop of [get_file_allocation_table] gives back the entries a
    buffer holds. *)
Lemma get_entries_holds (n : nat) :
  forall (i index : Z) files buffer files0,
    0 <= i -> i + Z.of_nat n <= Z.of_nat (length files0) ->
    (forall j, 0 <= j < Z.of_nat n ->
               exists f, arr_get files (i + j) = Some f /\ entry_typed f
                         /\ holds_entry buffer (index + 5 * j) f) ->
    exists files',
      get_entries n i index buffer files0 = Some files'
      /\ length files' = length files0
      /\ (forall j, 0 <= j < Z.of_nat n ->
                    arr_get files' (i + j) = arr_get files (i + j))
      /\ (forall a, a < i \/ i + Z.of_nat n <= a ->
                    arr_get files' a = arr_get files0 a).
Proof.
  induction n as [|n IH]; intros i index files buffer files0 Hi Hlen Hh; simpl.
  - exists files0. split; [reflexivity|]. split; [reflexivity|].
    split; [intros; lia | reflexivity].
  - destruct (Hh 0) as (f & Hf & (T1 & T2 & T3) & (B0 & B1 & B2 & B3 & B4));
      [lia|].
    replace (index + 5 * 0) with index in * by lia.
    replace (i + 0) with i in Hf by lia.
    rewrite B0. simpl. rewrite B1. simpl. rewrite B2. simpl. rewrite B3. simpl.
    rewrite B4. simpl.
    rewrite !decode_u16 by assumption.
    replace (u8 (_end_offset f)) with (_end_offset f)
      by (unfold is_u8, u8 in *; zlia).
    destruct (arr_set files0 i _) as [files1|] eqn:Hset;
      [|rewrite arr_set_Some in Hset by lia; discriminate].
    simpl. apply arr_set_spec in Hset as (L1 & _ & G1 & N1).
    destruct (IH (i + 1) (index + 5) files buffer files1) as (files' & -> & L & E & O).
    + lia.
    + rewrite L1. lia.
    + intros j Hj. destruct (Hh (j + 1)) as (g & Hg & Tg & Bg); [lia|].
      exists g. replace (i + 1 + j) with (i + (j + 1)) by lia.
      replace (index + 5 + 5 * j) with (index + 5 * (j + 1)) by lia. auto.
    + exists files'. split; [reflexivity|]. split; [congruence|]. split.
      * intros j Hj. destruct (decide (j = 0)) as [->|Hj0].
        -- replace (i + 0) with i by lia. rewrite O, G1, Hf by lia.
           destruct f. reflexivity.
        -- replace (i + j) with (i + 1 + (j - 1)) by lia. apply E. lia.
      * intros a Ha. rewrite O, N1 by lia. reflexivity.
Qed.

(** Decoding stays inside the buffer and the table when the announced
    entries fit both. *)
Lemma get_entries_returns (n : nat) :
  forall (i index : Z) buffer files0,
    0 <= i -> 0 <= index ->
    index + 5 * Z.of_nat n <= Z.of_nat (length buffer) ->
    i + Z.of_nat n <= Z.of_nat (length files0) ->
    is_Some (get_entries n i index buffer files0).
Proof.
  induction n as [|n IH]; intros i index buffer files0 Hi Hx Hb Hf; simpl.
  - eauto.
  - destruct (arr_get_Some buffer index) as [b0 ->]; [lia|].
    destruct (arr_get_Some buffer (index + 1)) as [b1 ->]; [lia|].
    destruct (arr_get_Some buffer (index + 2)) as [b2 ->]; [lia|].
    destruct (arr_get_Some buffer (index + 3)) as [b3 ->]; [lia|].
    destruct (arr_get_Some buffer (index + 4)) as [b4 ->]; [lia|].
    simpl. rewrite arr_set_Some by lia. simpl.
    apply IH; [lia | lia | lia | rewrite length_insert; lia].
Qed.

(** ** Storing and loading the table *)

(** [write_file_allocation_table] has a single return statement. *)
Lemma write_file_allocation_table_status table d st d' :
  write_file_allocation_table table d = Some (st, d') -> st = FLASHFAT_OK.
Proof.
  unfold write_file_allocation_table. intros H.
  apply bind_Some in H as (buffer & _ & H).
  repeat match type of H with
         | context [let '(_, _) := ?c in _] => destruct c
         end.
  congruence.
Qed.

Lemma write_own_table_status s st s' :
  write_own_table s = Some (st, s') -> st = FLASHFAT_OK.
Proof.
  unfold write_own_table. intros H.
  apply bind_Some in H as ([st0 d] & H0 & H). simpl in H.
  apply write_file_allocation_table_status in H0. congruence.
Qed.

Lemma write_file_allocation_table_returns table d buffer :
  table_record table = Some buffer ->
  exists d', write_file_allocation_table table d = Some (FLASHFAT_OK, d').
Proof.
  intros Hr. unfold write_file_allocation_table. rewrite Hr. simpl.
  destruct_calls. eauto.
Qed.

(** When no driver call fails, page 0 of the medium holds the record
    afterwards, and the bytes after the first sector are untouched. *)
Lemma write_file_allocation_table_stores table d buffer :
  table_record table = Some buffer ->
  length buffer = 256%nat -> Forall is_u8 buffer ->
  W25Q64FV.script d = [] ->
  exists d', write_file_allocation_table table d = Some (FLASHFAT_OK, d')
             /\ W25Q64FV.script d' = []
             /\ (forall a, 0 <= a < 256 ->
                           arr_get buffer a = Some (W25Q64FV.cells d' a))
             /\ (forall a, 4096 <= a -> W25Q64FV.cells d' a = W25Q64FV.cells d a).
Proof.
  intros Hr Hl Hu Hs. unfold write_file_allocation_table. rewrite Hr. simpl.
  unfold W25Q64FV.wait_until_free, W25Q64FV.enable_writing,
    W25Q64FV.erase_sector, W25Q64FV.write_page.
  repeat (rewrite answer_script_nil by (simpl; assumption); simpl).
  eexists. split; [reflexivity|]. split; [exact Hs|]. split.
  - intros a Ha. simpl.
    rewrite decide_True by zlia. rewrite decide_True by zlia.
    replace ((a - 0) mod 256) with a by zlia.
    destruct (arr_get_Some buffer a) as [x Hx]; [lia|]. rewrite Hx. simpl.
    f_equal. symmetry. apply land_255.
    apply arr_get_lookup in Hx as [_ Hx].
    eapply Forall_lookup_1; eauto.
  - intros a Ha. simpl.
    rewrite decide_False by zlia. rewrite decide_False by zlia. reflexivity.
Qed.

Lemma write_own_table_returns (s : FlashFAT) :
  0 <= _num_files (_table s) <= 49 ->
  _num_files (_table s) <= Z.of_nat (length (_files (_table s))) ->
  exists d, write_own_table s = Some (FLASHFAT_OK, set_flash d s).
Proof.
  intros Hn Hf. destruct (table_record_fits _ Hn Hf) as (buffer & Hr & _).
  destruct (write_file_allocation_table_returns _ (_flash s) _ Hr) as [d Hd].
  exists d. unfold write_own_table. rewrite Hd. reflexivity.
Qed.

(** C7. Storing a table on a medium whose [erase_sector] and
    [write_page] both fail (the fourth and the eighth driver call):
    [write_file_allocation_table] returns [FLASHFAT_OK], and page 0 does
    not hold the marker. *)
Theorem write_file_allocation_table_hides_failures :
  ('(st, d) ← write_file_allocation_table (table_of 1)
                {| W25Q64FV.cells := fun _ => 0;
                   W25Q64FV.script :=
                     [W25Q64FV_OK; W25Q64FV_OK; W25Q64FV_OK; W25Q64FV_FAILURE;
                      W25Q64FV_OK; W25Q64FV_OK; W25Q64FV_OK; W25Q64FV_FAILURE];
                   W25Q64FV.write_enabled := false |};
   Some (st, W25Q64FV.cells d 0, W25Q64FV.script d))
  = Some (FLASHFAT_OK, 0, []).
Proof. vm_compute. reflexivity. Qed.

(** A failed [read_page] is the only way [get_file_allocation_table]
    reports a flash failure, and then neither the table nor the medium
    has changed. *)
Lemma get_file_allocation_table_failure table d t d' :
  get_file_allocation_table table d = Some (FLASHFAT_FLASH_FAILURE, t, d') ->
  t = table /\ W25Q64FV.cells d' = W25Q64FV.cells d.
Proof.
  unfold get_file_allocation_table, W25Q64FV.wait_until_free, W25Q64FV.read_page.
  pose proof (answer_cells d) as Hc1.
  destruct (W25Q64FV.answer d) as [st1 d1]; simpl in Hc1.
  pose proof (answer_cells d1) as Hc2.
  destruct (W25Q64FV.answer d1) as [st2 d2]; simpl in Hc2.
  destruct st2.
  - case_decide; [|discriminate].
    intros Hr. apply bind_Some in Hr as (? & _ & Hr).
    apply bind_Some in Hr as (? & _ & Hr).
    apply bind_Some in Hr as (? & _ & Hr). discriminate.
  - intros [= <- <-]. split; [reflexivity | congruence].
Qed.

(** What [read_page 0] delivers from a medium whose page 0 holds
    [buffer]. *)
Lemma page_0_is_record (d : W25Q64FV.t) (buffer : list Z) :
  length buffer = 256%nat ->
  (forall a, 0 <= a < 256 -> arr_get buffer a = Some (W25Q64FV.cells d a)) ->
  (fun i => W25Q64FV.cells d (0 + i)) <$> seqZ 0 256 = buffer.
Proof.
  intros Hl Hc. apply list_eq. intros k. rewrite list_lookup_fmap.
  destruct (decide (k < 256)%nat) as [Hk|Hk].
  - rewrite lookup_seqZ_lt by lia. simpl.
    specialize (Hc (Z.of_nat k) ltac:(lia)). unfold arr_get in Hc.
    rewrite decide_True in Hc by lia. rewrite Nat2Z.id in Hc. rewrite Hc.
    reflexivity.
  - rewrite lookup_seqZ_ge by lia. simpl. symmetry.
    apply lookup_ge_None. lia.
Qed.

(** For a table of at most 49 files whose fields are within their types,
    on a medium that does not fail: [write_file_allocation_table]
    followed by [get_file_allocation_table] gives back the file count,
    the close marker and the registered entries. *)
Theorem table_round_trip (table table0 : FlashFAT_file_allocation_table)
    (d : W25Q64FV.t) :
  0 <= _num_files table <= 49 ->
  _num_files table <= Z.of_nat (length (_files table)) ->
  _num_files table <= Z.of_nat (length (_files table0)) ->
  Forall entry_typed (_files table) ->
  is_u8 (_file_close_err table) ->
  W25Q64FV.script d = [] ->
  exists d1 table',
    write_file_allocation_table table d = Some (FLASHFAT_OK, d1)
    /\ get_file_allocation_table table0 d1 = Some (FLASHFAT_OK, table', d1)
    /\ _num_files table' = _num_files table
    /\ _file_close_err table' = _file_close_err table
    /\ length (_files table') = length (_files table0)
    /\ (forall j, 0 <= j < _num_files table ->
                  arr_get (_files table') j = arr_get (_files table) j)
    /\ W25Q64FV.script d1 = []
    /\ (forall a, 4096 <= a -> W25Q64FV.cells d1 a = W25Q64FV.cells d a).
Proof.
  intros Hn Hlen Hlen0 Ht He Hs.
  destruct (table_record_fits table Hn Hlen) as (buffer & Hr & Hl & Hu).
  destruct (write_file_allocation_table_stores table d buffer Hr Hl Hu Hs)
    as (d1 & Hw & Hs1 & Hcells & Hhigh).
  exists d1.
  (* the content of the record *)
  pose proof Hr as Hr'. unfold table_record in Hr'.
  apply bind_Some in Hr' as (b1 & H1 & Hr').
  apply bind_Some in Hr' as (b2 & H2 & Hr').
  apply put_entries_holds in Hr' as [Hlow Hent]; [|lia|lia].
  apply arr_set_spec in H1 as (_ & _ & G1 & N1).
  apply arr_set_spec in H2 as (_ & _ & G2 & N2).
  assert (arr_get buffer 8 = Some (_num_files table)) as B8.
  { rewrite Hlow, N2, G1 by lia. f_equal. unfold u8. zlia. }
  assert (arr_get buffer 9 = Some (_file_close_err table)) as B9.
  { rewrite Hlow, G2 by lia. f_equal. unfold is_u8, u8 in *. zlia. }
  assert (take 8 buffer = prefix) as Bp.
  { apply list_eq. intros k.
    destruct (decide (k < 8)%nat) as [Hk|Hk].
    - rewrite lookup_take_lt by lia.
      specialize (Hlow (Z.of_nat k) ltac:(lia)).
      rewrite N2, N1 in Hlow by lia. unfold arr_get in Hlow.
      rewrite !decide_True in Hlow by lia. rewrite Nat2Z.id in Hlow.
      rewrite Hlow. unfold prefix.
      do 8 (destruct k as [|k]; [reflexivity|]). lia.
    - rewrite lookup_take_ge by lia. symmetry. apply lookup_ge_None.
      simpl. lia. }
  (* reading it back *)
  unfold get_file_allocation_table, W25Q64FV.wait_until_free, W25Q64FV.read_page.
  rewrite !(answer_script_nil d1 Hs1).
  rewrite (page_0_is_record d1 buffer Hl Hcells).
  rewrite decide_True by exact Bp. rewrite B8, B9. simpl.
  destruct (get_entries_holds (Z.to_nat (_num_files table)) 0 10
              (_files table) buffer (_files table0))
    as (files' & -> & L & E & _).
  - lia.
  - lia.
  - intros j Hj.
    destruct (arr_get_Some (_files table) (0 + j)) as [f Hf]; [lia|].
    exists f. split; [exact Hf|]. split.
    + apply arr_get_lookup in Hf as [_ Hf]. eapply Forall_lookup_1; eauto.
    + apply Hent; [lia | exact Hf].
  - simpl. eexists. split; [exact Hw|]. split; [reflexivity|]. simpl.
    split; [reflexivity|]. split; [reflexivity|]. split; [exact L|].
    split; [|split; [exact Hs1 | exact Hhigh]].
    intros j Hj. apply (E j). lia.
Qed.

(** [get_file_allocation_table] returns when page 0 of the medium does
    not start with the marker, or announces at most 49 files. *)
Lemma get_file_allocation_table_returns table d :
  (take 8 (page_0 d) = prefix -> W25Q64FV.cells d 8 <= 49) ->
  49 <= Z.of_nat (length (_files table)) ->
  is_Some (get_file_allocation_table table d).
Proof.
  intros Hc Hl.
  unfold get_file_allocation_table, W25Q64FV.wait_until_free, W25Q64FV.read_page.
  pose proof (answer_cells d) as Hc1.
  destruct (W25Q64FV.answer d) as [st1 d1]; simpl in Hc1.
  destruct (W25Q64FV.answer d1) as [st2 d2].
  destruct st2; [|eauto].
  change ((fun i => W25Q64FV.cells d1 (0 + i)) <$> seqZ 0 256) with (page_0 d1).
  assert (page_0 d1 = page_0 d) as -> by (unfold page_0; rewrite Hc1; reflexivity).
  case_decide as Hp; [|eauto]. specialize (Hc Hp).
  assert (length (page_0 d) = 256%nat) as Lb
    by (unfold page_0; rewrite length_fmap, length_seqZ; lia).
  assert (arr_get (page_0 d) 8 = Some (W25Q64FV.cells d 8)) as ->.
  { unfold arr_get, page_0. rewrite decide_True by lia.
    rewrite list_lookup_fmap, lookup_seqZ_lt by lia. reflexivity. }
  destruct (arr_get_Some (page_0 d) 9) as [err ->]; [lia|].
  cbn [mbind option_bind].
  destruct (get_entries_returns (Z.to_nat (W25Q64FV.cells d 8)) 0 10 (page_0 d)
              (_files table)) as [files ->]; [lia | lia | lia | lia |].
  simpl. eauto.
Qed.

(** ** [begin] *)

(** C10. When the driver's own [begin] succeeds, every return of
    [FlashFAT::begin] is [FLASHFAT_OK], and [begin] does return when
    page 0 of the medium has no marker or announces at most 49 files.
    In particular, when the read of the allocation table fails with a
    flash failure, [begin] still returns [FLASHFAT_OK], no table is
    created on the medium (its bytes are the ones it had) and the table
    in memory is the one it was. *)
Theorem begin_ok_despite_read_failure (_cs : Z) (s : FlashFAT) (d1 : W25Q64FV.t) :
  W25Q64FV.begin _cs (_flash s) = (W25Q64FV_OK, d1) ->
  (forall st s', begin _cs s = Some (st, s') -> st = FLASHFAT_OK) /\
  ((take 8 (page_0 (_flash s)) = prefix -> cell s 8 <= 49) ->
   49 <= Z.of_nat (length (_files (_table s))) ->
   exists s', begin _cs s = Some (FLASHFAT_OK, s')) /\
  (forall t d2,
      get_file_allocation_table (_table s) d1
        = Some (FLASHFAT_FLASH_FAILURE, t, d2) ->
      begin _cs s = Some (FLASHFAT_OK, set_flash d2 s) /\
      _table (set_flash d2 s) = _table s /\
      W25Q64FV.cells d2 = W25Q64FV.cells (_flash s)).
Proof.
  intros Hb.
  assert (W25Q64FV.cells d1 = W25Q64FV.cells (_flash s)) as Hcells.
  { unfold W25Q64FV.begin in Hb.
    pose proof (answer_cells (_flash s)) as Ha. rewrite Hb in Ha. exact Ha. }
  assert (forall st s', begin _cs s = Some (st, s') -> st = FLASHFAT_OK) as Hok.
  { intros st s'. unfold begin. rewrite Hb. simpl.
    destruct (get_file_allocation_table (_table s) d1) as [[[st0 t] d]|];
      [|discriminate].
    simpl. destruct st0; simpl; try congruence.
    destruct (create_file_allocation_table _) as [[? ?]|]; simpl; congruence. }
  split; [exact Hok|]. split.
  - intros Hc Hl.
    assert (is_Some (begin _cs s)) as [[st s'] Hr].
    { unfold begin. rewrite Hb. simpl.
      destruct (get_file_allocation_table_returns (_table s) d1)
        as [[[st0 t] d] ->];
        [unfold page_0; rewrite Hcells; exact Hc | exact Hl |].
      simpl.
      assert (forall x, is_Some (create_file_allocation_table x)) as Hcreate.
      { intros x. unfold create_file_allocation_table.
        match goal with |- is_Some (write_own_table ?y) =>
          destruct (write_own_table_returns y) as [d' ->] end;
          [simpl; lia | simpl; lia | eauto]. }
      destruct st0; simpl; eauto.
      destruct (Hcreate (set_table t (set_flash d (set_flash d1 s))))
        as [[? ?] ->]. simpl. eauto. }
    exists s'. rewrite Hr. rewrite (Hok _ _ Hr). reflexivity.
  - intros t d2 Hg. unfold begin. rewrite Hb. simpl. rewrite Hg. simpl.
    apply get_file_allocation_table_failure in Hg as [-> Hc].
    split; [|split].
    + destruct s as [fl tb ? ? ? ? ? ? ?]. destruct tb. reflexivity.
    + reflexivity.
    + rewrite Hc. exact Hcells.
Qed.

Lemma begin_ok_despite_read_failure_witness :
  begin 10 (fresh read_fails)
  = Some (FLASHFAT_OK,
          set_flash {| W25Q64FV.cells := fun _ => 255; W25Q64FV.script := [];
                       W25Q64FV.write_enabled := false |}
            (fresh read_fails))
  /\ exists s', begin 10 (fresh read_fails) = Some (FLASHFAT_OK, s').
Proof.
  pose proof (begin_ok_despite_read_failure 10 (fresh read_fails)
    {| W25Q64FV.cells := fun _ => 255;
       W25Q64FV.script := [W25Q64FV_OK; W25Q64FV_FAILURE];
       W25Q64FV.write_enabled := false |} eq_refl)
    as (_ & Hret & Hfail).
  split.
  - refine (proj1 (Hfail _ _ _)). reflexivity.
  - apply Hret.
    + vm_compute. discriminate.
    + vm_compute. discriminate.
Defined.

(** ** [new_file] *)

Lemma last_used_address_typed (table : FlashFAT_file_allocation_table) :
  0 <= _num_files table <= Z.of_nat (length (_files table)) ->
  Forall entry_typed (_files table) ->
  last_used_address table = Some (files_end table)
  /\ 0 <= files_end table < 2 ^ 26.
Proof.
  intros Hn Ht. unfold last_used_address, files_end.
  case_decide; [split; [reflexivity | lia]|].
  destruct (arr_get_Some (_files table) (_num_files table - 1)) as [f Hf];
    [lia|].
  rewrite Hf. simpl.
  apply arr_get_lookup in Hf as [_ Hf].
  pose proof (Forall_lookup_1 _ _ _ _ Ht Hf) as (H1 & H2 & H3).
  unfold is_u16, is_u8 in *. unfold file_end, u32.
  split; [f_equal; zlia | lia].
Qed.

Lemma next_start_address_spec (last : Z) :
  0 <= last < 2 ^ 26 ->
  next_start_address last = (last / 4096 + 1) * 4096.
Proof.
  intros Hl. unfold next_start_address, u32.
  rewrite Z.shiftr_div_pow2, Z.shiftl_mul_pow2 by lia.
  change (2 ^ 12) with 4096. zlia.
Qed.

(** In no mode and with room in the table, [new_file] builds the object
    [allocated] and stores its table. *)
Lemma new_file_allocates (s : FlashFAT) :
  _mode s = FLASHFAT_NO_MODE ->
  0 <= _num_files (_table s) < FLASH_FAT_MAX_FILE_COUNT ->
  length (_files (_table s)) = 254%nat ->
  Forall entry_typed (_files (_table s)) ->
  exists f0,
    arr_get (_files (_table s)) (_num_files (_table s)) = Some f0
    /\ new_file s
       = write_own_table
           (allocated s f0
              (W25Q64FV.erase_sector
                 (next_start_address (files_end (_table s)))
                 (W25Q64FV.wait_until_free (_flash s)).2).2)
    /\ next_start_address (files_end (_table s))
       = (files_end (_table s) / 4096 + 1) * 4096
    /\ 0 <= files_end (_table s) < 2 ^ 26.
Proof.
  intros Hm Hn Hl Ht. unfold FLASH_FAT_MAX_FILE_COUNT in Hn.
  destruct (last_used_address_typed (_table s)) as [Hlast Hend]; [lia | exact Ht |].
  pose proof (next_start_address_spec _ Hend) as Hnext.
  unfold new_file. rewrite Hm.
  rewrite decide_False by (unfold FLASH_FAT_MAX_FILE_COUNT; lia).
  rewrite Hlast. simpl.
  replace (u8 (_num_files (_table s) + 1)) with (_num_files (_table s) + 1)
    by (unfold u8; zlia).
  replace (u32 (_num_files (_table s) + 1 - 1)) with (_num_files (_table s))
    by (unfold u32; zlia).
  destruct (arr_get_Some (_files (_table s)) (_num_files (_table s))) as [f0 Hf0];
    [lia|].
  rewrite Hf0. simpl. rewrite arr_set_Some by lia. simpl.
  unfold flash_wait_until_free, flash_erase_sector.
  destruct (W25Q64FV.wait_until_free _) as [st1 d1]. simpl.
  destruct (W25Q64FV.erase_sector _ _) as [st2 d2]. simpl.
  exists f0. split; [reflexivity|]. split; [reflexivity|]. auto.
Qed.

(** With no file in the table the end address counts as 0, and
    [new_file] starts the first file at address 4096 (page 16), right
    after the sector of the table. *)
Example new_file_first_start :
  ('(s : FlashFAT) ← begun;
   '(st, s') ← new_file s;
   Some (_mode s, _num_files (_table s), st, _current_index s',
         _start_page <$> take 1 (_files (_table s'))))
  = Some (FLASHFAT_NO_MODE, 0, FLASHFAT_OK, 4096, [16]).
Proof. vm_compute. reflexivity. Qed.

(** C4, as stated, fails: a file of 4096 bytes written at 4096 has its
    end byte at 8191, and 8192 is the first multiple of 4096 strictly
    after it.  [new_file] starts the next file at 12288: it goes by the
    address after the end byte, 8192, and takes the first multiple of
    4096 strictly after that. *)
Lemma new_file_skips_sector_after_full_one :
  ('(s0 : FlashFAT) ← writing (replicate 4096 0);
   '(_, s) ← close_file s0;
   '(st, s') ← new_file s;
   Some (_mode s, _num_files (_table s),
         (fun f => (file_start f, file_end f - 1)) <$> take 1 (_files (_table s)),
         st, _current_index s'))
  = Some (FLASHFAT_NO_MODE, 1, [(4096, 8191)], FLASHFAT_OK, 12288)
  /\ 8192 mod 4096 = 0 /\ 8191 < 8192 < 12288.
Proof. split; [vm_compute; reflexivity | split; [reflexivity | lia]]. Qed.

(** C4, amended. In no mode and with fewer than 49 files (the counts
    whose table record fits its buffer of 256 bytes), [new_file] returns
    [FLASHFAT_OK] in write mode, whatever the driver answers, with one
    file more, and with the cursor at the first multiple of 4096 that is
    greater than the end address of the last file.  That end address is
    [(start_page + page_length) * 256 + end_offset], the address after
    the last byte, and it counts as 0 for a table without files, so that
    the first file starts at 4096.  The entry of the new file holds the
    page number of the cursor in 16 bits, which is the cursor itself
    when it is below 2^24. *)
Theorem new_file_start_address (s : FlashFAT) :
  _mode s = FLASHFAT_NO_MODE ->
  0 <= _num_files (_table s) < 49 ->
  length (_files (_table s)) = 254%nat ->
  Forall entry_typed (_files (_table s)) ->
  exists s1,
    new_file s = Some (FLASHFAT_OK, s1)
    /\ _mode s1 = FLASHFAT_WRITE_MODE
    /\ _current_index s1 mod 4096 = 0
    /\ files_end (_table s) < _current_index s1
    /\ (forall b, b mod 4096 = 0 -> files_end (_table s) < b ->
                  _current_index s1 <= b)
    /\ (_num_files (_table s) = 0 -> _current_index s1 = 4096)
    /\ _num_files (_table s1) = _num_files (_table s) + 1
    /\ (exists f,
          arr_get (_files (_table s1)) (_num_files (_table s)) = Some f
          /\ _start_page f = u16 (_current_index s1 / 256)
          /\ (_current_index s1 < 2 ^ 24 -> file_start f = _current_index s1)).
Proof.
  intros Hm Hn Hl Ht.
  destruct (new_file_allocates s Hm ltac:(unfold FLASH_FAT_MAX_FILE_COUNT; lia)
              Hl Ht) as (f0 & Hf0 & Hnew & Hnext & Hend).
  match type of Hnew with _ = write_own_table ?x =>
    destruct (write_own_table_returns x) as [d Hd] end.
  { simpl. lia. }
  { simpl. rewrite length_insert. lia. }
  rewrite Hd in Hnew. eexists. split; [exact Hnew|].
  unfold allocated. simpl. rewrite Hnext.
  split; [reflexivity|].
  split; [zlia|]. split; [zlia|]. split; [intros b Hb1 Hb2; zlia|].
  split.
  { intros H0. unfold files_end. rewrite decide_True by exact H0. reflexivity. }
  split; [reflexivity|].
  eexists. split; [|split].
  - unfold arr_get. rewrite decide_True by lia.
    apply list_lookup_insert_eq. lia.
  - simpl. rewrite Z.shiftr_div_pow2 by lia. reflexivity.
  - simpl. intros Hlt. unfold file_start. simpl.
    rewrite Z.shiftr_div_pow2 by lia. unfold u16. change (2 ^ 8) with 256.
    zlia.
Qed.

Lemma new_file_start_address_witness :
  exists s1,
    new_file (set_table table_1000 (fresh blank_flash)) = Some (FLASHFAT_OK, s1)
    /\ _current_index s1 = 8192.
Proof.
  destruct (new_file_start_address (set_table table_1000 (fresh blank_flash)))
    as (s1 & H1 & _ & H3 & H4 & H5 & _).
  - reflexivity.
  - vm_compute. split; congruence.
  - reflexivity.
  - apply (bool_decide_unpack _). vm_compute. exact I.
  - exists s1. split; [exact H1|].
    assert (files_end (_table (set_table table_1000 (fresh blank_flash))) = 5096)
      as E by reflexivity.
    rewrite E in H4, H5. specialize (H5 8192 eq_refl ltac:(lia)). zlia.
Defined.

(** On a medium whose driver calls succeed, [new_file] returns; every
    byte from address 4096 on is as it was or erased, and as it was
    outside the sector of the new file. *)
Lemma new_file_quiet (s : FlashFAT) :
  _mode s = FLASHFAT_NO_MODE ->
  0 <= _num_files (_table s) < 49 ->
  length (_files (_table s)) = 254%nat ->
  Forall entry_typed (_files (_table s)) ->
  W25Q64FV.script (_flash s) = [] ->
  exists f0 d0 d1,
    arr_get (_files (_table s)) (_num_files (_table s)) = Some f0
    /\ new_file s = Some (FLASHFAT_OK, set_flash d1 (allocated s f0 d0))
    /\ next_start_address (files_end (_table s))
       = (files_end (_table s) / 4096 + 1) * 4096
    /\ 0 <= files_end (_table s) < 2 ^ 26
    /\ W25Q64FV.script d1 = []
    /\ (forall a, 4096 <= a ->
                  a / 4096 <> files_end (_table s) / 4096 + 1 ->
                  W25Q64FV.cells d1 a = cell s a)
    /\ (forall a, 4096 <= a ->
                  W25Q64FV.cells d1 a = cell s a \/ W25Q64FV.cells d1 a = 255).
Proof.
  intros Hm Hn Hl Ht Hs.
  destruct (new_file_allocates s Hm ltac:(unfold FLASH_FAT_MAX_FILE_COUNT; lia)
              Hl Ht) as (f0 & Hf0 & Hnew & Hnext & Hend).
  rewrite Hnext in Hnew.
  unfold W25Q64FV.wait_until_free in Hnew.
  rewrite (answer_script_nil _ Hs) in Hnew. cbn [snd] in Hnew.
  set (A := (files_end (_table s) / 4096 + 1) * 4096) in *.
  destruct (erase_sector_nil A (_flash s) Hs)
    as (d0 & He & Hs0 & _ & Hout0 & Hany0 & _).
  rewrite He in Hnew. cbn [snd] in Hnew.
  set (s1 := allocated s f0 d0) in *.
  destruct (table_record_fits (_table s1)) as (buffer & Hr & Lb & Ub).
  { simpl. lia. }
  { simpl. rewrite length_insert. lia. }
  destruct (write_file_allocation_table_stores (_table s1) d0 buffer Hr Lb Ub Hs0)
    as (d1 & Hw & Hs1 & _ & Hhigh).
  exists f0, d0, d1. split; [exact Hf0|]. split.
  { rewrite Hnew. unfold write_own_table.
    change (_flash s1) with d0. rewrite Hw. reflexivity. }
  split; [exact Hnext|]. split; [exact Hend|]. split; [exact Hs1|]. split.
  - intros a Ha Hsec. rewrite Hhigh by exact Ha. apply Hout0. unfold A. zlia.
  - intros a Ha. rewrite Hhigh by exact Ha. apply Hany0.
Qed.

Lemma entries_ok_snoc (l : list FlashFAT_file_entry) :
  forall low prev f,
    entries_ok low prev (l ++ [f])
    = entries_ok low prev l
      && (bool_decide (file_start f mod 4096 = 0)
          && bool_decide (default low (file_end <$> last l) <= file_start f)
          && bool_decide (default prev (file_start <$> last l) < file_start f)).
Proof.
  induction l as [|g l IH]; intros low prev f; simpl.
  - rewrite andb_true_r. reflexivity.
  - rewrite IH. rewrite last_cons.
    destruct (last l) as [h|]; simpl; rewrite <- !andb_assoc; reflexivity.
Qed.

(** X17. As long as the next start address stays below 2^24,
    [new_file] keeps the invariant of the table (the files are in
    address order, do not overlap, start on sector boundaries and stay
    out of the first sector) and the types of its entries, and the new
    file lies after the old ones. *)
Lemma new_file_keeps_layout (s : FlashFAT) st s' :
  _mode s = FLASHFAT_NO_MODE ->
  0 <= _num_files (_table s) < FLASH_FAT_MAX_FILE_COUNT ->
  length (_files (_table s)) = 254%nat ->
  Forall entry_typed (_files (_table s)) ->
  table_ok (_table s) = true ->
  files_end (_table s) < 2 ^ 24 - 4096 ->
  new_file s = Some (st, s') ->
  table_ok (_table s') = true
  /\ Forall entry_typed (_files (_table s'))
  /\ files_end (_table s) < files_end (_table s').
Proof.
  intros Hm Hn Hl Ht Hok Hfit Hnew.
  destruct (new_file_allocates s Hm Hn Hl Ht)
    as (f0 & Hf0 & Hnew' & Hnext & Hend).
  unfold FLASH_FAT_MAX_FILE_COUNT in Hn.
  rewrite Hnew' in Hnew. unfold write_own_table in Hnew.
  apply bind_Some in Hnew as ([st0 d] & _ & Hs). simpl in Hs.
  injection Hs as <- <-. simpl. rewrite Hnext.
  set (n := _num_files (_table s)) in *.
  set (A := (files_end (_table s) / 4096 + 1) * 4096) in *.
  apply arr_get_lookup in Hf0 as [_ Hf0].
  pose proof (Forall_lookup_1 _ _ _ _ Ht Hf0) as (_ & T2 & T3).
  assert (u16 (Z.shiftr A 8) * 256 = A) as Hstart.
  { rewrite Z.shiftr_div_pow2 by lia. unfold u16, A. change (2 ^ 8) with 256.
    zlia. }
  assert (is_u16 (u16 (Z.shiftr A 8))) as T1 by (unfold is_u16, u16; zlia).
  split; [|split].
  - unfold table_ok. simpl.
    replace (Z.to_nat (n + 1)) with (S (Z.to_nat n)) by lia.
    erewrite take_S_r by (apply list_lookup_insert_eq; lia).
    rewrite take_insert_ge by lia.
    rewrite entries_ok_snoc. unfold table_ok in Hok. fold n in Hok.
    rewrite Hok. simpl.
    rewrite !andb_true_iff, !bool_decide_eq_true.
    change (file_start {| _start_page := u16 (Z.shiftr A 8);
                          _page_length := _page_length f0;
                          _end_offset := _end_offset f0 |})
      with (u16 (Z.shiftr A 8) * 256).
    rewrite Hstart.
    assert (default 4096 (file_end <$> last (take (Z.to_nat n) (_files (_table s))))
              <= A
            /\ default 0 (file_start <$> last (take (Z.to_nat n) (_files (_table s))))
              < A) as [H1 H2].
    { rewrite last_lookup, length_take_le by lia.
      destruct (decide (n = 0)) as [Hn0|Hn0].
      - rewrite Hn0. simpl. unfold A. zlia.
      - rewrite lookup_take_lt by lia.
        assert (files_end (_table s)
                = default 0 (file_end <$>
                     _files (_table s) !! Init.Nat.pred (Z.to_nat n))) as Hfe.
        { unfold files_end. fold n. rewrite decide_False by exact Hn0.
          unfold arr_get. rewrite decide_True by lia.
          replace (Z.to_nat (n - 1)) with (Init.Nat.pred (Z.to_nat n)) by lia.
          reflexivity. }
        destruct (_files (_table s) !! Init.Nat.pred (Z.to_nat n)) as [g|] eqn:Hg.
        + simpl in *. pose proof (Forall_lookup_1 _ _ _ _ Ht Hg) as (G1 & G2 & G3).
          unfold is_u16, is_u8, file_end, file_start in *. unfold A. zlia.
        + apply lookup_ge_None in Hg. lia. }
    repeat split; try assumption. unfold A. zlia.
  - simpl. apply Forall_insert; [exact Ht|].
    split; [exact T1 | split; [exact T2 | exact T3]].
  - unfold files_end at 2. simpl. rewrite decide_False by lia.
    unfold arr_get. rewrite decide_True by lia.
    replace (Z.to_nat (n + 1 - 1)) with (Z.to_nat n) by lia.
    rewrite list_lookup_insert_eq by lia. simpl.
    unfold file_end. simpl. unfold is_u16, is_u8 in *. unfold A in *. zlia.
Qed.

(** C8. [new_file] on a table that satisfies the invariant and whose
    last file ends at 2^24 - 4096: the next start address is 2^24, its
    page number does not fit the 16-bit [_start_page], and the new entry
    starts at page 0, inside the sector of the table and below the first
    file.  The invariant is lost. *)
Theorem new_file_wraps_start_page :
  let s := set_table table_near_top (fresh blank_flash) in
  table_ok (_table s) = true
  /\ ('(st, s') ← new_file s;
      Some (st, _current_index s', _start_page <$> take 2 (_files (_table s')),
            table_ok (_table s')))
     = Some (FLASHFAT_OK, 16777216, [16; 0], false).
Proof. vm_compute. split; reflexivity. Qed.

(** ** [write] *)

Lemma write_pages_mode (n : nat) :
  forall p s s', write_pages n p s = Some s' -> _mode s' = _mode s.
Proof.
  induction n as [|n IH]; intros p s s'; simpl.
  - intros [= <-]. reflexivity.
  - unfold flash_wait_until_free, flash_enable_writing, flash_write_page.
    destruct (W25Q64FV.wait_until_free (_flash s)) as [? d1]. simpl.
    destruct (W25Q64FV.enable_writing d1) as [? d2]. simpl.
    destruct (W25Q64FV.wait_until_free d2) as [? d3]. simpl.
    destruct (arr_slice _ _ _) as [page|]; [|discriminate]. simpl.
    destruct (W25Q64FV.write_page _ _ _) as [st4 d4]. simpl.
    intros Hw. apply IH in Hw. exact Hw.
Qed.

Local Arguments write_pages : simpl never.

Lemma erase_ahead_mode s : _mode (erase_ahead s) = _mode s.
Proof.
  unfold erase_ahead. case_decide; [|reflexivity].
  unfold flash_erase_sector. destruct (W25Q64FV.erase_sector _ _). reflexivity.
Qed.

Lemma write_bytes_mode (buffer : list Z) :
  forall s s', write_bytes buffer s = Some s' -> _mode s' = _mode s.
Proof.
  induction buffer as [|b buffer IH]; intros s s'; simpl.
  - intros [= <-]. reflexivity.
  - destruct (arr_set _ _ _) as [wb|]; [|discriminate]. simpl.
    case_decide.
    + destruct (write_pages _ _ _) as [s2|] eqn:Hp; [|discriminate]. simpl.
      intros Hw. apply IH in Hw. rewrite Hw. simpl.
      apply write_pages_mode in Hp. rewrite Hp, erase_ahead_mode. reflexivity.
    + simpl. intros Hw. apply IH in Hw. rewrite Hw. reflexivity.
Qed.

(** Whatever the driver answers, a [write] in write mode that returns,
    returns [FLASHFAT_OK] and stays in write mode. *)
Lemma write_status buffer s st s' :
  _mode s = FLASHFAT_WRITE_MODE -> write buffer s = Some (st, s') ->
  st = FLASHFAT_OK /\ _mode s' = FLASHFAT_WRITE_MODE.
Proof.
  intros Hm. unfold write. rewrite Hm.
  destruct (write_bytes buffer s) as [s2|] eqn:Hw; [|discriminate]. simpl.
  intros [= <- <-]. split; [reflexivity|].
  apply write_bytes_mode in Hw. congruence.
Qed.

(** C6. A write session whose fourth driver call, the first [write_page]
    of [write], fails: [write] of 512 bytes returns [FLASHFAT_OK], the
    session stays in write mode, and the first byte of the file is still
    erased on the medium. *)
Theorem write_hides_failed_page_program :
  ('(s : FlashFAT) ← writing [];
   '(st, s') ← write (replicate 512 0)
                 (set_script [W25Q64FV_OK; W25Q64FV_OK; W25Q64FV_OK;
                              W25Q64FV_FAILURE] s);
   Some (st, _mode s', _current_index s, cell s' 4096, cell s' 4352))
  = Some (FLASHFAT_OK, FLASHFAT_WRITE_MODE, 4096, 255, 0).
Proof. vm_compute. reflexivity. Qed.

(** Bytes that do not fill the write buffer stay in it. *)
Lemma write_bytes_buffered (data : list Z) :
  forall s,
    0 <= _write_buffer_index s ->
    _write_buffer_index s + Z.of_nat (length data) < FLASH_FAT_FILE_BUFFER ->
    length (_write_buffer s) = 512%nat ->
    exists wb,
      write_bytes data s
      = Some (set_write_buffer_index
                (_write_buffer_index s + Z.of_nat (length data))
                (set_write_buffer wb s))
      /\ length wb = 512%nat
      /\ (forall a, a < _write_buffer_index s ->
                    arr_get wb a = arr_get (_write_buffer s) a)
      /\ (forall k, 0 <= k < Z.of_nat (length data) ->
                    arr_get wb (_write_buffer_index s + k) = data !! Z.to_nat k).
Proof.
  unfold FLASH_FAT_FILE_BUFFER.
  induction data as [|b data IH]; intros s Hi Hfit Hl.
  - exists (_write_buffer s). simpl. split.
    + f_equal. destruct s. unfold set_write_buffer_index, set_write_buffer.
      simpl. f_equal. lia.
    + split; [exact Hl|]. split; [reflexivity | intros; lia].
  - cbn [write_bytes]. simpl length in Hfit.
    destruct (arr_set (_write_buffer s) (_write_buffer_index s) b) as [wb1|] eqn:Hset;
      [|rewrite arr_set_Some in Hset by lia; discriminate].
    apply arr_set_spec in Hset as (L1 & _ & G1 & N1).
    cbn [mbind option_bind]. simpl.
    replace (u32 (_write_buffer_index s + 1)) with (_write_buffer_index s + 1)
      by (unfold u32; zlia).
    rewrite decide_False by (unfold FLASH_FAT_FILE_BUFFER; lia).
    destruct (IH (set_write_buffer_index (_write_buffer_index s + 1)
                    (set_write_buffer wb1 s)))
      as (wb & Hw & L & Hlow & Hdata).
    + simpl. lia.
    + simpl. lia.
    + simpl. lia.
    + simpl in Hw, Hlow, Hdata. exists wb. split; [|split; [exact L|split]].
      * cbn [mbind option_bind]. rewrite Hw. f_equal. destruct s.
        unfold set_write_buffer_index, set_write_buffer. simpl. f_equal. lia.
      * intros a Ha. rewrite Hlow, N1 by lia. reflexivity.
      * intros k Hk. destruct (decide (k = 0)) as [->|Hk0].
        -- replace (_write_buffer_index s + 0) with (_write_buffer_index s) by lia.
           rewrite Hlow, G1 by lia. reflexivity.
        -- replace (_write_buffer_index s + k)
             with (_write_buffer_index s + 1 + (k - 1)) by lia.
           rewrite Hdata by lia.
           replace (Z.to_nat k) with (S (Z.to_nat (k - 1))) by lia. reflexivity.
Qed.

(** ** [close_file] *)

Lemma same_session_refl s : same_session s s.
Proof. unfold same_session. tauto. Qed.

Lemma same_session_trans s1 s2 s3 :
  same_session s1 s2 -> same_session s2 s3 -> same_session s1 s3.
Proof. unfold same_session. intuition congruence. Qed.

Lemma erase_ahead_same s : same_session s (erase_ahead s).
Proof.
  unfold erase_ahead. case_decide; [|apply same_session_refl].
  unfold flash_erase_sector. destruct (W25Q64FV.erase_sector _ _).
  unfold same_session. simpl. tauto.
Qed.

Lemma close_pages_same (n : nat) :
  forall p pages s st s',
    close_pages n p pages s = Some (st, s') -> same_session s s'.
Proof.
  induction n as [|n IH]; intros p pages s st s'; simpl.
  - intros [= _ <-]. apply same_session_refl.
  - unfold flash_wait_until_free, flash_enable_writing, flash_write_page.
    destruct (W25Q64FV.wait_until_free (_flash s)) as [? d1]. simpl.
    destruct (W25Q64FV.enable_writing d1) as [? d2]. simpl.
    destruct (W25Q64FV.wait_until_free d2) as [? d3]. simpl.
    destruct (arr_slice _ _ _) as [page|]; [|discriminate]. simpl.
    destruct (W25Q64FV.write_page _ _ _) as [st4 d4]. simpl.
    destruct st4.
    + intros H. apply IH in H. revert H. unfold same_session. simpl. tauto.
    + intros [= _ <-]. unfold same_session. simpl. tauto.
Qed.

Lemma close_flush_same s st s' :
  close_flush s = Some (st, s') -> same_session s s'.
Proof.
  unfold close_flush. case_decide.
  - destruct (arr_fill _ _ _ _) as [buffer|]; [|discriminate]. simpl.
    intros Hp. apply close_pages_same in Hp.
    eapply same_session_trans; [|exact Hp].
    eapply same_session_trans; [|apply erase_ahead_same].
    unfold same_session. simpl. tauto.
  - intros [= _ <-]. apply same_session_refl.
Qed.

(** After a flush that did not fail, [close_file] stores the finalized
    table and resets the session. *)
Lemma close_file_after_flush (s s1 : FlashFAT) (f : FlashFAT_file_entry) :
  _mode s = FLASHFAT_WRITE_MODE ->
  close_flush s = Some (W25Q64FV_OK, s1) ->
  arr_get (_files (_table s)) (_file_index s) = Some f ->
  close_file s
  = '(_, s2) ← write_own_table (set_table (finalized s s1 f) s1);
    Some (FLASHFAT_OK, close_reset s2).
Proof.
  intros Hm Hflush Hf.
  destruct (close_flush_same _ _ _ Hflush) as (Ht & _ & Hw & Hfi & He).
  assert (close_entry s1 = Some (finalized s s1 f)) as Hentry.
  { unfold close_entry. rewrite Ht, Hfi, Hw, Hf. simpl.
    apply arr_get_lookup in Hf as [Hr _].
    rewrite arr_set_Some by lia. simpl. unfold finalized.
    rewrite u16_u32. unfold file_start, u8. rewrite Z.mod_mod by lia.
    replace (_current_index s1 / 256 - _start_page f)
      with ((_current_index s1 - _start_page f * 256) / 256) by zlia.
    reflexivity. }
  unfold close_file. rewrite Hm, Hflush. simpl. rewrite Hentry. reflexivity.
Qed.

(** When a [write_page] of the flush fails, [close_file] returns
    [FLASHFAT_FLASH_FAILURE] at once: the table is as it was and the
    session is still in write mode. *)
Lemma close_file_failed_flush (s s1 : FlashFAT) :
  _mode s = FLASHFAT_WRITE_MODE ->
  close_flush s = Some (W25Q64FV_FAILURE, s1) ->
  close_file s = Some (FLASHFAT_FLASH_FAILURE, s1)
  /\ _mode s1 = FLASHFAT_WRITE_MODE /\ _table s1 = _table s.
Proof.
  intros Hm Hflush.
  destruct (close_flush_same _ _ _ Hflush) as (Ht & Hm1 & _).
  unfold close_file. rewrite Hm, Hflush. simpl.
  split; [reflexivity|]. split; congruence.
Qed.

(** C9, as stated, fails, in three ways.  When the [write_page] of the
    last flush fails (here the fourth driver call), [close_file] returns
    [FLASHFAT_FLASH_FAILURE], the session stays in write mode, and the
    close marker still names the file.  When the flush succeeds but the
    erase and the program of the table store fail (the eighth and the
    twelfth driver call), [close_file] returns [FLASHFAT_OK] in no mode
    with the entry finalized in memory, but the table on the medium is
    the one [new_file] stored: length 0 and the close marker 0.  And
    [_end_index], set by an earlier read session, keeps its value
    through [close_file]. *)
Lemma close_file_departs_from_claim :
  ('(s : FlashFAT) ← writing [1; 2; 3];
   '(st, s') ← close_file
                 (set_script [W25Q64FV_OK; W25Q64FV_OK; W25Q64FV_OK;
                              W25Q64FV_FAILURE] s);
   Some (_mode s, st, _mode s', _file_close_err (_table s'),
         _write_buffer_index s'))
  = Some (FLASHFAT_WRITE_MODE, FLASHFAT_FLASH_FAILURE, FLASHFAT_WRITE_MODE, 0, 3)
  /\ ('(s : FlashFAT) ← writing [1; 2; 3];
      '(st, s') ← close_file
                    (set_script [W25Q64FV_OK; W25Q64FV_OK; W25Q64FV_OK;
                                 W25Q64FV_OK;
                                 W25Q64FV_OK; W25Q64FV_OK; W25Q64FV_OK;
                                 W25Q64FV_FAILURE;
                                 W25Q64FV_OK; W25Q64FV_OK; W25Q64FV_OK;
                                 W25Q64FV_FAILURE] s);
      '(_, stored, _) ← get_file_allocation_table (_table (fresh blank_flash))
                          (_flash s');
      Some (st, _mode s',
            _file_close_err (_table s'), take 1 (_files (_table s')),
            _file_close_err stored, take 1 (_files stored)))
     = Some (FLASHFAT_OK, FLASHFAT_NO_MODE,
             255, [{| _start_page := 16; _page_length := 0; _end_offset := 3 |}],
             0, [{| _start_page := 16; _page_length := 0; _end_offset := 0 |}])
  /\ ('(s : FlashFAT) ← reading [1; 2; 3];
      '(_, s) ← close_file s;
      '(_, s) ← new_file s;
      '(_, s) ← write [4] s;
      '(st, s') ← close_file s;
      Some (_end_index s, st, _mode s', _current_index s', _end_index s'))
     = Some (4099, FLASHFAT_OK, FLASHFAT_NO_MODE, 0, 4099)
  /\ FLASHFAT_WRITE_MODE <> FLASHFAT_NO_MODE /\ 4099 <> 0.
Proof.
  split; [vm_compute; reflexivity|]. split; [vm_compute; reflexivity|].
  split; [vm_compute; reflexivity|]. split; [discriminate | lia].
Qed.

(** C9, amended. In write mode, with at most 49 files, when the flush
    of the buffered bytes does not fail ([close_flush] ends with
    [W25Q64FV_OK], which leaves the cursor at [_current_index s1]),
    [close_file] returns [FLASHFAT_OK] in no mode, whatever the driver
    answers to the store of the table.  In memory the entry of the file
    has the page length floor((cursor - start byte address) / 256), kept
    in 16 bits, and the end offset (buffer index) mod 256, and
    [_file_close_err] is 255; mode, file index, buffer index, erase
    index and cursor are back to their initial values, and [_end_index]
    keeps its value.  Page 0 of the medium holds the record of that
    table afterwards when no driver call of the store fails. *)
Theorem close_file_finalizes (s s1 : FlashFAT) (f : FlashFAT_file_entry) :
  _mode s = FLASHFAT_WRITE_MODE ->
  0 <= _num_files (_table s) <= 49 ->
  _num_files (_table s) <= Z.of_nat (length (_files (_table s))) ->
  close_flush s = Some (W25Q64FV_OK, s1) ->
  arr_get (_files (_table s)) (_file_index s) = Some f ->
  let table' :=
    {| _num_files := _num_files (_table s);
       _file_close_err := FLASH_FAT_NO_ERROR_FILE;
       _files :=
         <[Z.to_nat (_file_index s) :=
             {| _start_page := _start_page f;
                _page_length := u16 ((_current_index s1 - file_start f) / 256);
                _end_offset := _write_buffer_index s mod 256 |}]>
           (_files (_table s)) |} in
  let closed d :=
    {| _flash := d; _table := table'; _mode := FLASHFAT_NO_MODE;
       _write_buffer := _write_buffer s1; _write_buffer_index := 0;
       _erase_index := 0; _current_index := 0;
       _end_index := _end_index s; _file_index := 0 |} in
  exists d buffer,
    close_file s = Some (FLASHFAT_OK, closed d)
    /\ table_record table' = Some buffer
    /\ (W25Q64FV.script (_flash s1) = [] ->
        forall a, 0 <= a < 256 ->
                  arr_get buffer a = Some (W25Q64FV.cells d a)).
Proof.
  intros Hm Hn Hlen Hflush Hf table' closed.
  destruct (close_flush_same _ _ _ Hflush) as (Ht & _ & Hw & Hfi & He).
  assert (forall d, close_reset (set_flash d (set_table table' s1)) = closed d)
    as Hreset.
  { intros d. unfold closed. rewrite <- He. reflexivity. }
  pose proof (close_file_after_flush s s1 f Hm Hflush Hf) as Hclose.
  change (finalized s s1 f) with table' in Hclose.
  destruct (table_record_fits table') as (buffer & Hr & Hl & Hu).
  { exact Hn. }
  { unfold table'. simpl. rewrite length_insert. exact Hlen. }
  destruct (write_file_allocation_table_returns table' (_flash s1) _ Hr)
    as [d Hd].
  exists d, buffer. split; [|split].
  - rewrite Hclose. unfold write_own_table. simpl. rewrite Hd. simpl.
    rewrite Hreset. reflexivity.
  - exact Hr.
  - intros Hs a Ha.
    destruct (write_file_allocation_table_stores table' (_flash s1) buffer
                Hr Hl Hu Hs) as (d' & Hd' & _ & Hcells & _).
    rewrite Hd in Hd'. injection Hd' as ->. apply Hcells. exact Ha.
Qed.

Lemma close_file_finalizes_witness :
  exists s',
    close_file writer_sample = Some (FLASHFAT_OK, s')
    /\ _mode s' = FLASHFAT_NO_MODE
    /\ _file_close_err (_table s') = 255
    /\ take 1 (_files (_table s'))
       = [{| _start_page := 16; _page_length := 0; _end_offset := 3 |}].
Proof.
  destruct (close_file_finalizes writer_sample
              (default writer_sample (snd <$> close_flush writer_sample))
              {| _start_page := 16; _page_length := 0; _end_offset := 0 |})
    as (d & buffer & Hc & _).
  - vm_compute. reflexivity.
  - vm_compute. split; congruence.
  - vm_compute. congruence.
  - vm_compute. reflexivity.
  - vm_compute. reflexivity.
  - eexists. split; [exact Hc|]. vm_compute. repeat split.
Defined.

(** ** [read] and [peek] *)

(** The loop of [read] ends within [len / 256 + 1] rounds when the
    bytes still wanted fit into the rest of the caller's buffer. *)
Lemma read_loop_fuel (fuel : nat) :
  forall size len read_buffer out s,
    len <= 0
    \/ (len / 256 + 1 <= Z.of_nat fuel
        /\ len < 2 ^ 32 /\ Z.of_nat (length out) + len <= size) ->
    is_Some (read_loop fuel size len read_buffer out s).
Proof.
  induction fuel as [|fuel IH]; intros size len read_buffer out s Hf; simpl.
  - rewrite decide_False by zlia. eauto.
  - case_decide; [|eauto].
    destruct (flash_read_page _ _ _) as [[status rb] s1].
    destruct status; [|eauto].
    case_decide.
    + rewrite decide_True by lia. apply IH.
      destruct (decide (u32 (len - 256) <= 0)) as [Hz|Hz]; [left; exact Hz|].
      right. rewrite length_app, length_take. unfold u32 in *.
      split; [zlia|]. split; zlia.
    + rewrite decide_True by lia. apply IH. left. lia.
Qed.

(** [read] returns whenever the cursor has not passed the end of the
    file: the clamped length is then at most the length asked for. *)
Lemma read_returns (length : Z) (s : FlashFAT) :
  0 <= _current_index s <= _end_index s -> _end_index s < 2 ^ 32 ->
  0 <= length -> _current_index s + length < 2 ^ 32 ->
  is_Some (read length s).
Proof.
  intros Hc He Hl Hfit.
  unfold read. destruct (_mode s); eauto.
  case_decide; [eauto|].
  set (len := if decide (u32 (_current_index s + length) > _end_index s)
              then u32 (_end_index s - _current_index s) else length).
  assert (0 <= len <= length /\ len < 2 ^ 32) as Hlen.
  { unfold len, u32. case_decide; zlia. }
  destruct (read_loop_fuel (Z.to_nat (len / 256 + 1)) length len
              (replicate 256 0) [] s) as [[[st out] s'] ->].
  - right. simpl. zlia.
  - simpl. destruct st; eauto.
Qed.

(** In read mode, on a medium that does not fail, a [read] whose clamped
    length [n] is at most one page delivers the [n] bytes at the cursor,
    returns [n] and moves the cursor, and so [peek], by [n]. *)
Lemma read_within_page (length : Z) (s : FlashFAT) :
  _mode s = FLASHFAT_READ_MODE ->
  W25Q64FV.script (_flash s) = [] ->
  0 <= _current_index s <= _end_index s ->
  0 <= length -> _current_index s + length < 2 ^ 32 -> _end_index s < 2 ^ 32 ->
  let n := Z.min length (_end_index s - _current_index s) in
  n <= 256 ->
  exists s',
    read length s
    = Some (n, (fun i => cell s (_current_index s + i)) <$> seqZ 0 n, s')
    /\ _current_index s' = _current_index s + n
    /\ _end_index s' = _end_index s
    /\ _mode s' = FLASHFAT_READ_MODE
    /\ _flash s' = _flash s
    /\ peek s' = peek s - n.
Proof.
  intros Hm Hs Hc Hlen Hfit Hend n Hn.
  assert (peek s = _end_index s - _current_index s) as Hpeek.
  { unfold peek. rewrite Hm. unfold u32. zlia. }
  unfold read. rewrite Hm. case_decide as Hp.
  { exists s. replace n with 0 by lia. rewrite Hm. simpl.
    repeat split; try reflexivity; lia. }
  set (len := if decide (u32 (_current_index s + length) > _end_index s)
              then u32 (_end_index s - _current_index s) else length).
  assert (len = n) as ->.
  { unfold len, n, u32. case_decide; zlia. }
  destruct (decide (n = 0)) as [Hn0|Hn0].
  { rewrite Hn0. simpl. exists s. rewrite Hm.
    repeat split; try reflexivity; lia. }
  pose proof (take_page (fun i => W25Q64FV.cells (_flash s) (_current_index s + i))
                n ltac:(lia)) as Htake.
  change ((fun i => W25Q64FV.cells (_flash s) (_current_index s + i)) <$> seqZ 0 n)
    with ((fun i => cell s (_current_index s + i)) <$> seqZ 0 n) in Htake.
  destruct (Z.to_nat (n / 256 + 1)) as [|fuel] eqn:Hfuel; [zlia|].
  cbn [read_loop]. rewrite decide_True by lia.
  unfold flash_read_page. rewrite (read_page_nil _ _ _ Hs).
  rewrite set_flash_same.
  remember ((fun i => W25Q64FV.cells (_flash s) (_current_index s + i))
              <$> seqZ 0 256) as page eqn:Hpage.
  clear Hpage.
  assert (u32 (_current_index s + n) = _current_index s + n) as Hcur
    by (unfold u32; zlia).
  assert (forall fuel' out,
            read_loop fuel' length 0 page out
              (set_current_index (u32 (_current_index s + n)) s)
            = Some (W25Q64FV_OK, out,
                    set_current_index (u32 (_current_index s + n)) s)) as Hdone.
  { intros fuel' out. destruct fuel'; reflexivity. }
  exists (set_current_index (u32 (_current_index s + n)) s).
  split.
  - case_decide.
    + assert (n = 256) as Hn256 by lia.
      rewrite decide_True by (simpl; lia).
      replace (u32 (n - 256)) with 0 by (rewrite Hn256; reflexivity).
      rewrite Hdone. simpl. rewrite <- Htake, Hn256. reflexivity.
    + rewrite decide_True by (simpl; lia).
      rewrite Hdone. simpl. rewrite <- Htake. reflexivity.
  - simpl. rewrite Hcur. unfold peek. simpl. rewrite Hm. unfold u32.
    repeat split; try reflexivity; zlia.
Qed.

(** A read of at most one page moves the cursor by what it returns. *)
Example read_200_then_rest :
  ('(s0 : FlashFAT) ← reading (ramp 300);
   '(n, out, s1) ← read 200 s0;
   '(m, out', s2) ← read 200 s1;
   '(k, _, _) ← read 200 s2;
   Some (peek s0, n, peek s1, m, peek s2, k, out ++ out'))
  = Some (300, 200, 100, 100, 0, 0, ramp 300).
Proof. vm_compute. reflexivity. Qed.

(** C2. In the read session on a file of 512 bytes, [peek] is 512 and
    [read(512)] returns 512, yet the cursor has moved by 768: [peek]
    afterwards is 2^32 - 256, not 0, so the file does not count as
    exhausted. *)
Theorem read_512_overshoots_cursor :
  ('(s0 : FlashFAT) ← reading (replicate 512 0);
   '(n, _, s1) ← read 512 s0;
   Some (peek s0, n, _current_index s1 - _current_index s0, peek s1))
  = Some (512, 512, 768, 4294967040).
Proof. vm_compute. reflexivity. Qed.

(** ** Calls in the wrong mode *)

Lemma write_wrong_mode buffer s :
  _mode s <> FLASHFAT_WRITE_MODE -> write buffer s = Some (FLASHFAT_WRONG_MODE, s).
Proof. unfold write. destruct (_mode s); congruence. Qed.

Lemma read_wrong_mode length s :
  _mode s <> FLASHFAT_READ_MODE ->
  read length s = Some (status_code FLASHFAT_WRONG_MODE, [], s).
Proof. unfold read. destruct (_mode s); congruence. Qed.

Lemma new_file_wrong_mode s :
  _mode s <> FLASHFAT_NO_MODE -> new_file s = Some (FLASHFAT_WRONG_MODE, s).
Proof. unfold new_file. destruct (_mode s); congruence. Qed.

Lemma open_file_wrong_mode fi s :
  _mode s <> FLASHFAT_NO_MODE -> open_file fi s = Some (FLASHFAT_WRONG_MODE, s).
Proof. unfold open_file. destruct (_mode s); congruence. Qed.

Lemma delete_last_file_wrong_mode s :
  _mode s <> FLASHFAT_NO_MODE ->
  delete_last_file s = Some (FLASHFAT_INVALID_FILE, s).
Proof. unfold delete_last_file. destruct (_mode s); congruence. Qed.

Lemma delete_all_files_wrong_mode s :
  _mode s <> FLASHFAT_NO_MODE ->
  delete_all_files s = Some (FLASHFAT_INVALID_FILE, s).
Proof. unfold delete_all_files. destruct (_mode s); congruence. Qed.

(** C5. [delete_last_file] and [delete_all_files], called during a write
    session, leave the object as it is but return
    [FLASHFAT_INVALID_FILE], not [FLASHFAT_WRONG_MODE]. *)
Theorem delete_in_wrong_mode_returns_invalid_file :
  let s := set_mode FLASHFAT_WRITE_MODE (fresh blank_flash) in
  delete_last_file s = Some (FLASHFAT_INVALID_FILE, s)
  /\ delete_all_files s = Some (FLASHFAT_INVALID_FILE, s)
  /\ FLASHFAT_INVALID_FILE <> FLASHFAT_WRONG_MODE.
Proof. repeat split; discriminate. Qed.

(** ** Round trips *)

Example round_trip_0 : rt_out [] = Some (0, []).
Proof. vm_compute. reflexivity. Qed.

Example round_trip_1 : rt_out [42] = Some (1, [42]).
Proof. vm_compute. reflexivity. Qed.

Example round_trip_256 : rt_out (ramp 256) = Some (256, ramp 256).
Proof. vm_compute. reflexivity. Qed.

(** The same with 257 bytes: the last byte comes from one address too
    far. *)
Example round_trip_257 :
  rt_out (replicate 257 0) = Some (257, replicate 256 0 ++ [255]).
Proof. vm_compute. reflexivity. Qed.

(** C1. A file of 512 zero bytes (the capacity of the write buffer),
    written with [new_file], [write] and [close_file] on a blank medium
    and read back in full with [open_file] and [read]: [read] returns
    512, but the second half of what it delivers is the erased page
    after the file, not the bytes written. *)
Theorem round_trip_512_loses_second_page :
  rt_out (replicate 512 0) = Some (512, replicate 256 0 ++ replicate 256 255)
  /\ replicate 256 0 ++ replicate 256 255 <> replicate 512 (0 : Z).
Proof. split; [vm_compute; reflexivity | vm_compute; discriminate]. Qed.

(** * Further properties *)

(** ** Loading the table *)

(** The loop of [get_file_allocation_table] writes the slots [i] ..
    [i + n - 1] of the array and no other. *)
Lemma get_entries_outside (n : nat) :
  forall (i index : Z) buffer files0 files',
    0 <= i ->
    get_entries n i index buffer files0 = Some files' ->
    length files' = length files0
    /\ (forall a, a < i \/ i + Z.of_nat n <= a ->
                  arr_get files' a = arr_get files0 a).
Proof.
  induction n as [|n IH]; intros i index buffer files0 files' Hi; simpl.
  - intros [= <-]. split; reflexivity.
  - intros Hg.
    apply bind_Some in Hg as (b0 & _ & Hg).
    apply bind_Some in Hg as (b1 & _ & Hg).
    apply bind_Some in Hg as (b2 & _ & Hg).
    apply bind_Some in Hg as (b3 & _ & Hg).
    apply bind_Some in Hg as (b4 & _ & Hg).
    apply bind_Some in Hg as (files1 & Hset & Hg).
    apply arr_set_spec in Hset as (L1 & _ & _ & N1).
    apply IH in Hg as [L O]; [|lia].
    split; [congruence|].
    intros a Ha. rewrite O, N1 by lia. reflexivity.
Qed.

(** X1. A table of at most 49 files whose fields are within their types,
    stored with [write_file_allocation_table] on a medium that does not
    fail and loaded with [get_file_allocation_table] into any table of
    254 slots: the load returns [FLASHFAT_OK], the file count, the close
    marker and the registered entries are the stored ones, and the slots
    from the file count on keep what the receiving table had. *)
Theorem stored_table_loads_back (table table0 : FlashFAT_file_allocation_table)
    (d : W25Q64FV.t) :
  0 <= _num_files table <= 49 ->
  _num_files table <= Z.of_nat (length (_files table)) ->
  _num_files table <= Z.of_nat (length (_files table0)) ->
  Forall entry_typed (_files table) ->
  is_u8 (_file_close_err table) ->
  W25Q64FV.script d = [] ->
  exists d1 table',
    write_file_allocation_table table d = Some (FLASHFAT_OK, d1)
    /\ get_file_allocation_table table0 d1 = Some (FLASHFAT_OK, table', d1)
    /\ _num_files table' = _num_files table
    /\ _file_close_err table' = _file_close_err table
    /\ (forall j, 0 <= j < _num_files table ->
                  arr_get (_files table') j = arr_get (_files table) j)
    /\ (forall j, _num_files table <= j ->
                  arr_get (_files table') j = arr_get (_files table0) j).
Proof.
  intros Hn Hlen Hlen0 Ht He Hs.
  destruct (table_round_trip table table0 d Hn Hlen Hlen0 Ht He Hs)
    as (d1 & table' & Hw & Hg & Hnum & Herr & _ & Hent & _ & _).
  exists d1, table'. repeat (split; [assumption|]).
  intros j Hj.
  unfold get_file_allocation_table in Hg.
  destruct (W25Q64FV.wait_until_free d1) as [st1 d2].
  destruct (W25Q64FV.read_page 0 _ d2) as [[st2 buffer] d3].
  destruct st2; [|discriminate].
  case_decide; [|discriminate].
  apply bind_Some in Hg as (num & _ & Hg).
  apply bind_Some in Hg as (err & _ & Hg).
  apply bind_Some in Hg as (files & Hge & Hg).
  injection Hg as <- _. simpl in *. subst num.
  apply get_entries_outside in Hge as [_ O]; [|lia].
  apply O. lia.
Qed.

Lemma stored_table_loads_back_witness :
  exists d1 table',
    write_file_allocation_table table_1000 blank_flash = Some (FLASHFAT_OK, d1)
    /\ get_file_allocation_table (table_of 3) d1 = Some (FLASHFAT_OK, table', d1)
    /\ _num_files table' = 1
    /\ arr_get (_files table') 0
       = Some {| _start_page := 16; _page_length := 3; _end_offset := 232 |}
    /\ arr_get (_files table') 1
       = Some {| _start_page := 32; _page_length := 0; _end_offset := 0 |}.
Proof.
  destruct (stored_table_loads_back table_1000 (table_of 3) blank_flash)
    as (d1 & table' & Hw & Hg & Hnum & _ & Hent & Hold).
  - vm_compute. split; congruence.
  - vm_compute. congruence.
  - vm_compute. congruence.
  - apply (bool_decide_unpack _). vm_compute. exact I.
  - vm_compute. split; congruence.
  - reflexivity.
  - exists d1, table'. split; [exact Hw|]. split; [exact Hg|].
    split; [exact Hnum|]. split.
    + rewrite (Hent 0); [reflexivity | vm_compute; split; congruence].
    + rewrite (Hold 1); [reflexivity | vm_compute; congruence].
Defined.

(** ** Opening a file *)

(** What [open_file] does once the table is loaded. *)
Lemma open_file_loaded (fi : Z) (s : FlashFAT) table d :
  _mode s = FLASHFAT_NO_MODE ->
  get_file_allocation_table (_table s) (_flash s) = Some (FLASHFAT_OK, table, d) ->
  (_num_files table <= fi ->
   open_file fi s = Some (FLASHFAT_INVALID_FILE, set_table table (set_flash d s)))
  /\ (forall f, fi < _num_files table ->
                arr_get (_files table) fi = Some f -> entry_typed f ->
                exists s',
                  open_file fi s = Some (FLASHFAT_OK, s')
                  /\ _mode s' = FLASHFAT_READ_MODE
                  /\ _flash s' = d /\ _table s' = table
                  /\ _file_index s' = fi
                  /\ _current_index s' = file_start f
                  /\ _end_index s' = file_end f
                  /\ peek s' = _page_length f * 256 + _end_offset f).
Proof.
  intros Hm Hg. unfold open_file. rewrite Hm, Hg. cbn [mbind option_bind].
  cbv iota. cbn [_table set_table].
  split.
  - intros Hfi. rewrite decide_True by exact Hfi. reflexivity.
  - intros f Hfi Hf (T1 & T2 & T3). rewrite decide_False by lia.
    cbn [_file_index set_file_index set_mode _table set_table]. rewrite Hf.
    cbn [mbind option_bind]. eexists. split; [reflexivity|].
    unfold peek. cbn. unfold file_start, file_end, is_u16, is_u8, u32 in *.
    repeat split; zlia.
Qed.

(** X2. Once a table of at most 49 files is stored on a medium that does
    not fail, [open_file] works from the medium, whatever table the
    object holds in memory: an index at or past the stored file count
    gives [FLASHFAT_INVALID_FILE] and leaves the object in no mode; an
    index below it gives [FLASHFAT_OK], read mode, the cursor at the
    first byte of that file, and [peek] equal to the byte length the
    stored entry records. *)
Theorem open_file_reads_stored_table (table : FlashFAT_file_allocation_table)
    (d d1 : W25Q64FV.t) (s : FlashFAT) (fi : Z) :
  0 <= _num_files table <= 49 ->
  _num_files table <= Z.of_nat (length (_files table)) ->
  Forall entry_typed (_files table) ->
  is_u8 (_file_close_err table) ->
  W25Q64FV.script d = [] ->
  write_file_allocation_table table d = Some (FLASHFAT_OK, d1) ->
  _flash s = d1 -> _mode s = FLASHFAT_NO_MODE ->
  _num_files table <= Z.of_nat (length (_files (_table s))) ->
  0 <= fi ->
  (_num_files table <= fi ->
   exists s', open_file fi s = Some (FLASHFAT_INVALID_FILE, s')
              /\ _mode s' = FLASHFAT_NO_MODE)
  /\ (forall f, fi < _num_files table -> arr_get (_files table) fi = Some f ->
                exists s', open_file fi s = Some (FLASHFAT_OK, s')
                           /\ _mode s' = FLASHFAT_READ_MODE
                           /\ _current_index s' = file_start f
                           /\ peek s' = _page_length f * 256 + _end_offset f).
Proof.
  intros Hn Hlen Ht He Hs Hw Hfl Hm Hlen0 Hfi.
  destruct (table_round_trip table (_table s) d Hn Hlen Hlen0 Ht He Hs)
    as (d1' & table' & Hw' & Hg & Hnum & _ & _ & Hent & _ & _).
  rewrite Hw in Hw'. injection Hw' as <-. rewrite <- Hfl in Hg.
  destruct (open_file_loaded fi s table' (_flash s) Hm Hg) as [Hbad Hgood].
  split.
  - intros Hge. eexists. split; [apply Hbad; lia|]. exact Hm.
  - intros f Hlt Hf.
    destruct (Hgood f) as (s' & Ho & Hm' & _ & _ & _ & Hc & _ & Hp).
    + lia.
    + rewrite Hent by lia. exact Hf.
    + apply arr_get_lookup in Hf as [_ Hf]. eapply Forall_lookup_1; eauto.
    + exists s'. auto.
Qed.

Lemma open_file_reads_stored_table_witness :
  (exists s', open_file 0 (set_flash stored_1000 (fresh blank_flash))
              = Some (FLASHFAT_OK, s')
              /\ _mode s' = FLASHFAT_READ_MODE
              /\ _current_index s' = 4096 /\ peek s' = 1000)
  /\ (exists s', open_file 1 (set_flash stored_1000 (fresh blank_flash))
                 = Some (FLASHFAT_INVALID_FILE, s')
                 /\ _mode s' = FLASHFAT_NO_MODE).
Proof.
  assert (forall fi, 0 <= fi -> _) as H
    by (intros fi Hfi;
        exact (open_file_reads_stored_table table_1000 blank_flash stored_1000
                 (set_flash stored_1000 (fresh blank_flash)) fi
                 ltac:(vm_compute; split; congruence)
                 ltac:(vm_compute; congruence)
                 ltac:(apply (bool_decide_unpack _); vm_compute; exact I)
                 ltac:(vm_compute; split; congruence)
                 eq_refl
                 ltac:(vm_compute; reflexivity)
                 eq_refl eq_refl
                 ltac:(vm_compute; congruence)
                 Hfi)).
  split.
  - destruct (proj2 (H 0 ltac:(lia))
                {| _start_page := 16; _page_length := 3; _end_offset := 232 |})
      as (s' & Ho & Hm & Hc & Hp).
    + vm_compute. reflexivity.
    + reflexivity.
    + exists s'. repeat split; assumption.
  - apply (proj1 (H 1 ltac:(lia))). vm_compute. congruence.
Defined.

(** ** Deleting files *)

(** Storing the table of the object on a medium that does not fail, and
    what the next load finds. *)
Lemma write_own_table_quiet (s : FlashFAT) :
  0 <= _num_files (_table s) <= 49 ->
  _num_files (_table s) <= Z.of_nat (length (_files (_table s))) ->
  Forall entry_typed (_files (_table s)) ->
  is_u8 (_file_close_err (_table s)) ->
  W25Q64FV.script (_flash s) = [] ->
  exists d1,
    write_own_table s = Some (FLASHFAT_OK, set_flash d1 s)
    /\ W25Q64FV.script d1 = []
    /\ (forall a, 4096 <= a -> W25Q64FV.cells d1 a = cell s a)
    /\ (forall table0,
          _num_files (_table s) <= Z.of_nat (length (_files table0)) ->
          exists table',
            get_file_allocation_table table0 d1 = Some (FLASHFAT_OK, table', d1)
            /\ _num_files table' = _num_files (_table s)
            /\ _file_close_err table' = _file_close_err (_table s)
            /\ length (_files table') = length (_files table0)
            /\ (forall j, 0 <= j < _num_files (_table s) ->
                          arr_get (_files table') j = arr_get (_files (_table s)) j)).
Proof.
  intros Hn Hlen Ht He Hs.
  destruct (table_round_trip (_table s) (_table s) (_flash s) Hn Hlen Hlen Ht He Hs)
    as (d1 & _ & Hw & _ & _ & _ & _ & _ & Hs1 & Hhigh).
  exists d1. split; [|split; [exact Hs1 | split; [exact Hhigh|]]].
  - unfold write_own_table. rewrite Hw. reflexivity.
  - intros table0 Hlen0.
    destruct (table_round_trip (_table s) table0 (_flash s) Hn Hlen Hlen0 Ht He Hs)
      as (d1' & table' & Hw' & Hg & Hnum & Herr & Hl & Hent & _ & _).
    rewrite Hw in Hw'. injection Hw' as <-.
    exists table'. auto.
Qed.

(** X3. In no mode, with at most 49 files and on a medium that does not
    fail, [delete_last_file] returns [FLASHFAT_OK], takes one off the
    file count (a count of 0 stays 0) and leaves the entries alone;
    afterwards [open_file] refuses every index from the new count on
    with [FLASHFAT_INVALID_FILE], and still opens every file below it
    with its recorded start and length. *)
Theorem delete_last_file_drops_last (s : FlashFAT) :
  _mode s = FLASHFAT_NO_MODE ->
  0 <= _num_files (_table s) <= 49 ->
  _num_files (_table s) <= Z.of_nat (length (_files (_table s))) ->
  Forall entry_typed (_files (_table s)) ->
  is_u8 (_file_close_err (_table s)) ->
  W25Q64FV.script (_flash s) = [] ->
  exists s1,
    delete_last_file s = Some (FLASHFAT_OK, s1)
    /\ _num_files (_table s1) = Z.max 0 (_num_files (_table s) - 1)
    /\ _files (_table s1) = _files (_table s)
    /\ _mode s1 = FLASHFAT_NO_MODE
    /\ (forall fi, Z.max 0 (_num_files (_table s) - 1) <= fi ->
          exists s2, open_file fi s1 = Some (FLASHFAT_INVALID_FILE, s2)
                     /\ _mode s2 = FLASHFAT_NO_MODE)
    /\ (forall fi f, 0 <= fi < _num_files (_table s) - 1 ->
          arr_get (_files (_table s)) fi = Some f ->
          exists s2, open_file fi s1 = Some (FLASHFAT_OK, s2)
                     /\ _mode s2 = FLASHFAT_READ_MODE
                     /\ _current_index s2 = file_start f
                     /\ peek s2 = _page_length f * 256 + _end_offset f).
Proof.
  intros Hm Hn Hlen Ht He Hs.
  unfold delete_last_file. rewrite Hm.
  set (table1 := if decide (_num_files (_table s) > 0) then _ else _).
  assert (_num_files table1 = Z.max 0 (_num_files (_table s) - 1)
          /\ _files table1 = _files (_table s)
          /\ _file_close_err table1 = _file_close_err (_table s))
    as (Hnum1 & Hfiles1 & Herr1).
  { unfold table1. case_decide; simpl; unfold u8; repeat split; zlia. }
  clearbody table1.
  destruct (write_own_table_quiet (set_table table1 s))
    as (d1 & -> & Hs1 & _ & Hload); cbn [_table set_table _flash].
  - lia.
  - rewrite Hfiles1. lia.
  - rewrite Hfiles1. exact Ht.
  - rewrite Herr1. exact He.
  - exact Hs.
  - exists (set_flash d1 (set_table table1 s)).
    split; [reflexivity|]. split; [exact Hnum1|]. split; [exact Hfiles1|].
    split; [exact Hm|].
    destruct (Hload table1) as (table' & Hg & Hnum & _ & _ & Hent);
      [cbn [_table set_table]; rewrite Hfiles1; lia|].
    cbn [_table set_table] in Hnum, Hent.
    split.
    + intros fi Hfi.
      destruct (open_file_loaded fi (set_flash d1 (set_table table1 s))
                  table' d1 Hm Hg) as [Hbad _].
      eexists. split; [apply Hbad; lia|]. exact Hm.
    + intros fi f Hfi Hf.
      destruct (open_file_loaded fi (set_flash d1 (set_table table1 s))
                  table' d1 Hm Hg) as [_ Hgood].
      destruct (Hgood f) as (s2 & Ho & Hm2 & _ & _ & _ & Hc & _ & Hp).
      * lia.
      * rewrite Hent by lia. rewrite Hfiles1. exact Hf.
      * apply arr_get_lookup in Hf as [_ Hf]. eapply Forall_lookup_1; eauto.
      * exists s2. auto.
Qed.

Lemma delete_last_file_drops_last_witness :
  exists s1,
    delete_last_file two_files = Some (FLASHFAT_OK, s1)
    /\ _num_files (_table s1) = 1
    /\ (exists s2, open_file 1 s1 = Some (FLASHFAT_INVALID_FILE, s2))
    /\ (exists s2, open_file 0 s1 = Some (FLASHFAT_OK, s2) /\ peek s2 = 1000).
Proof.
  destruct (delete_last_file_drops_last two_files)
    as (s1 & Hd & Hnum & _ & _ & Hbad & Hgood).
  - reflexivity.
  - by_computation.
  - by_computation.
  - typed_by_computation.
  - by_computation.
  - reflexivity.
  - exists s1. split; [exact Hd|]. split; [exact Hnum|]. split.
    + destruct (Hbad 1) as (s2 & Ho & _); [by_computation|]. eauto.
    + destruct (Hgood 0 {| _start_page := 16; _page_length := 3;
                           _end_offset := 232 |})
        as (s2 & Ho & _ & _ & Hp); [by_computation | reflexivity |].
      exists s2. split; [exact Ho | exact Hp].
Defined.

(** X4. In no mode, whatever the number of files, on a medium that
    does not fail, [delete_all_files] returns [FLASHFAT_OK] with a file
    count of 0; afterwards [open_file] refuses every index with
    [FLASHFAT_INVALID_FILE], and the next [new_file] starts again at
    address 4096, as file 0. *)
Theorem delete_all_files_starts_over (s : FlashFAT) :
  _mode s = FLASHFAT_NO_MODE ->
  length (_files (_table s)) = 254%nat ->
  Forall entry_typed (_files (_table s)) ->
  is_u8 (_file_close_err (_table s)) ->
  W25Q64FV.script (_flash s) = [] ->
  exists s1,
    delete_all_files s = Some (FLASHFAT_OK, s1)
    /\ _num_files (_table s1) = 0
    /\ _mode s1 = FLASHFAT_NO_MODE
    /\ (forall fi, 0 <= fi ->
          exists s2, open_file fi s1 = Some (FLASHFAT_INVALID_FILE, s2)
                     /\ _mode s2 = FLASHFAT_NO_MODE)
    /\ (exists s2, new_file s1 = Some (FLASHFAT_OK, s2)
                   /\ _mode s2 = FLASHFAT_WRITE_MODE
                   /\ _current_index s2 = 4096
                   /\ _file_index s2 = 0
                   /\ _num_files (_table s2) = 1).
Proof.
  intros Hm Hlen Ht He Hs.
  unfold delete_all_files. rewrite Hm.
  set (table1 := {| _num_files := 0;
                    _file_close_err := _file_close_err (_table s);
                    _files := _files (_table s) |}).
  destruct (write_own_table_quiet (set_table table1 s))
    as (d1 & -> & Hs1 & _ & Hload); cbn [_table set_table _flash table1
                                          _num_files _files _file_close_err].
  - lia.
  - lia.
  - exact Ht.
  - exact He.
  - exact Hs.
  - set (s1 := set_flash d1 (set_table table1 s)).
    exists s1. split; [reflexivity|]. split; [reflexivity|]. split; [exact Hm|].
    split.
    + intros fi Hfi.
      destruct (Hload table1) as (table' & Hg & Hnum & _); [simpl; lia|].
      destruct (open_file_loaded fi s1 table' d1 Hm Hg) as [Hbad _].
      eexists. split; [apply Hbad; simpl in Hnum; lia|]. exact Hm.
    + destruct (new_file_quiet s1 Hm) as (f0 & d0 & d2 & _ & Hnew & Hnext & _);
        [simpl; lia | exact Hlen | exact Ht | exact Hs1 |].
      eexists. split; [exact Hnew|].
      split; [reflexivity|]. split; [|split; reflexivity].
      change (next_start_address (files_end (_table s1)) = 4096).
      rewrite Hnext. reflexivity.
Qed.

Lemma delete_all_files_starts_over_witness :
  exists s1,
    delete_all_files two_files = Some (FLASHFAT_OK, s1)
    /\ (exists s2, open_file 0 s1 = Some (FLASHFAT_INVALID_FILE, s2))
    /\ (exists s2, new_file s1 = Some (FLASHFAT_OK, s2)
                   /\ _current_index s2 = 4096).
Proof.
  destruct (delete_all_files_starts_over two_files)
    as (s1 & Hd & _ & _ & Hbad & s2 & Hnew & _ & Hc & _).
  - reflexivity.
  - reflexivity.
  - typed_by_computation.
  - by_computation.
  - reflexivity.
  - exists s1. split; [exact Hd|]. split.
    + destruct (Hbad 0) as (s3 & Ho & _); [lia|]. eauto.
    + eauto.
Defined.

(** ** Starting up *)

(** X5. On a medium that does not fail and whose page 0 does not start
    with the marker, [begin] returns [FLASHFAT_OK] with a file count of
    0; it leaves the entries in memory, the mode and every byte from
    address 4096 on alone, and a later load finds the table there (the
    marker, 0 files). *)
Theorem begin_creates_table (_cs : Z) (s : FlashFAT) :
  W25Q64FV.script (_flash s) = [] ->
  take 8 (page_0 (_flash s)) <> prefix ->
  Forall entry_typed (_files (_table s)) ->
  is_u8 (_file_close_err (_table s)) ->
  exists s1,
    begin _cs s = Some (FLASHFAT_OK, s1)
    /\ _num_files (_table s1) = 0
    /\ _files (_table s1) = _files (_table s)
    /\ _mode s1 = _mode s
    /\ (forall a, 4096 <= a -> cell s1 a = cell s a)
    /\ (forall table0, exists table',
          get_file_allocation_table table0 (_flash s1)
          = Some (FLASHFAT_OK, table', _flash s1)
          /\ _num_files table' = 0).
Proof.
  intros Hs Hp Ht He.
  unfold begin, W25Q64FV.begin. rewrite (answer_script_nil _ Hs).
  assert (get_file_allocation_table (_table s) (_flash s)
          = Some (FLASHFAT_FILE_ALLOCATION_TABLE_NOT_FOUND, _table s, _flash s))
    as Hg.
  { unfold get_file_allocation_table, W25Q64FV.wait_until_free.
    rewrite (answer_script_nil _ Hs). rewrite (read_page_nil _ _ _ Hs).
    change ((fun i => W25Q64FV.cells (_flash s) (0 + i)) <$> seqZ 0 256)
      with (page_0 (_flash s)).
    rewrite decide_False by exact Hp. reflexivity. }
  cbn [_flash _table set_flash]. rewrite Hg. cbn [mbind option_bind].
  unfold create_file_allocation_table.
  set (s0 := set_table _ (set_table (_table s) (set_flash (_flash s) _))).
  destruct (write_own_table_quiet s0) as (d1 & -> & Hs1 & Hhigh & Hload).
  - simpl. lia.
  - simpl. lia.
  - exact Ht.
  - exact He.
  - exact Hs.
  - cbn [mbind option_bind]. eexists. split; [reflexivity|].
    split; [reflexivity|]. split; [reflexivity|]. split; [reflexivity|].
    split; [exact Hhigh|].
    intros table0. destruct (Hload table0) as (table' & Hg' & Hnum & _).
    + simpl. lia.
    + exists table'. split; [exact Hg' | exact Hnum].
Qed.

Lemma begin_creates_table_witness :
  exists s1,
    begin 10 (fresh blank_flash) = Some (FLASHFAT_OK, s1)
    /\ _num_files (_table s1) = 0
    /\ exists table',
         get_file_allocation_table table_two (_flash s1)
         = Some (FLASHFAT_OK, table', _flash s1)
         /\ _num_files table' = 0.
Proof.
  destruct (begin_creates_table 10 (fresh blank_flash))
    as (s1 & Hb & Hnum & _ & _ & _ & Hload).
  - reflexivity.
  - vm_compute. discriminate.
  - typed_by_computation.
  - by_computation.
  - exists s1. split; [exact Hb|]. split; [exact Hnum|]. apply Hload.
Defined.

(** X6. In no mode, with fewer than 49 files, room below 2^24 and a
    medium that does not fail, [new_file] returns [FLASHFAT_OK] in write
    mode, and the medium already tells of the unfinished file: a load
    finds one file more, the close marker equal to the index of the new
    file, and the entry of that file with the start page of the cursor. *)
Theorem new_file_flags_open_file (s : FlashFAT) :
  _mode s = FLASHFAT_NO_MODE ->
  0 <= _num_files (_table s) < 49 ->
  length (_files (_table s)) = 254%nat ->
  Forall entry_typed (_files (_table s)) ->
  files_end (_table s) < 2 ^ 24 - 4096 ->
  W25Q64FV.script (_flash s) = [] ->
  exists s1,
    new_file s = Some (FLASHFAT_OK, s1)
    /\ _mode s1 = FLASHFAT_WRITE_MODE
    /\ _file_index s1 = _num_files (_table s)
    /\ (forall table0, length (_files table0) = 254%nat ->
          exists table' f,
            get_file_allocation_table table0 (_flash s1)
            = Some (FLASHFAT_OK, table', _flash s1)
            /\ _num_files table' = _num_files (_table s) + 1
            /\ _file_close_err table' = _num_files (_table s)
            /\ arr_get (_files table') (_num_files (_table s)) = Some f
            /\ file_start f = _current_index s1).
Proof.
  intros Hm Hn Hl Ht Hfit Hs.
  destruct (new_file_allocates s Hm ltac:(unfold FLASH_FAT_MAX_FILE_COUNT; lia)
              Hl Ht) as (f0 & Hf0 & Hnew & Hnext & Hend).
  rewrite Hnext in Hnew.
  unfold W25Q64FV.wait_until_free, W25Q64FV.erase_sector in Hnew.
  rewrite (answer_script_nil _ Hs) in Hnew. cbn [snd] in Hnew.
  rewrite (answer_script_nil _ Hs) in Hnew. cbn [snd] in Hnew.
  rewrite Hs in Hnew.
  set (d0 := {| W25Q64FV.cells := _; W25Q64FV.script := [] |}) in Hnew.
  set (s0 := allocated s f0 d0) in *.
  apply arr_get_lookup in Hf0 as [_ Hf0].
  pose proof (Forall_lookup_1 _ _ _ _ Ht Hf0) as (_ & T2 & T3).
  assert (_current_index s0 = (files_end (_table s) / 4096 + 1) * 4096) as Hcur
    by exact Hnext.
  destruct (write_own_table_quiet s0) as (d1 & Hw & _ & _ & Hload).
  - simpl. lia.
  - simpl. rewrite length_insert. lia.
  - simpl. apply Forall_insert; [exact Ht|].
    split; [apply u16_is_u16 | split; assumption].
  - simpl. apply u8_is_u8.
  - reflexivity.
  - rewrite Hw in Hnew. exists (set_flash d1 s0).
    split; [exact Hnew|]. split; [reflexivity|]. split; [reflexivity|].
    intros table0 Hl0.
    destruct (Hload table0) as (table' & Hg & Hnum & Herr & _ & Hent).
    { simpl. lia. }
    simpl in Hnum, Herr, Hent.
    eexists table', _. split; [exact Hg|]. split; [exact Hnum|]. split.
    { rewrite Herr. unfold u8. zlia. }
    split.
    { rewrite Hent by lia. unfold arr_get. rewrite decide_True by lia.
      apply list_lookup_insert_eq. lia. }
    change (_current_index (set_flash d1 s0)) with (_current_index s0).
    rewrite Hcur. unfold file_start. cbn [_start_page]. rewrite Hnext.
    rewrite Z.shiftr_div_pow2 by lia. unfold u16. change (2 ^ 8) with 256.
    zlia.
Qed.

Lemma new_file_flags_open_file_witness :
  exists s1 table' f,
    new_file two_files = Some (FLASHFAT_OK, s1)
    /\ get_file_allocation_table (table_of 0) (_flash s1)
       = Some (FLASHFAT_OK, table', _flash s1)
    /\ _num_files table' = 3
    /\ _file_close_err table' = 2
    /\ arr_get (_files table') 2 = Some f
    /\ file_start f = _current_index s1.
Proof.
  destruct (new_file_flags_open_file two_files)
    as (s1 & Hnew & _ & _ & Hload).
  - reflexivity.
  - by_computation.
  - reflexivity.
  - typed_by_computation.
  - by_computation.
  - reflexivity.
  - destruct (Hload (table_of 0)) as (table' & f & Hg & Hn & He & Hf & Hst).
    + vm_compute. reflexivity.
    + exists s1, table', f. repeat (split; [assumption|]). assumption.
Defined.

(** ** What reading leaves alone *)

Lemma read_loop_keeps (fuel : nat) :
  forall size len read_buffer out s st out' s',
    read_loop fuel size len read_buffer out s = Some (st, out', s') ->
    W25Q64FV.cells (_flash s') = W25Q64FV.cells (_flash s)
    /\ _table s' = _table s /\ _mode s' = _mode s
    /\ _end_index s' = _end_index s /\ _file_index s' = _file_index s.
Proof.
  induction fuel as [|fuel IH]; intros size len rb out s st out' s'; simpl.
  - case_decide; [discriminate|]. intros [= _ _ <-]. auto.
  - case_decide; [|intros [= _ _ <-]; auto].
    unfold flash_read_page, W25Q64FV.read_page.
    pose proof (answer_cells (_flash s)) as Hc.
    destruct (W25Q64FV.answer (_flash s)) as [st1 d1]. simpl in Hc.
    destruct st1; simpl.
    + case_decide; (case_decide; [|discriminate]); intros Hr; apply IH in Hr;
        simpl in Hr; destruct Hr as (K1 & K2 & K3 & K4 & K5);
        rewrite K1, K2, K3, K4, K5; auto.
    + intros [= _ _ <-]. simpl. auto.
Qed.

(** X7. [read] is read-only apart from the cursor.  Whatever the
    requested length and the answers of the driver, a [read] that
    returns has changed neither a byte of the medium nor the table, the
    mode, the end of the file or the file index: the cursor is all it
    moves.  And a [read] does return while the cursor has not passed the
    end of the file: the bytes it copies then fit the [length] bytes of
    the caller's buffer. *)
Theorem read_only_moves_cursor (length : Z) (s : FlashFAT) :
  (forall n out s',
      read length s = Some (n, out, s') ->
      W25Q64FV.cells (_flash s') = W25Q64FV.cells (_flash s)
      /\ _table s' = _table s /\ _mode s' = _mode s
      /\ _end_index s' = _end_index s /\ _file_index s' = _file_index s)
  /\ (0 <= _current_index s <= _end_index s -> _end_index s < 2 ^ 32 ->
      0 <= length -> _current_index s + length < 2 ^ 32 ->
      exists n out s', read length s = Some (n, out, s')).
Proof.
  split.
  - intros n out s' Hr.
    unfold read in Hr. destruct (_mode s) eqn:Hm.
    + injection Hr as _ _ <-. auto.
    + case_decide.
      * injection Hr as _ _ <-. auto.
      * apply bind_Some in Hr as ([[st out1] s1] & Hl & Hr).
        apply read_loop_keeps in Hl.
        rewrite Hm in Hl. destruct st; injection Hr as _ _ <-; exact Hl.
    + injection Hr as _ _ <-. auto.
  - intros Hc He Hl Hfit.
    destruct (read_returns length s Hc He Hl Hfit) as [[[n out] s'] Hr].
    eauto.
Qed.

Lemma read_only_moves_cursor_witness :
  exists n out s',
    read 100 reader_sample = Some (n, out, s')
    /\ _table s' = _table reader_sample
    /\ _end_index s' = _end_index reader_sample.
Proof.
  destruct (read_only_moves_cursor 100 reader_sample) as [Hkeep Hret].
  destruct Hret as (n & out & s' & Hr).
  - by_computation.
  - by_computation.
  - by_computation.
  - by_computation.
  - exists n, out, s'. split; [exact Hr|].
    destruct (Hkeep n out s' Hr) as (_ & Ht & _ & He & _).
    split; [exact Ht | exact He].
Defined.

(** Loading the table does not change a byte of the medium, and a load
    that does not return [FLASHFAT_OK] leaves the table alone. *)
Lemma get_file_allocation_table_keeps table d st table' d' :
  get_file_allocation_table table d = Some (st, table', d') ->
  W25Q64FV.cells d' = W25Q64FV.cells d
  /\ (st <> FLASHFAT_OK -> table' = table).
Proof.
  unfold get_file_allocation_table, W25Q64FV.wait_until_free, W25Q64FV.read_page.
  pose proof (answer_cells d) as Hc1.
  destruct (W25Q64FV.answer d) as [st1 d1]; simpl in Hc1.
  pose proof (answer_cells d1) as Hc2.
  destruct (W25Q64FV.answer d1) as [st2 d2]; simpl in Hc2.
  destruct st2.
  - case_decide.
    + intros Hr. apply bind_Some in Hr as (? & _ & Hr).
      apply bind_Some in Hr as (? & _ & Hr).
      apply bind_Some in Hr as (? & _ & Hr).
      injection Hr as <- _ <-. split; [congruence | congruence].
    + intros [= <- <- <-]. split; [congruence | reflexivity].
  - intros [= <- <- <-]. split; [congruence | reflexivity].
Qed.

(** X8. Whatever the driver answers, an [open_file] that returns does
    not change a byte of the medium; when it returns [FLASHFAT_OK] the
    object was in no mode and is now in read mode on the file asked for,
    and when it returns anything else the mode is the one it was. *)
Theorem open_file_outcome (fi : Z) (s : FlashFAT) st s' :
  open_file fi s = Some (st, s') ->
  W25Q64FV.cells (_flash s') = W25Q64FV.cells (_flash s)
  /\ (st = FLASHFAT_OK ->
      _mode s = FLASHFAT_NO_MODE /\ _mode s' = FLASHFAT_READ_MODE
      /\ _file_index s' = fi /\ fi < _num_files (_table s'))
  /\ (st <> FLASHFAT_OK -> _mode s' = _mode s).
Proof.
  unfold open_file. destruct (_mode s) eqn:Hm;
    try (intros [= <- <-]; rewrite Hm; repeat split; congruence).
  intros Ho. apply bind_Some in Ho as ([[st0 table] d] & Hg & Ho).
  apply get_file_allocation_table_keeps in Hg as [Hc _].
  cbn [_table set_table set_flash] in Ho.
  destruct st0; try (injection Ho as <- <-; simpl; rewrite Hm;
                     repeat split; congruence).
  case_decide.
  - injection Ho as <- <-. simpl. rewrite Hm. repeat split; congruence.
  - apply bind_Some in Ho as (f & _ & Ho). injection Ho as <- <-. simpl.
    repeat split; try congruence. lia.
Qed.

Lemma open_file_outcome_witness :
  W25Q64FV.cells (_flash (default two_files (snd <$> open_file 1 two_files)))
  = W25Q64FV.cells (_flash two_files)
  /\ _mode (default two_files
              (snd <$> open_file 1 (set_script [W25Q64FV_OK; W25Q64FV_FAILURE]
                                      two_files)))
     = FLASHFAT_NO_MODE.
Proof.
  assert (open_file 1 two_files
          = Some (FLASHFAT_FILE_ALLOCATION_TABLE_NOT_FOUND,
                  default two_files (snd <$> open_file 1 two_files))) as H1
    by (vm_compute; reflexivity).
  assert (open_file 1 (set_script [W25Q64FV_OK; W25Q64FV_FAILURE] two_files)
          = Some (FLASHFAT_FLASH_FAILURE,
                  default two_files
                    (snd <$> open_file 1
                       (set_script [W25Q64FV_OK; W25Q64FV_FAILURE] two_files))))
    as H2 by (vm_compute; reflexivity).
  split.
  - exact (proj1 (open_file_outcome _ _ _ _ H1)).
  - apply (proj2 (proj2 (open_file_outcome _ _ _ _ H2))). discriminate.
Defined.

(** ** Writing in pieces *)

Lemma write_bytes_app (a b : list Z) :
  forall s, write_bytes (a ++ b) s = write_bytes a s ≫= write_bytes b.
Proof.
  induction a as [|x a IH]; intros s.
  - reflexivity.
  - cbn [app write_bytes].
    destruct (arr_set _ _ _) as [wb|]; [|reflexivity]. cbn [mbind option_bind].
    match goal with
    | |- (?m ≫= _) = _ => destruct m as [s1|]
    end; [|reflexivity].
    cbn [mbind option_bind]. apply IH.
Qed.

(** X9. Writing a buffer in one call or in two calls, cut anywhere, is
    the same: the status, the object and the medium agree, whatever the
    mode and the answers of the driver. *)
Theorem write_in_two_calls (a b : list Z) (s : FlashFAT) :
  write (a ++ b) s = then_ (write a s) (write b).
Proof.
  unfold write, then_. destruct (_mode s) eqn:Hm.
  - rewrite write_bytes_app.
    destruct (write_bytes a s) as [s1|] eqn:Ha; [|reflexivity].
    cbn [mbind option_bind]. apply write_bytes_mode in Ha.
    rewrite Ha, Hm. reflexivity.
  - cbn [mbind option_bind]. rewrite Hm. reflexivity.
  - cbn [mbind option_bind]. rewrite Hm. reflexivity.
Qed.

(** X10. In write mode, bytes that leave the write buffer short of its
    512 bytes are only buffered: [write] returns [FLASHFAT_OK] without a
    single driver call, so the medium, the cursor and the table are as
    they were, and the bytes sit in the buffer in order, behind what it
    held. *)
Theorem write_only_buffers (data : list Z) (s : FlashFAT) :
  _mode s = FLASHFAT_WRITE_MODE ->
  0 <= _write_buffer_index s ->
  _write_buffer_index s + Z.of_nat (length data) < FLASH_FAT_FILE_BUFFER ->
  length (_write_buffer s) = 512%nat ->
  exists s',
    write data s = Some (FLASHFAT_OK, s')
    /\ _flash s' = _flash s /\ _table s' = _table s
    /\ _mode s' = FLASHFAT_WRITE_MODE
    /\ _current_index s' = _current_index s
    /\ _erase_index s' = _erase_index s
    /\ _write_buffer_index s' = _write_buffer_index s + Z.of_nat (length data)
    /\ (forall a, 0 <= a < _write_buffer_index s ->
                  arr_get (_write_buffer s') a = arr_get (_write_buffer s) a)
    /\ (forall k, 0 <= k < Z.of_nat (length data) ->
                  arr_get (_write_buffer s') (_write_buffer_index s + k)
                  = data !! Z.to_nat k).
Proof.
  intros Hm Hi Hfit Hl.
  destruct (write_bytes_buffered data s Hi Hfit Hl) as (wb & Hw & _ & Hlow & Hdata).
  unfold write. rewrite Hm, Hw. cbn [mbind option_bind].
  eexists. split; [reflexivity|]. cbn.
  repeat (split; [first [reflexivity | exact Hm]|]).
  split; [intros a Ha; apply Hlow; lia | exact Hdata].
Qed.

Lemma write_only_buffers_witness :
  exists s',
    write [7; 8] writer_sample = Some (FLASHFAT_OK, s')
    /\ _flash s' = _flash writer_sample
    /\ _write_buffer_index s' = 5
    /\ arr_get (_write_buffer s') 0 = Some 1
    /\ arr_get (_write_buffer s') 4 = Some 8.
Proof.
  destruct (write_only_buffers [7; 8] writer_sample)
    as (s' & Hw & Hf & _ & _ & _ & _ & Hi & Hlow & Hdata).
  - by_computation.
  - by_computation.
  - by_computation.
  - by_computation.
  - exists s'. split; [exact Hw|]. split; [exact Hf|]. split; [exact Hi|]. split.
    + rewrite (Hlow 0) by by_computation. by_computation.
    + exact (Hdata 1 ltac:(by_computation)).
Defined.

(** ** What a read delivers *)




(** ** The write path on a medium whose driver calls succeed *)

Lemma flash_wait_until_free_quiet (s : FlashFAT) :
  W25Q64FV.script (_flash s) = [] ->
  flash_wait_until_free s = (W25Q64FV_OK, s).
Proof.
  intros Hs. unfold flash_wait_until_free, W25Q64FV.wait_until_free.
  rewrite (answer_script_nil _ Hs), set_flash_same. reflexivity.
Qed.

Lemma flash_enable_writing_quiet (s : FlashFAT) :
  W25Q64FV.script (_flash s) = [] ->
  exists d,
    flash_enable_writing s = (W25Q64FV_OK, set_flash d s)
    /\ W25Q64FV.script d = []
    /\ W25Q64FV.write_enabled d = true
    /\ W25Q64FV.cells d = W25Q64FV.cells (_flash s).
Proof.
  intros Hs. unfold flash_enable_writing.
  destruct (enable_writing_nil (_flash s) Hs) as (d & -> & Hd).
  exists d. split; [reflexivity | exact Hd].
Qed.

Lemma flash_write_page_quiet (address : Z) (page : list Z) (s : FlashFAT) :
  W25Q64FV.script (_flash s) = [] ->
  W25Q64FV.write_enabled (_flash s) = true ->
  exists d,
    flash_write_page address page s = (W25Q64FV_OK, set_flash d s)
    /\ W25Q64FV.script d = []
    /\ (forall a, a / 256 = address / 256 ->
                  W25Q64FV.cells d a
                  = Z.land (cell s a)
                      (default 255 (arr_get page ((a - address) mod 256))))
    /\ (forall a, a / 256 <> address / 256 -> W25Q64FV.cells d a = cell s a).
Proof.
  intros Hs He. unfold flash_write_page.
  destruct (write_page_nil address page (_flash s) Hs He)
    as (d & -> & Hd & _ & Hin & Hout).
  exists d. split; [reflexivity|]. split; [exact Hd|].
  split; [exact Hin | exact Hout].
Qed.

Lemma flash_erase_sector_quiet (address : Z) (s : FlashFAT) :
  W25Q64FV.script (_flash s) = [] ->
  exists d,
    flash_erase_sector address s = (W25Q64FV_OK, set_flash d s)
    /\ W25Q64FV.script d = []
    /\ (forall a, a / 4096 <> address / 4096 -> W25Q64FV.cells d a = cell s a)
    /\ (forall a, W25Q64FV.cells d a = cell s a \/ W25Q64FV.cells d a = 255).
Proof.
  intros Hs. unfold flash_erase_sector.
  destruct (erase_sector_nil address (_flash s) Hs)
    as (d & -> & Hd & _ & Hout & Hany & _).
  exists d. split; [reflexivity|]. split; [exact Hd|].
  split; [exact Hout | exact Hany].
Qed.

(** The erase-ahead check on a medium whose driver calls succeed: the
    erase mark stays ahead of the next 512 bytes, the bytes below them
    are as they were, and every byte is as it was or erased.  The source
    issues this erase without [enable_writing]. *)
Lemma erase_ahead_quiet (s : FlashFAT) :
  W25Q64FV.script (_flash s) = [] ->
  0 <= _current_index s -> _current_index s mod 512 = 0 ->
  (_erase_index s + 1) mod 4096 = 0 ->
  _current_index s < _erase_index s + 1 <= _current_index s + 4096 ->
  _erase_index s + 4096 < 2 ^ 32 ->
  exists d E,
    erase_ahead s = set_erase_index E (set_flash d s)
    /\ W25Q64FV.script d = []
    /\ (E + 1) mod 4096 = 0
    /\ _current_index s + 512 < E + 1 <= _current_index s + 512 + 4096
    /\ E < 2 ^ 32
    /\ (forall a, a < _current_index s + 512 -> W25Q64FV.cells d a = cell s a)
    /\ (forall a, W25Q64FV.cells d a = cell s a \/ W25Q64FV.cells d a = 255).
Proof.
  intros Hs Hc Hal He Hce He32.
  unfold erase_ahead, FLASH_FAT_FILE_BUFFER.
  replace (u32 (_current_index s + 512)) with (_current_index s + 512)
    by (unfold u32; zlia).
  case_decide as Hgt.
  - assert (_current_index s + 512 = _erase_index s + 1) as Heq by zlia.
    replace (u32 (_erase_index s + 1)) with (_erase_index s + 1)
      by (unfold u32; zlia).
    destruct (flash_erase_sector_quiet (_erase_index s + 1) s Hs)
      as (d & -> & Hd & Hout & Hany).
    change (_erase_index (set_flash d s)) with (_erase_index s).
    replace (u32 (_erase_index s + 4096)) with (_erase_index s + 4096)
      by (unfold u32; zlia).
    exists d, (_erase_index s + 4096). split; [reflexivity|].
    split; [exact Hd|]. split; [zlia|]. split; [lia|]. split; [lia|].
    split; [|exact Hany].
    intros a Ha. apply Hout. zlia.
  - exists (_flash s), (_erase_index s). split.
    { destruct s. reflexivity. }
    split; [exact Hs|]. split; [exact He|]. split; [zlia|]. split; [lia|].
    split; [reflexivity | left; reflexivity].
Qed.

Lemma write_pages_S (n : nat) (p : Z) (s : FlashFAT) :
  write_pages (S n) p s
  = let '(_, s) := flash_wait_until_free s in
    let '(_, s) := flash_enable_writing s in
    let '(_, s) := flash_wait_until_free s in
    page ← arr_slice (_write_buffer s) (p * 256) 256;
    let '(_, s) := flash_write_page (_current_index s) page s in
    write_pages n (p + 1) (set_current_index (u32 (_current_index s + 256)) s).
Proof. reflexivity. Qed.

(** One page of the write buffer goes to the medium: busy-wait,
    write-enable, busy-wait, program at the cursor. *)
Lemma program_page_quiet (p : Z) (s : FlashFAT) :
  W25Q64FV.script (_flash s) = [] ->
  0 <= p -> (p + 1) * 256 <= Z.of_nat (length (_write_buffer s)) ->
  0 <= _current_index s -> _current_index s mod 256 = 0 ->
  exists d page,
    flash_wait_until_free s = (W25Q64FV_OK, s)
    /\ flash_enable_writing s = (W25Q64FV_OK, set_flash d s)
    /\ flash_wait_until_free (set_flash d s) = (W25Q64FV_OK, set_flash d s)
    /\ arr_slice (_write_buffer s) (p * 256) 256 = Some page
    /\ exists d',
         flash_write_page (_current_index s) page (set_flash d s)
         = (W25Q64FV_OK, set_flash d' s)
         /\ W25Q64FV.script d' = []
         /\ (forall i x, 0 <= i < 256 ->
               arr_get (_write_buffer s) (p * 256 + i) = Some x ->
               W25Q64FV.cells d' (_current_index s + i)
               = Z.land (cell s (_current_index s + i)) x)
         /\ (forall a, a < _current_index s \/ _current_index s + 256 <= a ->
                       W25Q64FV.cells d' a = cell s a).
Proof.
  intros Hs Hp Hfit Hc Hal.
  destruct (flash_enable_writing_quiet s Hs) as (d & Hen & Hd & Hlatch & Hcells).
  exists d, (take 256 (drop (Z.to_nat (p * 256)) (_write_buffer s))).
  split; [apply flash_wait_until_free_quiet; exact Hs|].
  split; [exact Hen|].
  split; [apply flash_wait_until_free_quiet; exact Hd|].
  split.
  { unfold arr_slice. rewrite decide_True by lia. reflexivity. }
  set (page := take 256 (drop (Z.to_nat (p * 256)) (_write_buffer s))).
  assert (forall i, 0 <= i < 256 ->
                    arr_get page i = arr_get (_write_buffer s) (p * 256 + i))
    as Hpage.
  { intros i Hi. unfold arr_get, page. rewrite !decide_True by lia.
    rewrite lookup_take_lt by lia. rewrite lookup_drop. f_equal. lia. }
  clearbody page.
  destruct (flash_write_page_quiet (_current_index s) page (set_flash d s)
              Hd Hlatch) as (d' & Hw & Hd' & Hin & Hout).
  exists d'. split.
  { rewrite Hw. destruct s. reflexivity. }
  split; [exact Hd'|]. unfold cell in Hin, Hout.
  cbn [_flash set_flash] in Hin, Hout. rewrite Hcells in Hin, Hout.
  split.
  - intros i x Hi Hx. rewrite Hin by zlia.
    replace ((_current_index s + i - _current_index s) mod 256) with i
      by zlia.
    rewrite Hpage by lia. rewrite Hx. reflexivity.
  - intros a Ha. apply Hout. zlia.
Qed.

(** The page loop of [write] on a medium whose driver calls succeed: [n]
    pages of the write buffer, from page [p] on, are programmed at the
    cursor, which moves by 256 for each. *)
Lemma write_pages_quiet (n : nat) :
  forall p s,
    W25Q64FV.script (_flash s) = [] ->
    0 <= p -> (p + Z.of_nat n) * 256 <= Z.of_nat (length (_write_buffer s)) ->
    0 <= _current_index s -> _current_index s mod 256 = 0 ->
    _current_index s + 256 * Z.of_nat n < 2 ^ 32 ->
    exists d,
      write_pages n p s
      = Some (set_current_index (_current_index s + 256 * Z.of_nat n)
                (set_flash d s))
      /\ W25Q64FV.script d = []
      /\ (forall i x, 0 <= i < 256 * Z.of_nat n ->
            arr_get (_write_buffer s) (p * 256 + i) = Some x ->
            W25Q64FV.cells d (_current_index s + i)
            = Z.land (cell s (_current_index s + i)) x)
      /\ (forall a, a < _current_index s
                    \/ _current_index s + 256 * Z.of_nat n <= a ->
                    W25Q64FV.cells d a = cell s a).
Proof.
  induction n as [|n IH]; intros p s Hs Hp Hfit Hc Hal H32.
  - exists (_flash s). split.
    { unfold write_pages. destruct s. unfold set_current_index, set_flash.
      simpl. do 2 f_equal. lia. }
    split; [exact Hs|]. split; [intros; lia | reflexivity].
  - rewrite write_pages_S.
    destruct (program_page_quiet p s Hs Hp ltac:(lia) Hc Hal)
      as (d0 & page & -> & -> & -> & Hslice & d1 & Hw & Hd1 & Hin & Hout).
    change (_write_buffer (set_flash d0 s)) with (_write_buffer s).
    rewrite Hslice. cbn [mbind option_bind].
    change (_current_index (set_flash d0 s)) with (_current_index s).
    rewrite Hw.
    change (_current_index (set_flash d1 s)) with (_current_index s).
    replace (u32 (_current_index s + 256)) with (_current_index s + 256)
      by (unfold u32; zlia).
    set (s1 := set_current_index (_current_index s + 256) (set_flash d1 s)).
    destruct (IH (p + 1) s1) as (d2 & Hw2 & Hd2 & Hin2 & Hout2).
    + exact Hd1.
    + lia.
    + change (_write_buffer s1) with (_write_buffer s). lia.
    + simpl. lia.
    + simpl. zlia.
    + simpl. lia.
    + exists d2. split.
      { rewrite Hw2. destruct s. unfold s1, set_current_index, set_flash. simpl.
        do 2 f_equal. lia. }
      split; [exact Hd2|]. split.
      * intros i x Hi Hx. destruct (decide (i < 256)) as [Hlow|Hhigh].
        -- rewrite Hout2 by (simpl; lia).
           change (cell s1 (_current_index s + i))
             with (W25Q64FV.cells d1 (_current_index s + i)).
           apply Hin; [lia | exact Hx].
        -- change (_current_index s1) with (_current_index s + 256) in Hin2.
           change (_write_buffer s1) with (_write_buffer s) in Hin2.
           replace (_current_index s + i)
             with (_current_index s + 256 + (i - 256)) by lia.
           rewrite (Hin2 (i - 256) x) by
             (first [lia | rewrite <- Hx; f_equal; lia]).
           change (cell s1 (_current_index s + 256 + (i - 256)))
             with (W25Q64FV.cells d1 (_current_index s + 256 + (i - 256))).
           rewrite Hout by lia. reflexivity.
      * intros a Ha. rewrite Hout2 by (simpl; lia).
        change (cell s1 a) with (W25Q64FV.cells d1 a).
        apply Hout. lia.
Qed.

(** The page loop of [close_file] on a medium whose driver calls
    succeed: the pages are programmed as in [write], but the cursor
    moves by [_write_buffer_index mod 256] (by 256 when that is 0) for
    the last one. *)
Lemma close_pages_quiet (n : nat) :
  forall p s pages,
    W25Q64FV.script (_flash s) = [] ->
    0 <= p -> p + Z.of_nat n = pages -> pages < 2 ^ 32 ->
    pages * 256 <= Z.of_nat (length (_write_buffer s)) ->
    0 <= _current_index s -> _current_index s mod 256 = 0 ->
    _current_index s + 256 * Z.of_nat n < 2 ^ 32 ->
    exists d,
      close_pages n p pages s
      = Some (W25Q64FV_OK,
              set_current_index
                (if decide (n = 0%nat) then _current_index s
                 else _current_index s + 256 * (Z.of_nat n - 1)
                      + (if decide (_write_buffer_index s mod 256 = 0
                                    /\ _write_buffer_index s <> 0)
                         then 256 else _write_buffer_index s mod 256))
                (set_flash d s))
      /\ W25Q64FV.script d = []
      /\ (forall i x, 0 <= i < 256 * Z.of_nat n ->
            arr_get (_write_buffer s) (p * 256 + i) = Some x ->
            W25Q64FV.cells d (_current_index s + i)
            = Z.land (cell s (_current_index s + i)) x)
      /\ (forall a, a < _current_index s
                    \/ _current_index s + 256 * Z.of_nat n <= a ->
                    W25Q64FV.cells d a = cell s a).
Proof.
  induction n as [|n IH]; intros p s pages Hs Hp Hpages Hp32 Hfit Hc Hal H32.
  - exists (_flash s). split.
    { simpl. destruct s. reflexivity. }
    split; [exact Hs|]. split; [intros; lia | reflexivity].
  - cbn [close_pages].
    destruct (program_page_quiet p s Hs Hp ltac:(lia) Hc Hal)
      as (d0 & page & -> & -> & -> & Hslice & d1 & Hw & Hd1 & Hfirst & Hout).
    change (_write_buffer (set_flash d0 s)) with (_write_buffer s).
    rewrite Hslice. cbn [mbind option_bind].
    change (_current_index (set_flash d0 s)) with (_current_index s).
    rewrite Hw.
    change (_current_index (set_flash d1 s)) with (_current_index s).
    change (_write_buffer_index (set_flash d0 s)) with (_write_buffer_index s).
    replace (u32 (pages - 1)) with (p + Z.of_nat n)
      by (clear IH; unfold u32; zlia).
    set (last := if decide (_write_buffer_index s mod 256 = 0
                            /\ _write_buffer_index s <> 0)
                 then 256 else _write_buffer_index s mod 256).
    assert (0 <= last <= 256) as Hlast.
    { clear. unfold last. case_decide; zlia. }
    rewrite (decide_False (P := S n = 0%nat)) by lia.
    destruct n as [|n].
    + rewrite decide_True by lia. cbn [close_pages].
      replace (u32 (_current_index s + last)) with (_current_index s + last)
        by (unfold u32; (clear IH; zlia)).
      exists d1. split.
      { destruct s. unfold set_current_index, set_flash. simpl.
        do 3 f_equal. lia. }
      split; [exact Hd1|]. split.
      * intros i x Hi Hx. apply Hfirst; [lia | exact Hx].
      * intros a Ha. apply Hout. lia.
    + rewrite (decide_False (P := p = p + Z.of_nat (S n))) by lia.
      replace (u32 (_current_index s + 256)) with (_current_index s + 256)
        by (unfold u32; (clear IH; zlia)).
      set (s1 := set_current_index (_current_index s + 256) (set_flash d1 s)).
      destruct (IH (p + 1) s1 pages) as (d2 & Hw2 & Hd2 & Hin2 & Hout2).
      * exact Hd1.
      * lia.
      * lia.
      * exact Hp32.
      * exact Hfit.
      * simpl. lia.
      * simpl. (clear IH; zlia).
      * simpl. lia.
      * exists d2. split.
        { rewrite Hw2. rewrite (decide_False (P := S n = 0%nat)) by lia.
          change (_write_buffer_index s1) with (_write_buffer_index s).
          fold last.
          change (_current_index s1) with (_current_index s + 256).
          replace (_current_index s + 256 + 256 * (Z.of_nat (S n) - 1) + last)
            with (_current_index s + 256 * (Z.of_nat (S (S n)) - 1) + last)
            by lia.
          reflexivity. }
        split; [exact Hd2|]. split.
        -- intros i x Hi Hx. destruct (decide (i < 256)) as [Hlow|Hhigh].
           ++ rewrite Hout2 by (simpl; lia).
              change (cell s1 (_current_index s + i))
                with (W25Q64FV.cells d1 (_current_index s + i)).
              apply Hfirst; [lia | exact Hx].
           ++ change (_current_index s1) with (_current_index s + 256) in Hin2.
              change (_write_buffer s1) with (_write_buffer s) in Hin2.
              replace (_current_index s + i)
                with (_current_index s + 256 + (i - 256)) by lia.
              rewrite (Hin2 (i - 256) x) by
                (first [lia | rewrite <- Hx; f_equal; lia]).
              change (cell s1 (_current_index s + 256 + (i - 256)))
                with (W25Q64FV.cells d1 (_current_index s + 256 + (i - 256))).
              rewrite Hout by lia. reflexivity.
        -- intros a Ha. rewrite Hout2 by (simpl; lia).
           change (cell s1 a) with (W25Q64FV.cells d1 a).
           apply Hout. lia.
Qed.


(** One byte passed to [write] keeps the write session: it goes to the
    write buffer, and the byte that fills the buffer sends its 512
    bytes to the medium.  Nothing below the file changes; and when the
    bytes go to an erased part of the medium, they are on the medium as
    they were passed. *)
Lemma write_byte_session (start top : Z) (written : list Z) (b : Z)
    (s : FlashFAT) :
  write_session start written s -> is_u8 b ->
  _current_index s + 8192 < 2 ^ 32 ->
  exists s',
    write_bytes [b] s = Some s'
    /\ write_session start (written ++ [b]) s'
    /\ _current_index s' + _write_buffer_index s'
       = _current_index s + _write_buffer_index s + 1
    /\ (forall a, a < start -> cell s' a = cell s a)
    /\ _table s' = _table s /\ _file_index s' = _file_index s
    /\ (start + Z.of_nat (length written) + 1 <= top ->
        on_erased_medium start top written s ->
        on_erased_medium start top (written ++ [b]) s').
Proof.
  intros (Hm & Hs & Hl & Hi & Hst & Hsal & Hsc & Hcal & Heal & Hce & Hlen
          & Hbuf & Hu8) Hb H32.
  assert (Forall is_u8 (written ++ [b])) as Hu8'.
  { apply Forall_app. split; [exact Hu8|]. apply Forall_cons. split; [exact Hb|].
    apply Forall_nil_2. }
  cbn [write_bytes].
  destruct (arr_set (_write_buffer s) (_write_buffer_index s) b) as [wb|] eqn:Hset;
    [|rewrite arr_set_Some in Hset by lia; discriminate].
  apply arr_set_spec in Hset as (Lwb & _ & Gwb & Nwb).
  cbn [mbind option_bind].
  cbn [_write_buffer_index set_write_buffer set_write_buffer_index].
  replace (u32 (_write_buffer_index s + 1)) with (_write_buffer_index s + 1)
    by (unfold u32; zlia).
  assert (forall i, 0 <= i < _write_buffer_index s + 1 ->
            (written ++ [b]) !! Z.to_nat (_current_index s - start + i)
            = arr_get wb i) as Hbuf'.
  { intros i Hi'. destruct (decide (i = _write_buffer_index s)) as [->|Hne].
    - rewrite Gwb. rewrite lookup_app_r by lia.
      replace (Z.to_nat (_current_index s - start + _write_buffer_index s)
               - length written)%nat with 0%nat by lia.
      reflexivity.
    - rewrite Nwb by exact Hne. rewrite lookup_app_l by lia.
      apply Hbuf. lia. }
  unfold FLASH_FAT_FILE_BUFFER. case_decide as Hfull.
  - (* the buffer is full *)
    assert (_write_buffer_index s = 511) as Hidx by lia.
    set (sA := set_write_buffer_index (_write_buffer_index s + 1)
                 (set_write_buffer wb s)).
    destruct (erase_ahead_quiet sA)
      as (d1 & E & -> & Hd1 & HE & HcE & HE32 & Hlow1 & Hany1).
    + exact Hs.
    + simpl. lia.
    + simpl. zlia.
    + exact Heal.
    + exact Hce.
    + simpl. lia.
    + set (sB := set_erase_index E (set_flash d1 sA)).
      change (Z.to_nat (512 / 256)) with 2%nat.
      destruct (write_pages_quiet 2 0 sB) as (d2 & -> & Hd2 & Hin2 & Hout2).
      * exact Hd1.
      * lia.
      * simpl. lia.
      * simpl. lia.
      * simpl. zlia.
      * simpl. lia.
      * cbn [mbind option_bind]. eexists. split; [reflexivity|].
        change (_current_index sB) with (_current_index s) in *.
        change (_current_index sA) with (_current_index s) in *.
        change (_write_buffer sB) with wb in *.
        change (256 * Z.of_nat 2) with 512 in *.
        change (cell sA) with (cell s) in *.
        split; [|split; [|split; [|split; [reflexivity|split; [reflexivity|]]]]].
        -- unfold write_session.
           cbn [_mode _flash _write_buffer _write_buffer_index _erase_index
                _current_index set_write_buffer_index set_current_index
                set_flash set_erase_index set_write_buffer sA sB].
           split; [exact Hm|]. split; [exact Hd2|]. split; [lia|].
           split; [lia|]. split; [exact Hst|]. split; [exact Hsal|].
           split; [lia|]. split; [zlia|]. split; [exact HE|].
           split; [lia|]. split; [rewrite length_app; simpl; lia|].
           split; [intros; lia | exact Hu8'].
        -- simpl. lia.
        -- intros a Ha. unfold cell. simpl. rewrite Hout2 by lia.
           change (cell sB a) with (W25Q64FV.cells d1 a).
           rewrite Hlow1 by lia. reflexivity.
        -- intros Htop [Hmed Her].
           assert (forall i, 0 <= i < 512 ->
                     (written ++ [b]) !! Z.to_nat (_current_index s - start + i)
                     = Some (W25Q64FV.cells d2 (_current_index s + i))) as Hnew.
           { intros i Hi'. rewrite Hbuf' by lia.
             destruct (arr_get_Some wb i) as [x Hx]; [lia|].
             rewrite (Hin2 i x) by (first [lia | rewrite <- Hx; f_equal; lia]).
             change (cell sB (_current_index s + i))
               with (W25Q64FV.cells d1 (_current_index s + i)).
             rewrite Hlow1 by lia. rewrite Her by lia.
             rewrite land_255; [exact Hx|].
             rewrite <- Hbuf' in Hx by lia.
             eapply Forall_lookup_1; [exact Hu8' | exact Hx]. }
           unfold on_erased_medium, cell.
           cbn [_flash _current_index set_write_buffer_index set_current_index
                set_flash].
           split.
           ++ intros i Hi'.
              destruct (decide (i < _current_index s - start)) as [Hold|Hnw].
              ** rewrite lookup_app_l by lia. rewrite Hmed by lia.
                 rewrite Hout2 by lia.
                 change (cell sB (start + i))
                   with (W25Q64FV.cells d1 (start + i)).
                 rewrite Hlow1 by lia. reflexivity.
              ** replace i with (_current_index s - start
                                 + (i - (_current_index s - start))) at 1 by lia.
                 rewrite Hnew by lia. do 2 f_equal. lia.
           ++ intros a Ha. rewrite Hout2 by lia.
              change (cell sB a) with (W25Q64FV.cells d1 a).
              destruct (Hany1 a) as [-> | ->]; [apply Her; lia | reflexivity].
  - (* the byte is only buffered *)
    cbn [mbind option_bind]. eexists. split; [reflexivity|].
    split; [|split; [|split; [|split; [reflexivity|split; [reflexivity|]]]]].
    + unfold write_session.
      cbn [_mode _flash _write_buffer _write_buffer_index _erase_index
           _current_index set_write_buffer_index set_write_buffer].
      split; [exact Hm|]. split; [exact Hs|]. split; [lia|].
      split; [lia|]. split; [exact Hst|]. split; [exact Hsal|].
      split; [exact Hsc|]. split; [exact Hcal|]. split; [exact Heal|].
      split; [exact Hce|]. split; [rewrite length_app; simpl; lia|].
      split; [exact Hbuf' | exact Hu8'].
    + simpl. lia.
    + intros a Ha. reflexivity.
    + intros _ [Hmed Her]. split.
      * intros i Hi'. rewrite lookup_app_l by (simpl in Hi'; lia).
        apply Hmed. exact Hi'.
      * exact Her.
Qed.

(** The bytes passed to [write] keep the write session. *)
Lemma write_bytes_session (start top : Z) (data : list Z) :
  forall written s,
    write_session start written s -> Forall is_u8 data ->
    _current_index s + _write_buffer_index s + Z.of_nat (length data) + 8192
    < 2 ^ 32 ->
    exists s',
      write_bytes data s = Some s'
      /\ write_session start (written ++ data) s'
      /\ (forall a, a < start -> cell s' a = cell s a)
      /\ _table s' = _table s /\ _file_index s' = _file_index s
      /\ (start + Z.of_nat (length written) + Z.of_nat (length data) <= top ->
          on_erased_medium start top written s ->
          on_erased_medium start top (written ++ data) s').
Proof.
  induction data as [|b data IH]; intros written s Hw Hu8 H32.
  - exists s. rewrite app_nil_r. split; [reflexivity|]. split; [exact Hw|].
    split; [reflexivity|]. split; [reflexivity|]. split; [reflexivity|].
    intros _ H. exact H.
  - apply Forall_cons in Hu8 as [Hb Hu8]. simpl length in H32.
    assert (0 <= _write_buffer_index s) as Hi
      by (destruct Hw as (_ & _ & _ & Hi & _); lia).
    destruct (write_byte_session start top written b s Hw Hb ltac:(lia))
      as (s1 & Hw1 & Hs1 & Hsum & Hlow1 & Ht1 & Hf1 & Hmed1).
    destruct (IH (written ++ [b]) s1 Hs1 Hu8 ltac:(lia))
      as (s2 & Hw2 & Hs2 & Hlow2 & Ht2 & Hf2 & Hmed2).
    exists s2. change (b :: data) with ([b] ++ data).
    rewrite write_bytes_app, Hw1. cbn [mbind option_bind].
    split; [exact Hw2|]. rewrite app_assoc. split; [exact Hs2|].
    split; [|split; [congruence|split; [congruence|]]].
    + intros a Ha. rewrite Hlow2 by exact Ha. apply Hlow1. exact Ha.
    + rewrite length_app. simpl length. intros Htop Hmed.
      apply Hmed2; [rewrite length_app; simpl; lia|].
      apply Hmed1; [lia | exact Hmed].
Qed.

(** The flush of [close_file] ends a write session with the cursor right
    after the last byte passed to [write]; nothing below the file has
    changed, and when the bytes went to an erased part of the medium,
    every one of them is on the medium, in order, from the start of the
    file. *)
Lemma close_flush_session (start top : Z) (written : list Z) (s : FlashFAT) :
  write_session start written s ->
  _current_index s + 8192 < 2 ^ 32 ->
  exists s1,
    close_flush s = Some (W25Q64FV_OK, s1)
    /\ _current_index s1 = start + Z.of_nat (length written)
    /\ W25Q64FV.script (_flash s1) = []
    /\ (forall a, a < start -> cell s1 a = cell s a)
    /\ (start + Z.of_nat (length written) <= top ->
        on_erased_medium start top written s ->
        forall i, 0 <= i < Z.of_nat (length written) ->
                  written !! Z.to_nat i = Some (cell s1 (start + i))).
Proof.
  intros (Hm & Hs & Hl & Hi & Hst & Hsal & Hsc & Hcal & Heal & Hce & Hlen
          & Hbuf & Hu8) H32.
  unfold close_flush. case_decide as Hidx.
  2:{ exists s. split; [reflexivity|]. split; [lia|]. split; [exact Hs|].
      split; [reflexivity|]. intros _ [Hmed _] i Hi'. apply Hmed. lia. }
  unfold arr_fill, FLASH_FAT_FILE_BUFFER.
  replace (u32 (512 - _write_buffer_index s)) with (512 - _write_buffer_index s)
    by (unfold u32; zlia).
  rewrite decide_True by lia. cbn [mbind option_bind].
  set (filled := take _ _ ++ _).
  assert (length filled = 512%nat) as Lf.
  { unfold filled. rewrite !length_app, length_take, length_replicate, length_drop.
    lia. }
  assert (forall i, 0 <= i < _write_buffer_index s ->
                    arr_get filled i = arr_get (_write_buffer s) i) as Hfilled.
  { intros i Hi'. unfold arr_get. rewrite !decide_True by lia. unfold filled.
    rewrite lookup_app_l by (rewrite length_take; lia).
    apply lookup_take_lt. lia. }
  clearbody filled.
  set (sA := set_write_buffer filled s).
  destruct (erase_ahead_quiet sA)
    as (d1 & E & -> & Hd1 & HE & HcE & HE32 & Hlow1 & Hany1).
  { exact Hs. }
  { simpl. lia. }
  { simpl. zlia. }
  { exact Heal. }
  { exact Hce. }
  { simpl. lia. }
  set (sB := set_erase_index E (set_flash d1 sA)).
  change (_write_buffer_index sB) with (_write_buffer_index s).
  change (_current_index sA) with (_current_index s) in *.
  change (cell sA) with (cell s) in *.
  set (P := u32 (_write_buffer_index s + 255) / 256).
  assert (P = (_write_buffer_index s + 255) / 256) as HP
    by (unfold P, u32; zlia).
  assert (1 <= P <= 2 /\ _write_buffer_index s <= 256 * P) as [HP12 HPi]
    by zlia.
  destruct (close_pages_quiet (Z.to_nat P) 0 sB P)
    as (d2 & -> & Hd2 & Hin2 & Hout2).
  { exact Hd1. }
  { lia. }
  { lia. }
  { lia. }
  { change (_write_buffer sB) with filled. lia. }
  { simpl. lia. }
  { simpl. zlia. }
  { simpl. lia. }
  change (_current_index sB) with (_current_index s) in *.
  change (_write_buffer sB) with filled in *.
  change (_write_buffer_index sB) with (_write_buffer_index s) in *.
  rewrite decide_False by lia.
  rewrite Z2Nat.id in * by lia.
  set (last := if decide (_write_buffer_index s mod 256 = 0
                          /\ _write_buffer_index s <> 0)
               then 256 else _write_buffer_index s mod 256).
  assert (256 * (P - 1) + last = _write_buffer_index s) as Hadv.
  { clear - Hi Hidx HP. unfold last. case_decide; zlia. }
  clearbody last.
  eexists. split; [reflexivity|].
  unfold cell. cbn [_current_index _flash set_current_index set_flash].
  split; [lia|]. split; [exact Hd2|]. split.
  - intros a Ha. rewrite Hout2 by lia.
    change (cell sB a) with (W25Q64FV.cells d1 a).
    rewrite Hlow1 by lia. reflexivity.
  - intros Htop [Hmed Her] i Hi'.
    destruct (decide (i < _current_index s - start)) as [Hold|Hnw].
    + rewrite Hmed by lia. rewrite Hout2 by lia.
      change (cell sB (start + i)) with (W25Q64FV.cells d1 (start + i)).
      rewrite Hlow1 by lia. reflexivity.
    + replace i with (_current_index s - start
                      + (i - (_current_index s - start))) at 1 by lia.
      set (j := i - (_current_index s - start)).
      assert (0 <= j < _write_buffer_index s) as Hj by (unfold j; lia).
      replace (start + i) with (_current_index s + j) by (unfold j; lia).
      destruct (arr_get_Some (_write_buffer s) j) as [x Hx]; [lia|].
      rewrite Hbuf, Hx by lia.
      rewrite (Hin2 j x) by
        (first [lia | rewrite <- Hx, <- Hfilled by lia; f_equal; lia]).
      change (cell sB (_current_index s + j))
        with (W25Q64FV.cells d1 (_current_index s + j)).
      rewrite Hlow1 by lia. rewrite Her by lia.
      rewrite land_255; [reflexivity|].
      rewrite <- Hbuf in Hx by lia.
      eapply Forall_lookup_1; [exact Hu8 | exact Hx].
Qed.

(** [new_file] on a medium whose driver calls succeed opens a write
    session at the first sector after the last file; the bytes between
    the table and that sector are as they were, and every byte from
    address 4096 on is as it was or erased. *)
Lemma new_file_session (s : FlashFAT) :
  _mode s = FLASHFAT_NO_MODE ->
  0 <= _num_files (_table s) < 49 ->
  length (_files (_table s)) = 254%nat ->
  Forall entry_typed (_files (_table s)) ->
  files_end (_table s) < 2 ^ 24 - 4096 ->
  W25Q64FV.script (_flash s) = [] ->
  length (_write_buffer s) = 512%nat ->
  _write_buffer_index s = 0 ->
  exists s1 f0,
    new_file s = Some (FLASHFAT_OK, s1)
    /\ write_session ((files_end (_table s) / 4096 + 1) * 4096) [] s1
    /\ _current_index s1 = (files_end (_table s) / 4096 + 1) * 4096
    /\ _file_index s1 = _num_files (_table s)
    /\ _num_files (_table s1) = _num_files (_table s) + 1
    /\ arr_get (_files (_table s)) (_num_files (_table s)) = Some f0
    /\ _files (_table s1)
       = <[Z.to_nat (_num_files (_table s)) :=
             {| _start_page := (files_end (_table s) / 4096 + 1) * 16;
                _page_length := _page_length f0;
                _end_offset := _end_offset f0 |}]> (_files (_table s))
    /\ 0 <= files_end (_table s)
    /\ (forall a, 4096 <= a < (files_end (_table s) / 4096 + 1) * 4096 ->
                  cell s1 a = cell s a)
    /\ (forall a, 4096 <= a -> cell s1 a = cell s a \/ cell s1 a = 255).
Proof.
  intros Hm Hn Hl Ht Hfit Hs Hwl Hwi.
  destruct (new_file_quiet s Hm Hn Hl Ht Hs)
    as (f0 & d0 & d1 & Hf0 & Hnew & Hnext & Hend & Hd1 & Hout & Hany).
  set (s0 := allocated s f0 d0) in *.
  set (A := (files_end (_table s) / 4096 + 1) * 4096) in *.
  pose proof Hf0 as Hf0'.
  apply arr_get_lookup in Hf0' as [_ Hf0'].
  pose proof (Forall_lookup_1 _ _ _ _ Ht Hf0') as (_ & T2 & T3).
  assert (u16 (Z.shiftr (next_start_address (files_end (_table s))) 8)
          = (files_end (_table s) / 4096 + 1) * 16) as Hpage.
  { rewrite Hnext. rewrite Z.shiftr_div_pow2 by lia. unfold u16, A.
    change (2 ^ 8) with 256. zlia. }
  exists (set_flash d1 s0), f0. split; [exact Hnew|].
  assert (_current_index s0 = A) as Hcur by exact Hnext.
  assert (_erase_index s0 = A + 4095) as Hera.
  { unfold s0. simpl. rewrite Hnext. unfold u32, A. zlia. }
  split; [|split; [exact Hcur|split; [reflexivity|split;
            [reflexivity|split; [exact Hf0|]]]]].
  - unfold write_session.
    cbn [_mode _flash _write_buffer _write_buffer_index _erase_index
         _current_index set_flash].
    change (_mode s0) with FLASHFAT_WRITE_MODE.
    change (_write_buffer s0) with (_write_buffer s).
    change (_write_buffer_index s0) with (_write_buffer_index s).
    rewrite Hcur, Hera, Hwi.
    split; [reflexivity|]. split; [exact Hd1|]. split; [exact Hwl|].
    split; [lia|]. split; [unfold A; zlia|]. split; [unfold A; zlia|].
    split; [lia|]. split; [zlia|]. split; [unfold A; zlia|].
    split; [lia|]. split; [simpl; lia|]. split; [intros; lia|].
    apply Forall_nil_2.
  - split; [|split; [lia|split]].
    + unfold s0. cbn [_table set_flash allocated _files].
      rewrite Hpage. reflexivity.
    + intros a Ha. unfold cell at 1. cbn [_flash set_flash].
      apply Hout; [lia|]. unfold A in Ha. zlia.
    + intros a Ha. unfold cell at 1 3. cbn [_flash set_flash].
      apply Hany. exact Ha.
Qed.

(** [new_file], [write] and [close_file] on a medium whose driver calls
    succeed: the file is in the table, whatever its length, nothing
    between the table and the file has changed, and when the file went
    to erased bytes it is on the medium. *)
Lemma file_stored (s : FlashFAT) (data : list Z) :
  _mode s = FLASHFAT_NO_MODE ->
  0 <= _num_files (_table s) < 49 ->
  length (_files (_table s)) = 254%nat ->
  Forall entry_typed (_files (_table s)) ->
  files_end (_table s) < 2 ^ 24 - 4096 ->
  W25Q64FV.script (_flash s) = [] ->
  length (_write_buffer s) = 512%nat ->
  _write_buffer_index s = 0 ->
  Z.of_nat (length data) < 2 ^ 24 ->
  Forall is_u8 data ->
  exists s3,
    then_ (then_ (new_file s) (write data)) close_file = Some (FLASHFAT_OK, s3)
    /\ _mode s3 = FLASHFAT_NO_MODE
    /\ W25Q64FV.script (_flash s3) = []
    /\ _num_files (_table s3) = _num_files (_table s) + 1
    /\ _file_close_err (_table s3) = FLASH_FAT_NO_ERROR_FILE
    /\ _files (_table s3)
       = <[Z.to_nat (_num_files (_table s)) :=
             {| _start_page := (files_end (_table s) / 4096 + 1) * 16;
                _page_length := Z.of_nat (length data) / 256;
                _end_offset := Z.of_nat (length data) mod 256 |}]>
           (_files (_table s))
    /\ 0 <= files_end (_table s)
    /\ (forall a, 4096 <= a < (files_end (_table s) / 4096 + 1) * 4096 ->
                  cell s3 a = cell s a)
    /\ (forall table0, length (_files table0) = 254%nat ->
          exists table',
            get_file_allocation_table table0 (_flash s3)
            = Some (FLASHFAT_OK, table', _flash s3)
            /\ _num_files table' = _num_files (_table s) + 1
            /\ (forall j, 0 <= j <= _num_files (_table s) ->
                  arr_get (_files table') j = arr_get (_files (_table s3)) j))
    /\ ((forall i, 0 <= i < Z.of_nat (length data) ->
           cell s ((files_end (_table s) / 4096 + 1) * 4096 + i) = 255) ->
        forall i, 0 <= i < Z.of_nat (length data) ->
          data !! Z.to_nat i
          = Some (cell s3 ((files_end (_table s) / 4096 + 1) * 4096 + i))).
Proof.
  intros Hm Hn Hl Ht Hfit Hs Hwl Hwi Hlen Hu8.
  destruct (new_file_session s Hm Hn Hl Ht Hfit Hs Hwl Hwi)
    as (s1 & f0 & Hnew & Hsess1 & Hcur1 & Hfi1 & Hnum1 & Hf0 & Hfiles1 & Hfe0
        & Hlow1 & Hany1).
  set (n := _num_files (_table s)) in *.
  set (A := (files_end (_table s) / 4096 + 1) * 4096) in *.
  set (len := Z.of_nat (length data)) in *.
  assert (0 <= A /\ A mod 4096 = 0 /\ 4096 <= A /\ A < 2 ^ 24
          /\ (files_end (_table s) / 4096 + 1) * 16 * 256 = A
          /\ 0 <= (files_end (_table s) / 4096 + 1) * 16 < 2 ^ 16)
    as (HA0 & HA1 & HA2 & HA3 & HA4 & HA5) by (unfold A; zlia).
  set (pg := (files_end (_table s) / 4096 + 1) * 16) in *.
  unfold then_. rewrite Hnew. cbn [mbind option_bind].
  (* write *)
  assert (_mode s1 = FLASHFAT_WRITE_MODE
          /\ _current_index s1 + _write_buffer_index s1 = A) as [Hm1 Hsum1].
  { destruct Hsess1 as (Hm1 & _ & _ & _ & _ & _ & _ & _ & _ & _ & Hl1 & _).
    split; [exact Hm1|]. simpl in Hl1. lia. }
  unfold write. rewrite Hm1.
  destruct (write_bytes_session A (A + len) data [] s1 Hsess1 Hu8
              ltac:(fold len; lia))
    as (s2 & Hw & Hsess2 & Hlow2 & Ht2 & Hfi2 & Hmed2).
  rewrite Hw. cbn [mbind option_bind]. rewrite app_nil_l in Hsess2, Hmed2.
  (* the flush of close_file *)
  assert (_mode s2 = FLASHFAT_WRITE_MODE
          /\ _write_buffer_index s2 mod 256 = len mod 256
          /\ _current_index s2 <= A + len) as (Hm2 & Hidx2 & Hcur2).
  { destruct Hsess2 as (Hm2 & _ & _ & Hi2 & _ & _ & Hsc2 & Hcal2 & _ & _ & Hl2 & _).
    fold len in Hl2. split; [exact Hm2|]. zlia. }
  destruct (close_flush_session A (A + len) data s2 Hsess2 ltac:(lia))
    as (s3 & Hflush & Hcur3 & Hs3 & Hlow3 & Hdata3).
  fold len in Hcur3, Hdata3.
  (* the entry of the file *)
  pose proof Hf0 as Hf0'.
  apply arr_get_lookup in Hf0' as [_ Hf0'].
  pose proof (Forall_lookup_1 _ _ _ _ Ht Hf0') as (_ & T2 & T3).
  set (f1 := {| _start_page := pg; _page_length := _page_length f0;
                _end_offset := _end_offset f0 |}) in *.
  assert (entry_typed f1) as Tf1.
  { split; [exact HA5 | split; assumption]. }
  assert (arr_get (_files (_table s2)) (_file_index s2) = Some f1) as Hf1.
  { rewrite Ht2, Hfi2, Hfi1, Hfiles1. unfold arr_get.
    rewrite decide_True by lia. apply list_lookup_insert_eq. lia. }
  rewrite (close_file_after_flush s2 s3 f1 Hm2 Hflush Hf1).
  set (e := {| _start_page := pg; _page_length := len / 256;
               _end_offset := len mod 256 |}).
  assert (entry_typed e) as Te.
  { split; [exact HA5|]. split; unfold is_u16, is_u8; simpl; zlia. }
  set (T := finalized s2 s3 f1).
  assert (_files T = <[Z.to_nat n := e]> (_files (_table s))) as HfT.
  { unfold T, finalized. cbn [_files]. rewrite Ht2, Hfi2, Hfi1, Hfiles1.
    rewrite list_insert_insert_eq. f_equal. unfold e. f_equal.
    - unfold file_start, f1. cbn [_start_page]. rewrite Hcur3, HA4.
      replace (A + len - A) with len by lia. unfold u16. zlia.
    - exact Hidx2. }
  assert (_num_files T = n + 1) as HnT.
  { unfold T, finalized. cbn [_num_files]. rewrite Ht2. exact Hnum1. }
  destruct (write_own_table_quiet (set_table T s3))
    as (d4 & Hstore & Hd4 & Hhigh4 & Hload4).
  { cbn [_table set_table]. lia. }
  { cbn [_table set_table]. rewrite HfT, length_insert. lia. }
  { cbn [_table set_table]. rewrite HfT. apply Forall_insert; assumption. }
  { change (is_u8 255). unfold is_u8. lia. }
  { exact Hs3. }
  rewrite Hstore. cbn [mbind option_bind].
  eexists. split; [reflexivity|].
  unfold cell.
  cbn [_mode _flash _table close_reset set_current_index set_erase_index
       set_file_index set_write_buffer_index set_mode set_flash set_table].
  split; [reflexivity|]. split; [exact Hd4|]. split; [exact HnT|].
  split; [reflexivity|]. split; [exact HfT|]. split; [exact Hfe0|].
  split; [|split].
  - intros a Ha. rewrite Hhigh4 by lia. unfold cell. cbn [_flash set_table].
    change (W25Q64FV.cells (_flash s3) a) with (cell s3 a).
    rewrite Hlow3, Hlow2 by lia. apply Hlow1. exact Ha.
  - intros table0 Hl0.
    destruct (Hload4 table0) as (table' & Hg & Hnum' & _ & _ & Hent').
    { cbn [_table set_table]. lia. }
    exists table'. split; [exact Hg|].
    cbn [_table set_table] in Hnum', Hent'.
    split; [lia|]. intros j Hj. apply Hent'. lia.
  - intros Herased i Hi. rewrite Hhigh4 by lia. unfold cell.
    cbn [_flash set_table]. apply Hdata3; [lia| |exact Hi].
    apply Hmed2; [simpl; fold len; lia|].
    split.
    + intros k Hk. rewrite Hcur1 in Hk. lia.
    + intros a Ha. rewrite Hcur1 in Ha.
      destruct (Hany1 a ltac:(lia)) as [-> | ->]; [|reflexivity].
      replace a with (A + (a - A)) by lia. apply Herased. lia.
Qed.


(** After [new_file], [write] and [close_file] on erased bytes, the
    file opens with its length and reads back in reads of at most one
    page. *)
Lemma file_stored_reads (s : FlashFAT) (data : list Z) :
  _mode s = FLASHFAT_NO_MODE ->
  0 <= _num_files (_table s) < 49 ->
  length (_files (_table s)) = 254%nat ->
  Forall entry_typed (_files (_table s)) ->
  files_end (_table s) < 2 ^ 24 - 4096 ->
  W25Q64FV.script (_flash s) = [] ->
  length (_write_buffer s) = 512%nat ->
  _write_buffer_index s = 0 ->
  Z.of_nat (length data) < 2 ^ 24 ->
  Forall is_u8 data ->
  (forall i, 0 <= i < Z.of_nat (length data) ->
             cell s ((files_end (_table s) / 4096 + 1) * 4096 + i) = 255) ->
  exists s3 s4,
    then_ (then_ (new_file s) (write data)) close_file = Some (FLASHFAT_OK, s3)
    /\ open_file (_num_files (_table s)) s3 = Some (FLASHFAT_OK, s4)
    /\ _mode s4 = FLASHFAT_READ_MODE
    /\ peek s4 = Z.of_nat (length data)
    /\ (forall s5 c m,
          _mode s5 = FLASHFAT_READ_MODE ->
          _flash s5 = _flash s4 -> _end_index s5 = _end_index s4 ->
          _current_index s5 = _current_index s4 + c ->
          0 <= c <= Z.of_nat (length data) -> 0 <= m <= 256 ->
          exists s6,
            read m s5
            = Some (Z.min m (Z.of_nat (length data) - c),
                    take (Z.to_nat m) (drop (Z.to_nat c) data), s6)
            /\ _mode s6 = FLASHFAT_READ_MODE
            /\ _flash s6 = _flash s4 /\ _end_index s6 = _end_index s4
            /\ _current_index s6
               = _current_index s4 + c + Z.min m (Z.of_nat (length data) - c)).
Proof.
  intros Hm Hn Hl Ht Hfit Hs Hwl Hwi Hlen Hu8 Herased.
  destruct (file_stored s data Hm Hn Hl Ht Hfit Hs Hwl Hwi Hlen Hu8)
    as (s3 & Hrun & Hm3 & Hs3 & Hn3 & He3 & Hf3 & Hfe0 & _ & Hload & Hdata).
  specialize (Hdata Herased).
  set (n := _num_files (_table s)) in *.
  set (A := (files_end (_table s) / 4096 + 1) * 4096) in *.
  set (len := Z.of_nat (length data)) in *.
  set (e := {| _start_page := (files_end (_table s) / 4096 + 1) * 16;
               _page_length := len / 256; _end_offset := len mod 256 |}) in *.
  assert (0 <= A /\ A < 2 ^ 24 /\ file_start e = A /\ file_end e = A + len
          /\ entry_typed e) as (HA0 & HA1 & Hstart & Hend & Te).
  { unfold file_start, file_end, entry_typed, is_u16, is_u8, e, A.
    cbn [_start_page _page_length _end_offset]. zlia. }
  destruct (Hload (_table s3)) as (table' & Hg & Hnum' & Hent').
  { rewrite Hf3, length_insert. exact Hl. }
  assert (arr_get (_files table') n = Some e) as He'.
  { rewrite Hent' by lia. rewrite Hf3. unfold arr_get.
    rewrite decide_True by lia. apply list_lookup_insert_eq. lia. }
  destruct (open_file_loaded n s3 table' (_flash s3) Hm3 Hg) as [_ Hopen].
  destruct (Hopen e ltac:(lia) He' Te)
    as (s4 & Hop & Hm4 & Hfl4 & _ & _ & Hcur4 & Hend4 & Hpeek4).
  exists s3, s4. split; [exact Hrun|]. split; [exact Hop|].
  split; [exact Hm4|]. split.
  { rewrite Hpeek4. unfold e. cbn [_page_length _end_offset]. zlia. }
  rewrite Hcur4, Hend4, Hstart, Hend, Hfl4.
  intros s5 c m Hm5 Hfl5 Hend5 Hcur5 Hc Hm256.
  destruct (read_within_page m s5) as (s6 & Hread & Hcur6 & Hend6 & Hm6 & Hfl6 & _).
  - exact Hm5.
  - rewrite Hfl5. exact Hs3.
  - lia.
  - lia.
  - lia.
  - lia.
  - lia.
  - exists s6. rewrite Hcur5, Hend5 in Hread, Hcur6.
    replace (A + len - (A + c)) with (len - c) in Hread, Hcur6 by lia.
    split; [|split; [exact Hm6|split; [congruence|split; [congruence|lia]]]].
    rewrite Hread. do 3 f_equal.
    apply list_eq. intros k. rewrite list_lookup_fmap, lookup_take, lookup_drop.
    destruct (decide (Z.of_nat k < Z.min m (len - c))) as [Hk|Hk].
    + rewrite lookup_seqZ_lt by lia. rewrite decide_True by lia. simpl.
      unfold cell. rewrite Hfl5.
      replace (Z.to_nat c + k)%nat with (Z.to_nat (c + Z.of_nat k)) by lia.
      rewrite Hdata by lia. unfold cell. do 2 f_equal. lia.
    + rewrite lookup_seqZ_ge by lia. simpl. case_decide; [|reflexivity].
      symmetry. apply lookup_ge_None. unfold len in *. lia.
Qed.

(** ** Files of any length *)

(** X12. The write path keeps a file of any length that goes to erased
    bytes.  From an object in no mode with fewer than 49 files, room
    below 2^24, an empty write buffer, a medium whose driver calls
    succeed and that holds the erased value 255 where the file will lie
    (from the first sector boundary after the last file, for the length
    of the data): [new_file], one [write] of the bytes [data] and
    [close_file] return [FLASHFAT_OK] and leave the object in no mode;
    the bytes of [data] are on the medium, in order, from that sector
    boundary, and the table has one file more, closed, whose entry holds
    that start page, the number of whole pages of [data] and the bytes
    on its last page.  (The erases of [new_file], [write] and
    [close_file] in the data sectors are issued without
    [enable_writing]; the statement does not rely on them.) *)
Theorem written_file_is_on_the_medium (s : FlashFAT) (data : list Z) :
  _mode s = FLASHFAT_NO_MODE ->
  0 <= _num_files (_table s) < 49 ->
  length (_files (_table s)) = 254%nat ->
  Forall entry_typed (_files (_table s)) ->
  files_end (_table s) < 2 ^ 24 - 4096 ->
  W25Q64FV.script (_flash s) = [] ->
  length (_write_buffer s) = 512%nat ->
  _write_buffer_index s = 0 ->
  Z.of_nat (length data) < 2 ^ 24 ->
  Forall is_u8 data ->
  (forall i, 0 <= i < Z.of_nat (length data) ->
             cell s ((files_end (_table s) / 4096 + 1) * 4096 + i) = 255) ->
  exists s3,
    then_ (then_ (new_file s) (write data)) close_file = Some (FLASHFAT_OK, s3)
    /\ _mode s3 = FLASHFAT_NO_MODE
    /\ _num_files (_table s3) = _num_files (_table s) + 1
    /\ _file_close_err (_table s3) = FLASH_FAT_NO_ERROR_FILE
    /\ arr_get (_files (_table s3)) (_num_files (_table s))
       = Some {| _start_page := (files_end (_table s) / 4096 + 1) * 16;
                 _page_length := Z.of_nat (length data) / 256;
                 _end_offset := Z.of_nat (length data) mod 256 |}
    /\ (forall i, 0 <= i < Z.of_nat (length data) ->
          data !! Z.to_nat i
          = Some (cell s3 ((files_end (_table s) / 4096 + 1) * 4096 + i))).
Proof.
  intros Hm Hn Hl Ht Hfit Hs Hwl Hwi Hlen Hu8 Herased.
  destruct (file_stored s data Hm Hn Hl Ht Hfit Hs Hwl Hwi Hlen Hu8)
    as (s3 & Hrun & Hm3 & _ & Hn3 & He3 & Hf3 & Hfe0 & _ & _ & Hdata).
  exists s3. split; [exact Hrun|]. split; [exact Hm3|]. split; [exact Hn3|].
  split; [exact He3|]. split; [|exact (Hdata Herased)].
  rewrite Hf3. unfold arr_get. rewrite decide_True by lia.
  apply list_lookup_insert_eq. lia.
Qed.

Lemma written_file_is_on_the_medium_witness :
  exists s3,
    then_ (then_ (new_file two_files) (write (ramp 600))) close_file
    = Some (FLASHFAT_OK, s3)
    /\ arr_get (_files (_table s3)) 2
       = Some {| _start_page := 48; _page_length := 2; _end_offset := 88 |}
    /\ ramp 600 !! 599%nat = Some (cell s3 12887).
Proof.
  destruct (written_file_is_on_the_medium two_files (ramp 600))
    as (s3 & Hrun & _ & _ & _ & Hentry & Hdata).
  - reflexivity.
  - by_computation.
  - reflexivity.
  - typed_by_computation.
  - by_computation.
  - reflexivity.
  - reflexivity.
  - reflexivity.
  - by_computation.
  - typed_by_computation.
  - intros i Hi. reflexivity.
  - exists s3. split; [exact Hrun|]. split; [exact Hentry|].
    exact (Hdata 599 ltac:(by_computation)).
Defined.

(** X13. A file stored on erased bytes reads back page by page.  After
    [new_file], [write data] and [close_file] as in X12, [open_file] of
    the new file returns [FLASHFAT_OK] in read mode with [peek] equal to
    the length of [data]; and in every read session on that medium and
    that file whose cursor is [c] bytes into the file, a [read] of [m]
    bytes, [m] at most 256, returns the bytes of [data] from position
    [c] on, [m] of them or as many as are left, and moves the cursor by
    their number.  So reads of at most one page, one after the other,
    deliver the whole file. *)
Theorem stored_file_reads_back (s : FlashFAT) (data : list Z) :
  _mode s = FLASHFAT_NO_MODE ->
  0 <= _num_files (_table s) < 49 ->
  length (_files (_table s)) = 254%nat ->
  Forall entry_typed (_files (_table s)) ->
  files_end (_table s) < 2 ^ 24 - 4096 ->
  W25Q64FV.script (_flash s) = [] ->
  length (_write_buffer s) = 512%nat ->
  _write_buffer_index s = 0 ->
  Z.of_nat (length data) < 2 ^ 24 ->
  Forall is_u8 data ->
  (forall i, 0 <= i < Z.of_nat (length data) ->
             cell s ((files_end (_table s) / 4096 + 1) * 4096 + i) = 255) ->
  exists s3 s4,
    then_ (then_ (new_file s) (write data)) close_file = Some (FLASHFAT_OK, s3)
    /\ open_file (_num_files (_table s)) s3 = Some (FLASHFAT_OK, s4)
    /\ _mode s4 = FLASHFAT_READ_MODE
    /\ peek s4 = Z.of_nat (length data)
    /\ (forall s5 c m,
          _mode s5 = FLASHFAT_READ_MODE ->
          _flash s5 = _flash s4 -> _end_index s5 = _end_index s4 ->
          _current_index s5 = _current_index s4 + c ->
          0 <= c <= Z.of_nat (length data) -> 0 <= m <= 256 ->
          exists s6,
            read m s5
            = Some (Z.min m (Z.of_nat (length data) - c),
                    take (Z.to_nat m) (drop (Z.to_nat c) data), s6)
            /\ _mode s6 = FLASHFAT_READ_MODE
            /\ _flash s6 = _flash s4 /\ _end_index s6 = _end_index s4
            /\ _current_index s6
               = _current_index s4 + c + Z.min m (Z.of_nat (length data) - c)).
Proof. exact (file_stored_reads s data). Qed.

Lemma stored_file_reads_back_witness :
  exists s3 s4,
    then_ (then_ (new_file two_files) (write (ramp 600))) close_file
    = Some (FLASHFAT_OK, s3)
    /\ open_file 2 s3 = Some (FLASHFAT_OK, s4)
    /\ peek s4 = 600
    /\ exists s6,
         read 256 (set_current_index (_current_index s4 + 512) s4)
         = Some (88, drop 512 (ramp 600), s6).
Proof.
  destruct (stored_file_reads_back two_files (ramp 600))
    as (s3 & s4 & Hrun & Hopen & Hm4 & Hpeek & Hread).
  - reflexivity.
  - by_computation.
  - reflexivity.
  - typed_by_computation.
  - by_computation.
  - reflexivity.
  - reflexivity.
  - reflexivity.
  - by_computation.
  - typed_by_computation.
  - intros i Hi. reflexivity.
  - exists s3, s4. split; [exact Hrun|]. split; [exact Hopen|].
    split; [exact Hpeek|].
    destruct (Hread (set_current_index (_current_index s4 + 512) s4) 512 256)
      as (s6 & Hr & _).
    + exact Hm4.
    + reflexivity.
    + reflexivity.
    + reflexivity.
    + by_computation.
    + by_computation.
    + exists s6. exact Hr.
Defined.

(** X14. Writing a file leaves the older files alone.  In the run of
    X12, whatever the medium holds, every byte of the medium from
    address 4096 up to the sector where the new file starts is as it
    was, and so are the entries of the files registered before, in
    memory and as a load from the medium finds them. *)
Theorem older_files_are_left_alone (s : FlashFAT) (data : list Z) :
  _mode s = FLASHFAT_NO_MODE ->
  0 <= _num_files (_table s) < 49 ->
  length (_files (_table s)) = 254%nat ->
  Forall entry_typed (_files (_table s)) ->
  files_end (_table s) < 2 ^ 24 - 4096 ->
  W25Q64FV.script (_flash s) = [] ->
  length (_write_buffer s) = 512%nat ->
  _write_buffer_index s = 0 ->
  Z.of_nat (length data) < 2 ^ 24 ->
  Forall is_u8 data ->
  exists s3,
    then_ (then_ (new_file s) (write data)) close_file = Some (FLASHFAT_OK, s3)
    /\ files_end (_table s) < (files_end (_table s) / 4096 + 1) * 4096
    /\ (forall a, 4096 <= a < (files_end (_table s) / 4096 + 1) * 4096 ->
                  cell s3 a = cell s a)
    /\ (forall j, 0 <= j < _num_files (_table s) ->
                  arr_get (_files (_table s3)) j = arr_get (_files (_table s)) j)
    /\ (forall table0, length (_files table0) = 254%nat ->
          exists table',
            get_file_allocation_table table0 (_flash s3)
            = Some (FLASHFAT_OK, table', _flash s3)
            /\ (forall j, 0 <= j < _num_files (_table s) ->
                  arr_get (_files table') j = arr_get (_files (_table s)) j)).
Proof.
  intros Hm Hn Hl Ht Hfit Hs Hwl Hwi Hlen Hu8.
  destruct (file_stored s data Hm Hn Hl Ht Hfit Hs Hwl Hwi Hlen Hu8)
    as (s3 & Hrun & _ & _ & _ & _ & Hf3 & Hfe0 & Hlow & Hload & _).
  assert (forall j, 0 <= j < _num_files (_table s) ->
                    arr_get (_files (_table s3)) j
                    = arr_get (_files (_table s)) j) as Hold.
  { intros j Hj. rewrite Hf3. unfold arr_get. rewrite !decide_True by lia.
    apply list_lookup_insert_ne. lia. }
  exists s3. split; [exact Hrun|]. split; [zlia|]. split; [exact Hlow|].
  split; [exact Hold|]. intros table0 Hl0.
  destruct (Hload table0 Hl0) as (table' & Hg & _ & Hent).
  exists table'. split; [exact Hg|]. intros j Hj.
  rewrite Hent by lia. apply Hold. exact Hj.
Qed.

Lemma older_files_are_left_alone_witness :
  exists s3,
    then_ (then_ (new_file two_files) (write (ramp 600))) close_file
    = Some (FLASHFAT_OK, s3)
    /\ cell s3 8196 = cell two_files 8196
    /\ arr_get (_files (_table s3)) 1 = arr_get (_files (_table two_files)) 1.
Proof.
  destruct (older_files_are_left_alone two_files (ramp 600))
    as (s3 & Hrun & _ & Hlow & Hold & _).
  - reflexivity.
  - by_computation.
  - reflexivity.
  - typed_by_computation.
  - by_computation.
  - reflexivity.
  - reflexivity.
  - reflexivity.
  - by_computation.
  - typed_by_computation.
  - exists s3. split; [exact Hrun|]. split.
    + apply Hlow. by_computation.
    + apply Hold. by_computation.
Defined.

(** ** Round trips of files of at most one page *)

(** Round trip for files of at most one page.  From an object in no
    mode with fewer than 49 files and room below 2^24, on a medium
    whose driver calls succeed and that is erased where the file will
    lie: [new_file], [write] of at most 256 bytes, [close_file],
    [open_file] of the new file and a [read] of the whole length give
    back the length and the bytes written. *)
Theorem file_within_page_round_trip (s : FlashFAT) (data : list Z) :
  _mode s = FLASHFAT_NO_MODE ->
  0 <= _num_files (_table s) < 49 ->
  length (_files (_table s)) = 254%nat ->
  Forall entry_typed (_files (_table s)) ->
  files_end (_table s) < 2 ^ 24 - 8192 ->
  W25Q64FV.script (_flash s) = [] ->
  length (_write_buffer s) = 512%nat ->
  _write_buffer_index s = 0 ->
  (length data <= 256)%nat ->
  Forall is_u8 data ->
  (forall i, 0 <= i < Z.of_nat (length data) ->
             cell s ((files_end (_table s) / 4096 + 1) * 4096 + i) = 255) ->
  exists s',
    store_and_load s data = Some (Z.of_nat (length data), data, s').
Proof.
  intros Hm Hn Hl Ht Hfit Hs Hwl Hwi Hlen Hbytes Herased.
  destruct (file_stored_reads s data Hm Hn Hl Ht ltac:(lia) Hs Hwl Hwi
              ltac:(lia) Hbytes Herased)
    as (s3 & s4 & Hrun & Hopen & Hm4 & _ & Hread).
  destruct (Hread s4 0 (Z.of_nat (length data)) Hm4 eq_refl eq_refl ltac:(lia)
              ltac:(lia) ltac:(lia)) as (s6 & Hr & _).
  exists s6. unfold store_and_load.
  unfold then_ at 1. rewrite Hrun. cbn [mbind option_bind].
  rewrite Hopen. cbn [mbind option_bind]. rewrite Hr.
  rewrite Z.sub_0_r, Z.min_id, Nat2Z.id. cbn [drop Z.to_nat].
  rewrite firstn_all. reflexivity.
Qed.

(** The theorem at work: a second file of three bytes after the file
    of 1000 bytes. *)
Example file_within_page_round_trip_1000 :
  exists s',
    store_and_load (set_table table_1000 (fresh blank_flash)) [1; 2; 3]
    = Some (3, [1; 2; 3], s').
Proof.
  apply (file_within_page_round_trip
           (set_table table_1000 (fresh blank_flash)) [1; 2; 3]);
    try reflexivity; try (vm_compute; intuition congruence).
  - apply (bool_decide_unpack _). vm_compute. exact I.
  - simpl. lia.
  - apply (bool_decide_unpack _). vm_compute. exact I.
Qed.


(** ** The erases of the data sectors *)



(** ** After a restart *)

(** X15. The table survives a restart.  Once a table of at most 49
    files is stored on a medium that does not fail, [begin] on any
    object over that medium returns [FLASHFAT_OK], writes nothing, keeps
    the mode, and holds the stored file count, close marker and
    entries. *)
Theorem begin_finds_stored_table (table : FlashFAT_file_allocation_table)
    (d d1 : W25Q64FV.t) (_cs : Z) (s : FlashFAT) :
  0 <= _num_files table <= 49 ->
  _num_files table <= Z.of_nat (length (_files table)) ->
  Forall entry_typed (_files table) ->
  is_u8 (_file_close_err table) ->
  W25Q64FV.script d = [] ->
  write_file_allocation_table table d = Some (FLASHFAT_OK, d1) ->
  _flash s = d1 ->
  _num_files table <= Z.of_nat (length (_files (_table s))) ->
  exists s1,
    begin _cs s = Some (FLASHFAT_OK, s1)
    /\ _flash s1 = d1
    /\ _mode s1 = _mode s
    /\ _num_files (_table s1) = _num_files table
    /\ _file_close_err (_table s1) = _file_close_err table
    /\ (forall j, 0 <= j < _num_files table ->
                  arr_get (_files (_table s1)) j = arr_get (_files table) j).
Proof.
  intros Hn Hl Ht He Hs Hstore Hfl Hl0.
  destruct (table_round_trip table (_table s) d Hn Hl Hl0 Ht He Hs)
    as (d1' & table' & Hw & Hg & Hnum & Herr & _ & Hent & Hs1 & _).
  rewrite Hstore in Hw. injection Hw as <-.
  unfold begin, W25Q64FV.begin. rewrite Hfl.
  rewrite (answer_script_nil _ Hs1). cbn [_table _flash set_flash].
  rewrite Hg. cbn [mbind option_bind].
  eexists. split; [reflexivity|].
  cbn [_table _flash _mode set_flash set_table].
  split; [reflexivity|]. split; [reflexivity|]. split; [exact Hnum|].
  split; [exact Herr | exact Hent].
Qed.

Lemma begin_finds_stored_table_witness :
  exists s1,
    begin 10 (fresh stored_1000) = Some (FLASHFAT_OK, s1)
    /\ _num_files (_table s1) = 1
    /\ arr_get (_files (_table s1)) 0
       = Some {| _start_page := 16; _page_length := 3; _end_offset := 232 |}.
Proof.
  destruct (begin_finds_stored_table table_1000 blank_flash stored_1000 10
              (fresh stored_1000))
    as (s1 & Hb & _ & _ & Hnum & _ & Hent).
  - by_computation.
  - by_computation.
  - typed_by_computation.
  - by_computation.
  - reflexivity.
  - reflexivity.
  - reflexivity.
  - by_computation.
  - exists s1. split; [exact Hb|]. split; [exact Hnum|].
    exact (Hent 0 ltac:(by_computation)).
Defined.

(** ** A read that fails *)

(** X16. A [read] whose first [read_page] fails returns 0 and no byte,
    but the cursor has already moved by the clamped length: the bytes
    are skipped, and [peek] is smaller by their number. *)
Theorem failed_read_moves_cursor (length : Z) (s : FlashFAT)
    (rest : list W25Q64FV_status_t) :
  _mode s = FLASHFAT_READ_MODE ->
  W25Q64FV.script (_flash s) = W25Q64FV_FAILURE :: rest ->
  0 <= _current_index s < _end_index s ->
  0 < length -> _current_index s + length < 2 ^ 32 -> _end_index s < 2 ^ 32 ->
  exists s',
    read length s = Some (0, [], s')
    /\ _current_index s'
       = _current_index s + Z.min length (_end_index s - _current_index s)
    /\ peek s' = peek s - Z.min length (_end_index s - _current_index s)
    /\ W25Q64FV.cells (_flash s') = W25Q64FV.cells (_flash s)
    /\ W25Q64FV.script (_flash s') = rest
    /\ _mode s' = FLASHFAT_READ_MODE.
Proof.
  intros Hm Hs Hc Hlen Hfit Hend.
  assert (peek s = _end_index s - _current_index s) as Hpeek.
  { unfold peek. rewrite Hm. unfold u32. zlia. }
  unfold read. rewrite Hm. rewrite decide_False by lia.
  set (len := if decide (u32 (_current_index s + length) > _end_index s)
              then u32 (_end_index s - _current_index s) else length).
  assert (len = Z.min length (_end_index s - _current_index s)) as ->.
  { unfold len, u32. case_decide; zlia. }
  set (n := Z.min length (_end_index s - _current_index s)) in *.
  assert (0 < n) as Hn by (unfold n; lia).
  destruct (Z.to_nat (n / 256 + 1)) as [|fuel] eqn:Hfuel; [zlia|].
  cbn [read_loop]. rewrite decide_True by lia.
  unfold flash_read_page, W25Q64FV.read_page, W25Q64FV.answer. rewrite Hs.
  cbn [mbind option_bind]. eexists. split; [reflexivity|].
  unfold peek.
  cbn [_current_index _end_index _mode _flash set_current_index set_flash
       W25Q64FV.cells W25Q64FV.script].
  rewrite Hm. unfold u32. repeat split; try reflexivity; zlia.
Qed.

Lemma failed_read_moves_cursor_witness :
  exists s',
    read 100 (set_script [W25Q64FV_FAILURE] reader_sample) = Some (0, [], s')
    /\ peek s' = 500.
Proof.
  destruct (failed_read_moves_cursor 100
              (set_script [W25Q64FV_FAILURE] reader_sample) [])
    as (s' & Hr & _ & Hp & _).
  - by_computation.
  - reflexivity.
  - by_computation.
  - by_computation.
  - by_computation.
  - by_computation.
  - exists s'. split; [exact Hr|]. rewrite Hp. by_computation.
Defined.

(** ** The layout after [new_file] *)

Lemma new_file_keeps_layout_witness :
  exists st s',
    new_file two_files = Some (st, s')
    /\ table_ok (_table s') = true
    /\ files_end (_table two_files) < files_end (_table s').
Proof.
  destruct (new_file two_files) as [[st s']|] eqn:Hnew;
    [|vm_compute in Hnew; discriminate].
  exists st, s'. split; [reflexivity|].
  destruct (new_file_keeps_layout two_files st s') as (Hok & _ & Hend).
  - reflexivity.
  - by_computation.
  - reflexivity.
  - typed_by_computation.
  - by_computation.
  - by_computation.
  - exact Hnew.
  - split; [exact Hok | exact Hend].
Defined.
